(** * latent-scope: the cluster labeling pipeline

    A shallow embedding of [latentscope/scripts/label_clusters.py]:
    the Duplicate Filter ([too_many_duplicates]), the Cluster Extractor,
    the Run Identifier and the Labeling Engine ([labeler]), with the
    properties of the specification stated over them. *)

From Stdlib Require Import ZArith NArith Lia String Ascii.
From stdpp Require Import gmap list pretty.

Local Open Scope Z_scope.

(** ** Python strings

    A Python [str] is a sequence of Unicode code points; a code point is
    an [N].  Literals of the source are ASCII and are embedded with [u]. *)

Abbreviation str := (list N) (only parsing).

Definition u (s : string) : str := map N_of_ascii (list_ascii_of_string s).

(** Line feed, space, double quote and single quote. *)
Definition nl : N := 10%N.
Definition sp : N := 32%N.
Definition dquote : N := 34%N.
Definition squote : N := 39%N.

(** [str.isspace] on one code point, the table of CPython's
    [_PyUnicode_IsWhitespace]. *)
Definition isspace (c : N) : bool :=
  ((9 <=? c) && (c <=? 13) || (28 <=? c) && (c <=? 31) || (c =? 32)
   || (c =? 133) || (c =? 160) || (c =? 5760)
   || (8192 <=? c) && (c <=? 8202) || (c =? 8232) || (c =? 8233)
   || (c =? 8239) || (c =? 8287) || (c =? 12288))%N.

(** The fields of [s] between the characters that [sep] selects; there
    is always at least one field. *)
Fixpoint fields (sep : N -> bool) (s : str) : list str :=
  match s with
  | [] => [[]]
  | c :: s' =>
      if sep c then [] :: fields sep s'
      else match fields sep s' with
           | w :: ws => (c :: w) :: ws
           | [] => [[c]]
           end
  end.

Definition nonempty (w : str) : bool :=
  match w with [] => false | _ => true end.

(** [s.split()]: the maximal runs of non-whitespace characters. *)
Definition split_ws (s : str) : list str :=
  List.filter nonempty (fields isspace s).

(** [s.split(sp)] with the one-space separator: every single space
    separates two fields. *)
Definition split_sp (s : str) : list str :=
  fields (N.eqb sp) s.

(** [sep.join(l)]. *)
Fixpoint join (sep : str) (l : list str) : str :=
  match l with
  | [] => []
  | [w] => w
  | w :: l' => w ++ sep ++ join sep l'
  end.

(** [s.replace(old, new)] for a one-character [old]. *)
Definition replace (old : N) (new : str) (s : str) : str :=
  flat_map (fun c => if N.eqb c old then new else [c]) s.

(** ** Python values of the text column and of optional arguments

    A text item, an answer of the model and the argument [rerun] are a
    string or [None]. *)

Inductive pyval :=
| PyNone
| PyStr (s : str).

#[global] Instance pyval_eq_dec : EqDecision pyval.
Proof. solve_decision. Defined.

(** Truth value of [v] in a condition: [None] and the empty string are
    false. *)
Definition truthy (v : pyval) : bool :=
  match v with
  | PyNone => false
  | PyStr s => nonempty s
  end.

(** [str(v)], also what an f-string field renders. *)
Definition py_str (v : pyval) : str :=
  match v with
  | PyNone => u "None"
  | PyStr s => s
  end.

(** ** The Duplicate Filter *)

(** The [for word in words] loop over the dictionary [word_count]. *)
Definition count_words (words : list str) : gmap (list N) Z :=
  foldl (fun word_count word =>
           <[word := default 0 (word_count !! word) + 1]> word_count)
        ∅ words.

Definition too_many_duplicates (line : pyval) (threshold : Z) : bool :=
  if negb (truthy line) then false
  else
    let words := split_ws (py_str line) in
    let word_count := count_words words in
    existsb (fun kv => threshold <? snd kv) (map_to_list word_count).

Definition default_threshold : Z := 10.

(** Number of occurrences of [w] in [l]. *)
Definition occurrences (w : str) (l : list str) : nat :=
  length (List.filter (fun x => bool_decide (x = w)) l).

(** ** The cleaning transform

    The six assignments to [clean_label] in the loop body of [labeler]. *)
Definition clean (label : str) : str :=
  let clean_label := replace nl [sp] label in
  let clean_label := replace dquote [] clean_label in
  let clean_label := replace squote [] clean_label in
  let clean_label := join [sp] (split_ws clean_label) in
  let clean_label := join [sp] (take 5 (split_sp clean_label)) in
  clean_label.

(** The same transform in the words of the specification: newlines
    become spaces, quote characters are removed, every run of whitespace
    becomes one space, and at most the first five whitespace-delimited
    words are kept. *)
Definition newlines_to_spaces (s : str) : str :=
  map (fun c => if N.eqb c nl then sp else c) s.

Definition strip_quotes (s : str) : str :=
  List.filter (fun c => negb (N.eqb c dquote) && negb (N.eqb c squote)) s.

Fixpoint collapse_ws (s : str) : str :=
  match s with
  | [] => []
  | c :: s' =>
      if isspace c then
        match s' with
        | c' :: _ => if isspace c' then collapse_ws s' else sp :: collapse_ws s'
        | [] => [sp]
        end
      else c :: collapse_ws s'
  end.

Definition first_words (n : nat) (s : str) : str :=
  join [sp] (take n (split_ws s)).

Definition clean_spec (raw : str) : str :=
  first_words 5 (collapse_ws (strip_quotes (newlines_to_spaces raw))).

(** ** Tables, files and the model collaborator *)

(** A row of a cluster table: the member record identifiers and the
    Label Entry.  A cell without a value is [PyNone]. *)
Record row := Row {
  indices : list nat;
  label : pyval;
  label_raw : pyval;
  labeled : bool
}.

Record message := Message { role : str; content : str }.

Record metadata := Metadata {
  meta_id : str;
  meta_cluster_id : str;
  meta_model_id : str;
  meta_text_column : str;
  meta_context : str;
  meta_system_prompt : message;
  meta_max_tokens : Z
}.

Inductive file :=
| Parquet (t : list row)
| Json (m : metadata).

Inductive exn :=
| FileNotFoundError (name : str)
| KeyError (key : nat)
| IndexError
| TypeError
| AttributeError
| ChatError (msg : str).

(** What [model.chat] does: it returns a value or raises. *)
Inductive chat_result :=
| ChatReturn (v : pyval)
| ChatRaise (msg : str).

(** What the run does to the outside, in order.  [EChat] carries the
    loop index of the call site next to the messages sent. *)
Inductive event :=
| EWrite (s : str)
| ESleep
| EChat (i : nat) (messages : list message)
| EToParquet (name : str) (t : list row)
| EJsonDump (name : str) (m : metadata).

Inductive res (A : Type) :=
| Val (a : A)
| Exit (code : Z)
| Raise (e : exn).
Arguments Val {A} a.
Arguments Exit {A} code.
Arguments Raise {A} e.

Definition str_of_nat (n : nat) : str := u (pretty n).
Definition str_of_Z (n : Z) : str := u (pretty n).

Definition str_of_exn (e : exn) : str :=
  match e with
  | FileNotFoundError name => u "No such file or directory: " ++ name
  | KeyError k => str_of_nat k
  | IndexError => u "list index out of range"
  | TypeError => u "'>' not supported between instances of 'NoneType' and 'int'"
  | AttributeError => u "'NoneType' object has no attribute 'replace'"
  | ChatError msg => msg
  end.

(** ** The Cluster Extractor *)

(** [Series.drop_duplicates()]: the first occurrence of every value, in
    the order of first occurrence; [seen] holds the values already kept. *)
Fixpoint drop_duplicates_from (seen : list pyval) (items : list pyval)
  : list pyval :=
  match items with
  | [] => []
  | t :: items' =>
      if bool_decide (t ∈ seen) then drop_duplicates_from seen items'
      else t :: drop_duplicates_from (t :: seen) items'
  end.

Definition drop_duplicates (items : list pyval) : list pyval :=
  drop_duplicates_from [] items.

(** [enumerate(items)]. *)
Definition enumerate {A} (l : list A) : list (nat * A) :=
  imap (fun i x => (i, x)) l.

(** One line of the digest, the f-string with [i+1] and [t]. *)
Definition render_item (i : nat) (t : pyval) : str :=
  str_of_nat (i + 1) ++ u ". " ++ py_str t.

(** The list comprehension over [enumerate(items)]: the items that the
    Duplicate Filter lets through, each with its number. *)
Definition numbered_lines (items : list pyval) : list str :=
  map (fun it => render_item (fst it) (snd it))
      (List.filter (fun it => negb (too_many_duplicates (snd it) default_threshold))
                   (enumerate items)).

(** The text of a cluster before it is cut to the token budget. *)
Definition cluster_text (items : list pyval) : str :=
  let items := drop_duplicates items in
  join [nl] (numbered_lines items).

(** [l[:n]] for a Python integer [n]: a negative [n] counts from the end. *)
Definition slice_to {A} (l : list A) (n : Z) : list A :=
  if 0 <=? n then take (Z.to_nat n) l
  else take (Z.to_nat (Z.of_nat (length l) + n)) l.

(** [df.loc[list(indices), text_column]] over the values [df] of the text
    column, rows labelled 0, 1, ...: a label that is absent raises. *)
Fixpoint df_loc (df : list pyval) (idx : list nat) : res (list pyval) :=
  match idx with
  | [] => Val []
  | i :: idx' =>
      match df !! i with
      | None => Raise (KeyError i)
      | Some t =>
          match df_loc df idx' with
          | Val ts => Val (t :: ts)
          | Exit c => Exit c
          | Raise e => Raise e
          end
      end
  end.

(** [chunked_iterable(iterable, size)] for a positive [size]; [fuel]
    bounds the number of chunks. *)
Fixpoint chunks {A} (fuel : nat) (size : nat) (l : list A) : list (list A) :=
  match fuel, l with
  | _, [] => []
  | O, _ => []
  | S fuel', _ => take size l :: chunks fuel' size (drop size l)
  end.

Definition chunked_iterable {A} (iterable : list A) (size : nat)
  : list (list A) :=
  chunks (length iterable) size iterable.

(** ** The Run Identifier *)

(** The decimal digits.  In a pattern over [str] the class [\d] takes
    the decimal digits of every script, and so does [int]: the code
    points of the general category Nd.  They come in runs of ten code
    points that follow each other from the digit zero to the digit nine;
    the list has the zero of every run, as of Unicode 14.0, the
    character database of CPython 3.11. *)
Definition decimal_zeros : list N :=
  [48; 1632; 1776; 1984; 2406; 2534; 2662; 2790;
   2918; 3046; 3174; 3302; 3430; 3558; 3664; 3792;
   3872; 4160; 4240; 6112; 6160; 6470; 6608; 6784;
   6800; 6992; 7088; 7232; 7248; 42528; 43216; 43264;
   43472; 43504; 43600; 44016; 65296; 66720; 68912; 69734;
   69872; 69942; 70096; 70384; 70736; 70864; 71248; 71360;
   71472; 71904; 72016; 72784; 73040; 73120; 92768; 92864;
   93008; 120782; 120792; 120802; 120812; 120822; 123200; 123632;
   125264; 130032]%N.

(** The value of the decimal digit [c]; [None] when [c] is none. *)
Definition decimal_value (c : N) : option Z :=
  (fun zero => Z.of_N (c - zero))
    <$> List.find (fun zero => (zero <=? c) && (c <? zero + 10))%N decimal_zeros.

(** What [\d] matches. *)
Definition isdecimal (c : N) : bool :=
  match decimal_value c with
  | Some _ => true
  | None => false
  end.

Fixpoint take_while {A} (p : A -> bool) (l : list A) : list A :=
  match l with
  | [] => []
  | x :: l' => if p x then x :: take_while p l' else []
  end.

Fixpoint strip_prefix (p s : str) : option str :=
  match p, s with
  | [], _ => Some s
  | a :: p', b :: s' => if N.eqb a b then strip_prefix p' s' else None
  | _ :: _, [] => None
  end.

(** The digits that the pattern [<cluster_id>-labels-\d+\.parquet]
    captures at the start of the file name [f], if it matches there:
    [\d+] takes every decimal digit that follows the prefix, and the
    extension has to come next, since no digit is a full stop. *)
Definition label_file_number (cluster_id f : str) : option str :=
  match strip_prefix (cluster_id ++ u "-labels-") f with
  | None => None
  | Some rest =>
      let ds := take_while isdecimal rest in
      match strip_prefix (u ".parquet") (drop (length ds) rest) with
      | Some _ => if nonempty ds then Some ds else None
      | None => None
      end
  end.

(** [int(ds)] for a string of decimal digits, of any script; a file
    name is far shorter than the longest string that [int] converts. *)
Definition int_of_digits (ds : str) : Z :=
  foldl (fun acc d => 10 * acc + default 0 (decimal_value d)) 0 ds.

(** The format [03d] of an integer that is not negative. *)
Definition format_03d (n : Z) : str :=
  let s := str_of_Z n in
  replicate (3 - length s) 48%N ++ s.

(** The [else] branch of the run-identifier choice: the files of the
    cluster directory that match, their numbers, the next number. *)
Definition fresh_label_id (cluster_id : str) (listing : list str) : str :=
  let label_files :=
    List.filter (fun f => bool_decide (is_Some (label_file_number cluster_id f)))
                listing in
  let next_label_number :=
    match label_files with
    | [] => 1
    | _ =>
        let label_numbers :=
          map (fun f => int_of_digits (default [] (label_file_number cluster_id f)))
              label_files in
        foldr Z.max 0 label_numbers + 1
    end in
  cluster_id ++ u "-labels-" ++ format_03d next_label_number.

(** [clusters[~clusters['labeled']].first_valid_index()]: the index of the
    first row whose flag is false, [None] when there is none. *)
Definition first_unlabeled (clusters : list row) : option nat :=
  fst <$> list_find (fun r => labeled r = false) clusters.

(** [clusters.loc[i, 'label'] = ...] and the two assignments after it. *)
Definition set_entry (clusters : list row) (i : nat) (clean_label : str)
  (label : pyval) : list row :=
  alter (fun r => Row (indices r) (PyStr clean_label) label true) i clusters.

(** The system message of the prompt. *)
Definition system_prompt (context : str) : message :=
  Message (u "system")
    (u "You're job is to summarize lists of items with a short label of no more than 4 words. The items are part of a cluster and the label will be used to distinguish this cluster from others, so pay attention to what makes this group of similar items distinct."
     ++ [nl] ++ context ++ [nl] ++
     u "The user will submit a bulleted list of items and you should choose a label that best summarizes the theme of the list so that someone browsing the labels will have a good idea of what is in the list. "
     ++ [nl] ++
     u "Do not use punctuation, Do not explain yourself, respond with only a few words that summarize the list.").

Definition user_message (extract : str) : message :=
  Message (u "user")
    (u "Here is a list of items, please summarize the list into a label using only a few words:"
     ++ [nl] ++ extract).

(** ** Programs over the world of a run *)

Section World.

(** [M] is the type of the states of the model collaborator. *)
Context {M : Type}.

(** The world of a run: the values of the text column of
    [input.parquet] (when the file exists), the files of the cluster
    directory by name, the model's state, and what was done so far. *)
Record world := World {
  input : option (list pyval);
  cluster_dir : gmap (list N) file;
  model_state : M;
  trace : list event
}.

(** A computation that reads and changes the world and ends with a
    value, with [exit(code)] or with an uncaught exception. *)
Definition prog (A : Type) : Type := world -> res A * world.

Definition ret {A} (a : A) : prog A := fun w => (Val a, w).

Definition bind {A B} (p : prog A) (k : A -> prog B) : prog B :=
  fun w =>
    match p w with
    | (Val a, w') => k a w'
    | (Exit c, w') => (Exit c, w')
    | (Raise e, w') => (Raise e, w')
    end.

Definition raise {A} (e : exn) : prog A := fun w => (Raise e, w).

Definition exit {A} (code : Z) : prog A := fun w => (Exit code, w).

(** [try: p except Exception as e: h e]; [exit] is not an [Exception]. *)
Definition try_except {A} (p : prog A) (h : exn -> prog A) : prog A :=
  fun w =>
    match p w with
    | (Raise e, w') => h e w'
    | r => r
    end.

Definition lift {A} (r : res A) : prog A := fun w => (r, w).

Definition emit (e : event) : prog unit :=
  fun w => (Val tt, World (input w) (cluster_dir w) (model_state w) (trace w ++ [e])).

Definition write (s : str) : prog unit := emit (EWrite s).

Definition sleep : prog unit := emit ESleep.

Definition read_input : prog (list pyval) :=
  fun w =>
    match input w with
    | Some df => (Val df, w)
    | None => (Raise (FileNotFoundError (u "input.parquet")), w)
    end.

Definition read_parquet (name : str) : prog (list row) :=
  fun w =>
    match cluster_dir w !! name with
    | Some (Parquet t) => (Val t, w)
    | _ => (Raise (FileNotFoundError name), w)
    end.

Definition listdir : prog (list str) :=
  fun w => (Val (map fst (map_to_list (cluster_dir w))), w).

Definition to_parquet (name : str) (t : list row) : prog unit :=
  fun w =>
    (Val tt, World (input w) (<[name := Parquet t]> (cluster_dir w))
                   (model_state w) (trace w ++ [EToParquet name t])).

Definition json_dump (name : str) (m : metadata) : prog unit :=
  fun w =>
    (Val tt, World (input w) (<[name := Json m]> (cluster_dir w))
                   (model_state w) (trace w ++ [EJsonDump name m])).

(** [model.chat(messages)] at loop index [i]. *)
Definition call_chat (chat : M -> list message -> chat_result * M)
  (i : nat) (messages : list message) : prog pyval :=
  fun w =>
    let '(r, m') := chat (model_state w) messages in
    let w' := World (input w) (cluster_dir w) m'
                    (trace w ++ [EChat i messages]) in
    match r with
    | ChatReturn v => (Val v, w')
    | ChatRaise msg => (Raise (ChatError msg), w')
    end.

End World.

Arguments world M : clear implicits.
Arguments prog M A : clear implicits.

Notation "x <- c1 ;; c2" := (bind c1 (fun x => c2))
  (at level 100, c1 at next level, right associativity).
Notation "c1 ;; c2" := (bind c1 (fun _ => c2))
  (at level 100, right associativity).

(** ** The Labeling Engine *)

(** The variables of the loop that change from one cluster to the next. *)
Record locals := Locals {
  clusters : list row;
  labels : list pyval;
  clean_labels : list str
}.

Section Engine.

(** The model that [get_chat_model(model_id)] returns, once loaded: its
    encoder over tokens of type [T], its [max_tokens] parameter, and
    [chat], which may depend on and change a state of the model's own. *)
Context {T M : Type}.
Variable encode : str -> list T.
Variable decode : list T -> str.
Variable model_max_tokens : Z.
Variable chat : M -> list message -> chat_result * M.

(** The token budget of the run. *)
Definition max_tokens_of (context : str) : Z :=
  model_max_tokens
  - Z.of_nat (length (encode (content (system_prompt context)))) - 10.

(** The cut of the encoded text to the budget. *)
Definition truncate (max_tokens : Z) (text : str) : list T :=
  let encoded_text := encode text in
  if max_tokens <? Z.of_nat (length encoded_text)
  then slice_to encoded_text max_tokens
  else encoded_text.

(** The body of the loop over [clusters.iterrows()]. *)
Definition extract_row (df : list pyval) (max_tokens : Z) (r : row) : res str :=
  match df_loc df (indices r) with
  | Val items => Val (decode (truncate max_tokens (cluster_text items)))
  | Exit c => Exit c
  | Raise e => Raise e
  end.

Fixpoint make_extracts (df : list pyval) (max_tokens : Z) (rows : list row)
  : res (list str) :=
  match rows with
  | [] => Val []
  | r :: rows' =>
      match extract_row df max_tokens r with
      | Val x =>
          match make_extracts df max_tokens rows' with
          | Val xs => Val (x :: xs)
          | Exit c => Exit c
          | Raise e => Raise e
          end
      | Exit c => Exit c
      | Raise e => Raise e
      end
  end.

(** [clusters.loc[i, column]] for reading. *)
Definition row_at (rows : list row) (i : nat) : prog M row :=
  match rows !! i with
  | Some r => ret r
  | None => raise (KeyError i)
  end.

(** [batch[0]]. *)
Definition batch_item (batch : list str) : prog M str :=
  match batch with
  | x :: _ => ret x
  | [] => raise IndexError
  end.

(** [unlabeled_row > n], where [unlabeled_row] is an integer or [None]. *)
Definition py_gt (unlabeled_row : option nat) (n : nat) : prog M bool :=
  match unlabeled_row with
  | Some k => ret (n <? k)%nat
  | None => raise TypeError
  end.

(** The cleaning of the value that the model returned; a value that is
    not a string has no [replace]. *)
Definition clean_value (label : pyval) : prog M str :=
  match label with
  | PyStr s => ret (clean s)
  | PyNone => raise AttributeError
  end.

(** The [try] statement of the loop body. *)
Definition label_cluster (label_id : str) (sys : message) (i : nat)
  (batch : list str) (loc : locals) : prog M locals :=
  try_except
    (sleep ;;
     extract <- batch_item batch ;;
     let messages := [sys; user_message extract] in
     label <- call_chat chat i messages ;;
     let labels' := labels loc ++ [label] in
     clean_label <- clean_value label ;;
     let clean_labels' := clean_labels loc ++ [clean_label] in
     write (u "cluster " ++ str_of_nat i ++ u " label: " ++ clean_label) ;;
     let clusters' := set_entry (clusters loc) i clean_label label in
     to_parquet (label_id ++ u ".parquet") clusters' ;;
     ret (Locals clusters' labels' clean_labels'))
    (fun e =>
       extract <- batch_item batch ;;
       write extract ;;
       write (u "ERROR: " ++ str_of_exn e) ;;
       write (u "exiting") ;;
       exit 1).

(** The body of the labeling loop at index [i]. *)
Definition iteration (label_id : str) (sys : message)
  (unlabeled_row : option nat) (i : nat) (batch : list str) (loc : locals)
  : prog M locals :=
  resuming <- py_gt unlabeled_row 0 ;;
  if (resuming : bool) then
    r <- row_at (clusters loc) i ;;
    if labeled r then
      write (u "skipping " ++ str_of_nat i ++ u " already labeled "
             ++ py_str (label r)) ;;
      sleep ;;
      ret loc
    else label_cluster label_id sys i batch loc
  else label_cluster label_id sys i batch loc.

(** [for i, batch in enumerate(batches)], counting from [i]. *)
Fixpoint for_each (body : nat -> list str -> locals -> prog M locals)
  (i : nat) (batches : list (list str)) (loc : locals) : prog M locals :=
  match batches with
  | [] => ret loc
  | batch :: batches' =>
      loc' <- body i batch loc ;;
      for_each body (S i) batches' loc'
  end.

Definition batch_size : nat := 1.

Definition labeling_loop (label_id : str) (sys : message)
  (unlabeled_row : option nat) (extracts : list str) (loc : locals)
  : prog M locals :=
  for_each (iteration label_id sys unlabeled_row) 0
           (chunked_iterable extracts batch_size) loc.

(** The choice of the run identifier and of the table to label:
    the first unlabeled row, the run identifier, the table. *)
Definition resolve_run (cluster_id : str) (rerun : pyval) (default_clusters : list row)
  : prog M (option nat * str * list row) :=
  match rerun with
  | PyNone =>
      listing <- listdir ;;
      ret (Some 0%nat, fresh_label_id cluster_id listing, default_clusters)
  | _ =>
      let label_id := py_str rerun in
      loaded <- read_parquet (label_id ++ u ".parquet") ;;
      let unlabeled_row := first_unlabeled loaded in
      write (u "First unlabeled row: "
             ++ match unlabeled_row with
                | Some k => str_of_nat k
                | None => u "None"
                end) ;;
      ret (unlabeled_row, label_id, loaded)
  end.

(** What [labeler] has computed when the labeling loop starts. *)
Record setup := Setup {
  unlabeled_row : option nat;
  label_id : str;
  run_table : list row;
  extracts : list str;
  max_tokens : Z
}.

(** [labeler] up to the labeling loop: the tables, the run identifier,
    the token budget and the extracts. *)
Definition prepare (cluster_id context : str) (rerun : pyval) : prog M setup :=
  df <- read_input ;;
  default_clusters <- read_parquet (cluster_id ++ u "-labels-default.parquet") ;;
  let default_clusters :=
    map (fun r => Row (indices r) (label r) (label_raw r) false) default_clusters in
  run <- resolve_run cluster_id rerun default_clusters ;;
  let '(unlabeled_row, label_id, table) := run in
  write (u "RUNNING: " ++ label_id) ;;
  let max_tokens := max_tokens_of context in
  extracts <- lift (make_extracts df max_tokens table) ;;
  ret (Setup unlabeled_row label_id table extracts max_tokens).

(** [labeler] after the labeling loop: the report and the metadata. *)
Definition finish (text_column cluster_id model_id context : str) (s : setup)
  (loc : locals) : prog M unit :=
  write (u "labels: " ++ str_of_nat (length (labels loc))) ;;
  json_dump (label_id s ++ u ".json")
            (Metadata (label_id s) cluster_id model_id text_column context
                      (system_prompt context) (max_tokens s)) ;;
  write (u "done with " ++ label_id s).

(** [labeler]; the world is the directory of the dataset [dataset_id]
    under the data directory. *)
Definition labeler (text_column cluster_id model_id context : str)
  (rerun : pyval) : prog M unit :=
  s <- prepare cluster_id context rerun ;;
  loc <- labeling_loop (label_id s) (system_prompt context) (unlabeled_row s)
                       (extracts s) (Locals (run_table s) [] []) ;;
  finish text_column cluster_id model_id context s loc.

(** A call of [labeler] that leaves out some keyword arguments. *)
Definition labeler_call (text_column cluster_id model_id context : option str)
  (rerun : option pyval) : prog M unit :=
  labeler (default (u "text") text_column)
          (default (u "cluster-001") cluster_id)
          (default (u "openai-gpt-3.5-turbo") model_id)
          (default [] context)
          (default (PyStr []) rerun).

(** [main]: [args.rerun] is [None] when the option is absent. *)
Definition main (text_column cluster_id model_id context : str)
  (rerun_option : option str) : prog M unit :=
  labeler text_column cluster_id model_id context
          (match rerun_option with
           | Some s => PyStr s
           | None => PyNone
           end).

End Engine.


(** ** Observations on a run *)

(** The loop indices at which the model was called, in order. *)
Definition calls (evs : list event) : list nat :=
  omap (fun e => match e with EChat i _ => Some i | _ => None end) evs.

(** The tables written, in order. *)
Definition persists (evs : list event) : list (list row) :=
  omap (fun e => match e with EToParquet _ t => Some t | _ => None end) evs.

(** What happened between the world [w0] and the later world [w]. *)
Definition new_events {M} (w0 w : world M) : list event :=
  drop (length (trace w0)) (trace w).

(** The rows that the loop does not send to the model: under a first
    unlabeled row above zero, the rows whose flag is set. *)
Definition skipped (unlabeled_row : option nat) (r : row) : bool :=
  match unlabeled_row with
  | Some k => (0 <? k)%nat && labeled r
  | None => false
  end.

(** The indices below [n], ascending, of the rows of [t] that the loop
    sends to the model. *)
Definition sent (unlabeled_row : option nat) (t : list row) (n : nat) : list nat :=
  List.filter (fun j => match t !! j with
                        | Some r => negb (skipped unlabeled_row r)
                        | None => false
                        end)
              (seq 0 n).

(** The indices, ascending, of the rows of [t] whose flag is not set. *)
Definition unlabeled_indices (t : list row) : list nat :=
  List.filter (fun j => match t !! j with
                        | Some r => negb (labeled r)
                        | None => false
                        end)
              (seq 0 (length t)).

(** The Label Entry that the run writes for the answer [raw]. *)
Definition entry_of (r0 : row) (raw : str) : row :=
  Row (indices r0) (PyStr (clean raw)) (PyStr raw) true.

(** ** The invariant of the labeling loop

    The loop started in the world [w0] with the table [t0]; [i]
    iterations later its variables are [loc] and the world is [w]. *)
Record loop_inv {M} (chat : M -> list message -> chat_result * M)
  (label_id : str) (sys : message) (unlabeled_row : option nat)
  (extracts : list str) (t0 : list row) (w0 : world M)
  (i : nat) (loc : locals) (w : world M) : Prop := LoopInv {
  (* the trace only grows, the input is not touched *)
  inv_trace : trace w = trace w0 ++ new_events w0 w;
  inv_input : input w = input w0;
  inv_length : length (clusters loc) = length t0;
  (* the model was called for the rows not skipped, in order *)
  inv_calls : calls (new_events w0 w) = sent unlabeled_row t0 i;
  (* one table written per call *)
  inv_persists : length (persists (new_events w0 w)) = length (calls (new_events w0 w));
  (* the rows not reached yet are as they were *)
  inv_rest : forall j, (i <= j)%nat -> clusters loc !! j = t0 !! j;
  (* the rows passed are as they were when skipped, and hold an answer
     of the model and its cleaning otherwise *)
  inv_done : forall j r0, (j < i)%nat -> t0 !! j = Some r0 ->
    if skipped unlabeled_row r0 then clusters loc !! j = Some r0
    else exists raw x m m',
        clusters loc !! j = Some (entry_of r0 raw)
        /\ extracts !! j = Some x
        /\ chat m [sys; user_message x] = (ChatReturn (PyStr raw), m');
  (* the file of the run holds the table as soon as one row is labeled;
     no other file changes *)
  inv_files :
    cluster_dir w =
    match calls (new_events w0 w) with
    | [] => cluster_dir w0
    | _ => <[label_id ++ u ".parquet" := Parquet (clusters loc)]> (cluster_dir w0)
    end;
  inv_fresh : calls (new_events w0 w) = [] -> clusters loc = t0
}.

(** ** The digest in the words of the specification *)

(** The values of [items] that did not occur earlier in [items]. *)
Definition first_occurrences (items : list pyval) : list pyval :=
  map snd (List.filter (fun it => negb (bool_decide (snd it ∈ take (fst it) items)))
                       (enumerate items)).

(** Exact duplicates removed, flagged items dropped, the survivors
    numbered 1, 2, ... in their order. *)
Definition digest_spec (items : list pyval) : str :=
  let survivors :=
    List.filter (fun t => negb (too_many_duplicates t default_threshold))
                (first_occurrences items) in
  join [nl] (imap (fun n t => str_of_nat (n + 1) ++ u ". " ++ py_str t) survivors).

(** The position of the first occurrence of [t] in [l]. *)
Fixpoint index_of (t : pyval) (l : list pyval) : nat :=
  match l with
  | [] => O
  | x :: l' => if bool_decide (x = t) then O else S (index_of t l')
  end.

(** ** A model for running examples

    One token per code point, and a chat that answers from a script: the
    state is the list of the answers still to give. *)
Definition char_encode (s : str) : list N := s.
Definition char_decode (ts : list N) : str := ts.

(** A byte-level model, in the manner of the encoders that work on the
    UTF-8 form of the text: one token per byte, for the code points below
    65536.  The decoder puts U+FFFD in the place of a byte that does not
    belong to a complete sequence, as decoding with replacement of
    errors does. *)
Definition utf8_bytes (c : N) : list N :=
  (if c <? 128 then [c]
   else if c <? 2048 then [192 + c / 64; 128 + c mod 64]
   else if c <? 65536 then [224 + c / 4096; 128 + (c / 64) mod 64; 128 + c mod 64]
   else [239; 191; 189])%N.

Definition utf8_encode (s : str) : list N := flat_map utf8_bytes s.

Definition continuation (b : N) : bool := ((128 <=? b) && (b <? 192))%N.

Fixpoint utf8_decode (bs : list N) : str :=
  match bs with
  | [] => []
  | b :: rest =>
      if (b <? 128)%N then b :: utf8_decode rest
      else
        match rest with
        | [] => [65533%N]
        | b2 :: rest2 =>
            if (192 <=? b)%N && (b <? 224)%N && continuation b2
            then ((b - 192) * 64 + (b2 - 128))%N :: utf8_decode rest2
            else
              match rest2 with
              | [] => 65533%N :: utf8_decode rest
              | b3 :: rest3 =>
                  if (224 <=? b)%N && (b <? 240)%N && continuation b2
                     && continuation b3
                  then ((b - 224) * 4096 + (b2 - 128) * 64 + (b3 - 128))%N
                       :: utf8_decode rest3
                  else 65533%N :: utf8_decode rest
              end
        end
  end.

Definition scripted (script : list chat_result) (messages : list message)
  : chat_result * list chat_result :=
  match script with
  | r :: script' => (r, script')
  | [] => (ChatRaise (u "no answer"), [])
  end.

Definition toy_labeler (model_max_tokens : Z) :=
  labeler char_encode char_decode model_max_tokens scripted.

Definition toy_df : list pyval :=
  [PyStr (u "a b c"); PyStr (u "a b c"); PyStr (u "d e");
   PyStr (u "x x x x x x x x x x x y"); PyStr (u "z")].

Definition toy_row (idx : list nat) (flag : bool) : row :=
  Row idx (if flag then PyStr (u "old") else PyNone)
          (if flag then PyStr (u "old raw") else PyNone) flag.

Definition toy_world (t : list row) (script : list chat_result)
  : world (list chat_result) :=
  World (Some toy_df)
        {[ u "cluster-001-labels-default.parquet" := Parquet t;
           u "run.parquet" := Parquet t ]}
        script [].

(** ** The numbers of the run identifier *)

(** The list [label_numbers] of [labeler]: the numbers of the files of
    the listing that match. *)
Definition label_numbers (cluster_id : str) (listing : list str) : list Z :=
  omap (fun f => int_of_digits <$> label_file_number cluster_id f) listing.

(** [max(numbers)] for a list of numbers that are not negative; 0 for the
    empty list. *)
Definition max_number (numbers : list Z) : Z := foldr Z.max 0 numbers.


(** A world without files, for a model that answers from a script. *)
Definition empty_world : world (list chat_result) := World None ∅ [] [].

(** A chat that gives the same answer to every call and keeps the state
    of the model as it is. *)
Definition steady {M} (answer : str) (m : M) (messages : list message)
  : chat_result * M :=
  (ChatReturn (PyStr answer), m).

(* ================================================================== *)
(** * Properties *)
(* ================================================================== *)

Example tmd_x11 :
  too_many_duplicates (PyStr (u "x x x x x x x x x x x y")) 10 = true.
Proof. vm_compute. reflexivity. Qed.

Example tmd_x10 :
  too_many_duplicates (PyStr (u "x x x x x x x x x x y")) 10 = false.
Proof. vm_compute. reflexivity. Qed.

Example split_ws_ex :
  split_ws (u "  a  b
 c ") = [u "a"; u "b"; u "c"].
Proof. vm_compute. reflexivity. Qed.

Example split_sp_ex : split_sp (u "a  b") = [u "a"; []; u "b"].
Proof. vm_compute. reflexivity. Qed.

Example clean_ex :
  clean (u "  'Deep'  sea
fish and other creatures ") = u "Deep sea fish and other".
Proof. vm_compute. reflexivity. Qed.

(** The scenarios of the specification. *)
Example digest_scenario :
  cluster_text [PyStr (u "a b c"); PyStr (u "a b c"); PyStr (u "d e")]
  = u "1. a b c" ++ [nl] ++ u "2. d e".
Proof. vm_compute. reflexivity. Qed.

Example excluded_scenario :
  cluster_text [PyStr (u "x x x x x x x x x x x y")] = [].
Proof. vm_compute. reflexivity. Qed.

Example numbering_scenario :
  fresh_label_id (u "cluster-001")
    [u "cluster-001-labels-001.parquet"; u "cluster-001-labels-002.parquet";
     u "cluster-001-labels-002.json"; u "cluster-001-labels-default.parquet"]
  = u "cluster-001-labels-003".
Proof. vm_compute. reflexivity. Qed.

(** The table of run 3, its number written with the Arabic-Indic digit
    three (U+0663): the next run is run 4. *)
Example other_script_scenario :
  fresh_label_id (u "cluster-001")
    [u "cluster-001-labels-" ++ [1635%N] ++ u ".parquet";
     u "cluster-001-labels-default.parquet"]
  = u "cluster-001-labels-004".
Proof. vm_compute. reflexivity. Qed.

Example first_run_scenario :
  fresh_label_id (u "cluster-001") [u "cluster-001-labels-default.parquet"]
  = u "cluster-001-labels-001".
Proof. vm_compute. reflexivity. Qed.

(** A model call that raises on cluster 3 of 10: exit code 1, clusters
    0 to 2 in the file with their flag set, clusters 3 to 9 without. *)
Example abort_scenario :
  let t := replicate 10 (toy_row [4]%nat false) in
  let answer := ChatReturn (PyStr (u "Zed")) in
  let w0 := toy_world t [answer; answer; answer; ChatRaise (u "down")] in
  let rw := toy_labeler 1000 (u "text") (u "cluster-001") (u "m") [] PyNone w0 in
  fst rw = Exit 1
  /\ cluster_dir (snd rw) !! u "cluster-001-labels-001.parquet"
     = Some (Parquet (replicate 3 (Row [4]%nat (PyStr (u "Zed")) (PyStr (u "Zed")) true)
                      ++ replicate 7 (toy_row [4]%nat false)))
  /\ cluster_dir (snd rw) !! u "cluster-001-labels-001.json" = None.
Proof. vm_compute. repeat split; reflexivity. Qed.

(** ** The Duplicate Filter *)

Lemma occurrences_cons w x l :
  occurrences w (x :: l) =
  if bool_decide (x = w) then S (occurrences w l) else occurrences w l.
Proof. unfold occurrences. simpl. by destruct (bool_decide (x = w)). Qed.

Lemma occurrences_pos w l : (0 < occurrences w l)%nat <-> w ∈ l.
Proof.
  induction l as [|x l IH]; simpl.
  - split; [inversion 1 | by intros ?%elem_of_nil].
  - rewrite occurrences_cons, elem_of_cons.
    case_bool_decide as Hx; subst; [split; [auto | lia] |].
    rewrite IH. split; [auto|]. by intros [?|?].
Qed.

(** What the counting loop leaves in the dictionary, started from any
    dictionary [m]. *)
Lemma count_loop_lookup (words : list str) (m : gmap (list N) Z) (w : str) :
  foldl (fun word_count word =>
           <[word := default 0 (word_count !! word) + 1]> word_count)
        m words !! w =
  if decide (occurrences w words = 0%nat) then m !! w
  else Some (default 0 (m !! w) + Z.of_nat (occurrences w words)).
Proof.
  revert m. induction words as [|x words IH]; intros m; simpl; [done|].
  rewrite IH, occurrences_cons. case_bool_decide as Hx.
  - subst x. rewrite lookup_insert_eq. simpl.
    repeat case_decide; try lia; f_equal; lia.
  - rewrite lookup_insert_ne by done. done.
Qed.

Lemma count_words_lookup (words : list str) (w : str) :
  count_words words !! w =
  if decide (occurrences w words = 0%nat) then None
  else Some (Z.of_nat (occurrences w words)).
Proof.
  unfold count_words. rewrite count_loop_lookup, lookup_empty.
  case_decide; [done|]. simpl. f_equal.
Qed.

(** C8. The Duplicate Filter answers [true] exactly when some
    whitespace-delimited token of the item occurs strictly more than
    [threshold] times; the null item and the empty item are never
    flagged, whatever the threshold.  The threshold of a call that
    gives none is 10. *)
Theorem too_many_duplicates_spec (threshold : Z) :
  default_threshold = 10
  /\ (forall s : str,
      too_many_duplicates (PyStr s) threshold = true <->
      exists w : str, w ∈ split_ws s /\
                      threshold < Z.of_nat (occurrences w (split_ws s)))
  /\ too_many_duplicates PyNone threshold = false
  /\ too_many_duplicates (PyStr []) threshold = false.
Proof.
  split; [done|]. split; [|done]. intros s. unfold too_many_duplicates.
  destruct s as [|c s]; simpl truthy; cbn [negb].
  - split; [done|]. intros (w & Hw & _). by apply elem_of_nil in Hw.
  - cbn [py_str]. rewrite existsb_exists. split.
    + intros ([w n] & Hin & Hlt). simpl in Hlt.
      apply list_elem_of_In, elem_of_map_to_list in Hin.
      rewrite count_words_lookup in Hin.
      case_decide; [done|]. injection Hin as <-.
      exists w. split; [apply occurrences_pos; lia | lia].
    + intros (w & Hw & Hlt).
      exists (w, Z.of_nat (occurrences w (split_ws (c :: s)))). split.
      * apply list_elem_of_In, elem_of_map_to_list.
        rewrite count_words_lookup. apply occurrences_pos in Hw.
        case_decide; [lia | done].
      * simpl. lia.
Qed.

(** ** Splitting and joining *)

Lemma fields_not_nil sep s : fields sep s <> [].
Proof.
  destruct s as [|c s]; simpl; [done|].
  destruct (sep c); [done|]. by destruct (fields sep s).
Qed.

(** The characters of a field are characters of the string and none of
    them is a separator. *)
Lemma fields_chars sep s w c :
  w ∈ fields sep s -> c ∈ w -> sep c = false /\ c ∈ s.
Proof.
  revert w. induction s as [|a s IH]; simpl; intros w Hw Hc.
  - apply list_elem_of_singleton in Hw. subst w. by apply elem_of_nil in Hc.
  - destruct (sep a) eqn:Ha.
    + apply elem_of_cons in Hw as [->|Hw]; [by apply elem_of_nil in Hc|].
      destruct (IH w Hw Hc). split; [done | by apply elem_of_cons; right].
    + destruct (fields sep s) as [|w0 ws] eqn:Hf.
      { by destruct (fields_not_nil sep s). }
      apply elem_of_cons in Hw as [->|Hw].
      * apply elem_of_cons in Hc as [->|Hc]; [split; [done | by left]|].
        destruct (IH w0 (list_elem_of_here _ _) Hc).
        split; [done | by apply elem_of_cons; right].
      * destruct (IH w (list_elem_of_further _ _ _ Hw) Hc).
        split; [done | by apply elem_of_cons; right].
Qed.

Lemma fields_app_sep sep w x s :
  (forall c, c ∈ w -> sep c = false) -> sep x = true ->
  fields sep (w ++ x :: s) = w :: fields sep s.
Proof.
  intros Hw Hx. induction w as [|a w IH]; simpl.
  - by rewrite Hx.
  - rewrite (Hw a) by left. rewrite IH; [done|].
    intros c Hc. apply Hw. by right.
Qed.

Lemma fields_no_sep sep w :
  (forall c, c ∈ w -> sep c = false) -> fields sep w = [w].
Proof.
  intros Hw. induction w as [|a w IH]; simpl; [done|].
  rewrite (Hw a) by left. rewrite IH; [done|].
  intros c Hc. apply Hw. by right.
Qed.

Lemma fields_join sep x ws :
  ws <> [] -> sep x = true ->
  (forall w c, w ∈ ws -> c ∈ w -> sep c = false) ->
  fields sep (join [x] ws) = ws.
Proof.
  intros Hne Hx Hws. induction ws as [|w ws IH]; [done|].
  destruct ws as [|w' ws].
  - simpl. apply fields_no_sep. intros c. apply Hws. by left.
  - change (join [x] (w :: w' :: ws)) with (w ++ x :: join [x] (w' :: ws)).
    rewrite fields_app_sep; [|intros c; apply Hws; by left|done].
    f_equal. apply IH; [done|]. intros w0 c Hw0. apply Hws. by right.
Qed.

Lemma elem_of_join sep ws c :
  c ∈ join sep ws -> c ∈ sep \/ exists w, w ∈ ws /\ c ∈ w.
Proof.
  induction ws as [|w ws IH]; [by intros ?%elem_of_nil|].
  destruct ws as [|w' ws].
  - simpl. intros Hc. right. exists w. split; [by left | done].
  - change (join sep (w :: w' :: ws)) with (w ++ sep ++ join sep (w' :: ws)).
    rewrite !elem_of_app. intros [Hc|[Hc|Hc]].
    + right. exists w. split; [by left | done].
    + by left.
    + destruct (IH Hc) as [?|(w0 & Hw0 & ?)]; [by left|].
      right. exists w0. split; [by right | done].
Qed.

Lemma join_nil_inv sep ws :
  (forall w, w ∈ ws -> w <> []) -> join sep ws = [] -> ws = [].
Proof.
  destruct ws as [|w ws]; [done|]. intros Hne Hj. exfalso.
  apply (Hne w); [by left|].
  destruct ws; simpl in Hj; [done|]. by apply app_eq_nil in Hj as [-> _].
Qed.

Lemma nonempty_true w : nonempty w = true <-> w <> [].
Proof. by destruct w. Qed.

(** A word of [s.split()] is not empty, has no whitespace, and is made
    of characters of [s]. *)
Lemma split_ws_word s w :
  w ∈ split_ws s ->
  w <> [] /\ forall c, c ∈ w -> isspace c = false /\ c ∈ s.
Proof.
  unfold split_ws. rewrite list_elem_of_In, filter_In, <- list_elem_of_In.
  intros [Hw Hne]. split; [by apply nonempty_true|].
  intros c Hc. by apply (fields_chars _ _ w).
Qed.

Lemma filter_nonempty_id (ws : list (list N)) :
  (forall w, w ∈ ws -> w <> []) -> List.filter nonempty ws = ws.
Proof.
  induction ws as [|w ws IH]; intros H; simpl; [done|].
  destruct w; [by destruct (H [] (list_elem_of_here _ _))|].
  simpl. f_equal. apply IH. intros w' Hw'. apply H. by right.
Qed.

(** Splitting a single-space join of whitespace-free words gives the
    words back, with either split. *)
Lemma split_ws_join ws :
  (forall w, w ∈ ws -> w <> [] /\ forall c, c ∈ w -> isspace c = false) ->
  split_ws (join [sp] ws) = ws.
Proof.
  intros H. destruct ws as [|w0 ws0] eqn:E; [done|]. rewrite <- E in *.
  unfold split_ws. rewrite fields_join.
  - apply filter_nonempty_id. intros w Hw. by apply H.
  - by rewrite E.
  - done.
  - intros w c Hw Hc. by apply (H w Hw).
Qed.

Lemma isspace_sp c : N.eqb sp c = true -> isspace c = true.
Proof. intros <-%N.eqb_eq. done. Qed.

Lemma split_sp_join ws :
  ws <> [] ->
  (forall w, w ∈ ws -> forall c, c ∈ w -> isspace c = false) ->
  split_sp (join [sp] ws) = ws.
Proof.
  intros Hne H. unfold split_sp. apply fields_join; [done|done|].
  intros w c Hw Hc. specialize (H w Hw c Hc).
  destruct (N.eqb sp c) eqn:E; [|done].
  apply isspace_sp in E. congruence.
Qed.

Lemma split_ws_nil_iff s :
  split_ws s = [] <-> forall c, c ∈ s -> isspace c = true.
Proof.
  unfold split_ws. induction s as [|a s IH]; simpl.
  - split; [by intros _ c ?%elem_of_nil | done].
  - destruct (isspace a) eqn:Ha; simpl.
    + rewrite IH. split.
      * intros H c [->|Hc]%elem_of_cons; auto.
      * intros H c Hc. apply H. by right.
    + destruct (fields isspace s); simpl.
      * split; [done|]. intros H. rewrite (H a) in Ha by left. done.
      * split; [done|]. intros H. rewrite (H a) in Ha by left. done.
Qed.

(** ** The cleaning transform *)

Lemma replace_nl_spec s : replace nl [sp] s = newlines_to_spaces s.
Proof.
  unfold replace, newlines_to_spaces.
  induction s as [|c s IH]; simpl; [done|].
  rewrite IH. by destruct (N.eqb c nl).
Qed.

Lemma replace_quotes_spec s :
  replace squote [] (replace dquote [] s) = strip_quotes s.
Proof.
  unfold replace, strip_quotes.
  induction s as [|c s IH]; simpl; [done|].
  destruct (N.eqb c dquote) eqn:Hd; simpl; [done|].
  rewrite IH. by destruct (N.eqb c squote).
Qed.

Lemma elem_of_strip_quotes c s :
  c ∈ strip_quotes s <-> c ∈ s /\ c <> dquote /\ c <> squote.
Proof.
  unfold strip_quotes.
  rewrite list_elem_of_In, filter_In, <- list_elem_of_In, andb_true_iff,
    !negb_true_iff, !N.eqb_neq.
  tauto.
Qed.

Lemma elem_of_newlines_to_spaces c s :
  c ∈ newlines_to_spaces s <->
  exists c0, c0 ∈ s /\ c = if N.eqb c0 nl then sp else c0.
Proof.
  unfold newlines_to_spaces. rewrite list_elem_of_In, in_map_iff.
  split; intros (c0 & H1 & H2); exists c0.
  - by rewrite <- list_elem_of_In in H2.
  - by rewrite <- list_elem_of_In.
Qed.

(** Collapsing runs of whitespace keeps the first field and the
    non-empty fields after it. *)
Lemma fields_collapse_ws s :
  match fields isspace s, fields isspace (collapse_ws s) with
  | w :: ws, w' :: ws' =>
      w = w' /\ List.filter nonempty ws = List.filter nonempty ws'
  | _, _ => False
  end.
Proof.
  induction s as [|c s IH]; [done|].
  cbn [collapse_ws fields].
  destruct (isspace c) eqn:Hc.
  - destruct s as [|c' s']; [by cbn; rewrite ?Hc|].
    destruct (isspace c') eqn:Hc'.
    + cbn [fields] in IH. rewrite Hc' in IH.
      cbn [fields]. rewrite Hc'.
      destruct (fields isspace (collapse_ws (c' :: s'))) as [|w' ws']; [done|].
      destruct IH as [<- IH]. split; [done|]. by cbn.
    + change (fields isspace (sp :: ?t)) with ([] :: fields isspace t).
      destruct (fields isspace (c' :: s')) as [|w ws]; [done|].
      destruct (fields isspace (collapse_ws (c' :: s'))) as [|w' ws']; [done|].
      destruct IH as [<- IH]. split; [done|].
      cbn. by destruct w; simpl; rewrite IH.
  - cbn [fields]. rewrite Hc.
    destruct (fields isspace s) as [|w ws]; [done|].
    destruct (fields isspace (collapse_ws s)) as [|w' ws']; [done|].
    destruct IH as [<- IH]. done.
Qed.

Lemma split_ws_collapse_ws s : split_ws (collapse_ws s) = split_ws s.
Proof.
  unfold split_ws. pose proof (fields_collapse_ws s) as H.
  destruct (fields isspace s) as [|w ws]; [done|].
  destruct (fields isspace (collapse_ws s)) as [|w' ws']; [done|].
  destruct H as [<- H]. simpl. by rewrite H.
Qed.

(** The last two assignments of the transform amount to keeping the
    first five words. *)
Lemma clean_first_words raw :
  clean raw = first_words 5 (strip_quotes (newlines_to_spaces raw)).
Proof.
  unfold clean, first_words.
  rewrite replace_nl_spec, replace_quotes_spec.
  set (s := strip_quotes (newlines_to_spaces raw)).
  destruct (split_ws s) as [|w ws] eqn:E; [done|].
  rewrite <- E. rewrite split_sp_join; [done|by rewrite E|].
  intros w0 Hw0 c Hc. by apply (split_ws_word s w0).
Qed.

Lemma first_words_words n s w :
  w ∈ take n (split_ws s) ->
  w <> [] /\ forall c, c ∈ w -> isspace c = false /\ c ∈ s.
Proof.
  intros Hw. apply split_ws_word.
  apply elem_of_take in Hw as (i & Hi & _).
  apply list_elem_of_lookup. eauto.
Qed.

Lemma split_ws_first_words n s :
  split_ws (first_words n s) = take n (split_ws s).
Proof.
  unfold first_words. apply split_ws_join.
  intros w Hw. destruct (first_words_words _ _ _ Hw) as [Hne Hc].
  split; [done|]. intros c Hcw. by apply Hc.
Qed.

Lemma elem_of_first_words n s c :
  c ∈ first_words n s -> c = sp \/ (isspace c = false /\ c ∈ s).
Proof.
  unfold first_words. intros [Hc|(w & Hw & Hc)]%elem_of_join.
  - left. by apply list_elem_of_singleton in Hc.
  - right. by apply (first_words_words n s w).
Qed.

Lemma split_ws_not_nil_iff s :
  split_ws s <> [] <-> exists c, c ∈ s /\ isspace c = false.
Proof.
  rewrite split_ws_nil_iff. induction s as [|a s IH].
  - split; [intros H; destruct H; by intros c ?%elem_of_nil|].
    by intros (c & ?%elem_of_nil & _).
  - destruct (isspace a) eqn:Ha.
    + split.
      * intros H. destruct IH as [IH _].
        destruct IH as (c & Hc & Hsp).
        { intros H'. apply H. intros c [->|Hc]%elem_of_cons; auto. }
        exists c. split; [by right | done].
      * intros (c & Hc & Hsp) H. rewrite (H c Hc) in Hsp. done.
    + split.
      * intros _. exists a. split; [by left | done].
      * intros _ H. rewrite (H a) in Ha by left. done.
Qed.

(** The clean label is empty exactly when the raw output has nothing but
    whitespace and quote characters. *)
Lemma clean_nonempty_iff raw :
  clean raw <> [] <->
  exists c, c ∈ raw /\ isspace c = false /\ c <> dquote /\ c <> squote.
Proof.
  rewrite clean_first_words. unfold first_words.
  set (s := strip_quotes (newlines_to_spaces raw)).
  assert (split_ws s <> [] <->
          exists c, c ∈ raw /\ isspace c = false /\ c <> dquote /\ c <> squote)
    as <-.
  { rewrite split_ws_not_nil_iff. unfold s. split.
    - intros (c & Hc & Hsp).
      apply elem_of_strip_quotes in Hc as (Hc & Hd & Hs).
      apply elem_of_newlines_to_spaces in Hc as (c0 & Hc0 & ->).
      destruct (N.eqb c0 nl) eqn:E; [done|]. by exists c0.
    - intros (c & Hc & Hsp & Hd & Hs). exists c. split; [|done].
      apply elem_of_strip_quotes. split; [|done].
      apply elem_of_newlines_to_spaces. exists c. split; [done|].
      destruct (N.eqb c nl) eqn:E; [|done].
      apply N.eqb_eq in E. by subst c. }
  split.
  - intros H E. by rewrite E in H.
  - intros H E. apply join_nil_inv in E.
    + destruct (split_ws s); [done|]. done.
    + intros w Hw. by apply (first_words_words 5 s w).
Qed.

(** C5. The cleaning transform of the loop body is the transform of the
    specification: newlines to spaces, quote characters removed, runs of
    whitespace collapsed, the first five words kept.  The clean label
    therefore has no newline, no double quote and no single quote, and at
    most five whitespace-delimited words. *)
Theorem clean_label_spec (raw : str) :
  clean raw = clean_spec raw
  /\ (nl ∉ clean raw) /\ (dquote ∉ clean raw) /\ (squote ∉ clean raw)
  /\ (length (split_ws (clean raw)) <= 5)%nat.
Proof.
  rewrite clean_first_words. split; [|split; [|split; [|split]]].
  - unfold clean_spec, first_words. by rewrite split_ws_collapse_ws.
  - intros [H|[H _]]%elem_of_first_words; done.
  - intros [H|[_ H]]%elem_of_first_words; [done|].
    by apply elem_of_strip_quotes in H as (_ & ? & _).
  - intros [H|[_ H]]%elem_of_first_words; [done|].
    by apply elem_of_strip_quotes in H as (_ & _ & ?).
  - rewrite split_ws_first_words, length_take. lia.
Qed.

(** ** The Cluster Extractor *)

Lemma drop_duplicates_from_spec (pre seen items : list pyval) :
  (forall x, x ∈ seen <-> x ∈ pre) ->
  drop_duplicates_from seen items =
  map snd (List.filter
             (fun it => negb (bool_decide (snd it ∈ take (fst it) (pre ++ items))))
             (imap (fun i x => (length pre + i, x)%nat) items)).
Proof.
  revert pre seen. induction items as [|t items IH]; intros pre seen Hseen; [done|].
  cbn [drop_duplicates_from imap List.filter compose fst snd].
  rewrite Nat.add_0_r, take_app_length.
  assert (imap ((fun i x => (length pre + i, x)%nat) ∘ S) items =
          imap (fun i x => (length (pre ++ [t]) + i, x)%nat) items) as ->.
  { apply imap_ext. intros i x _. simpl. rewrite length_app. simpl.
    f_equal. lia. }
  replace (pre ++ t :: items) with ((pre ++ [t]) ++ items)
    by (by rewrite <- app_assoc).
  case_bool_decide as Hin.
  - rewrite bool_decide_true by (by apply Hseen). cbn [negb].
    apply IH. intros x. rewrite elem_of_app, list_elem_of_singleton, <- Hseen.
    split; [auto | by intros [?| ->]].
  - rewrite bool_decide_false by (by rewrite <- Hseen). cbn [negb map snd].
    f_equal. apply IH. intros x.
    rewrite elem_of_cons, elem_of_app, list_elem_of_singleton, Hseen. tauto.
Qed.

Lemma drop_duplicates_first_occurrences items :
  drop_duplicates items = first_occurrences items.
Proof.
  unfold drop_duplicates, first_occurrences, enumerate.
  by rewrite (drop_duplicates_from_spec [] []).
Qed.

Lemma drop_duplicates_from_elem seen items t :
  t ∈ drop_duplicates_from seen items <-> t ∈ items /\ t ∉ seen.
Proof.
  revert seen. induction items as [|x items IH]; intros seen; simpl.
  - split; [by intros ?%elem_of_nil | by intros [?%elem_of_nil _]].
  - case_bool_decide as Hin.
    + rewrite IH, elem_of_cons. split; [tauto|].
      intros [[->|?] ?]; [done | tauto].
    + rewrite !elem_of_cons, IH, elem_of_cons. split.
      * intros [->|[? ?]]; [tauto|]. split; [tauto|]. tauto.
      * intros [[->|?] ?]; [tauto|].
        destruct (decide (t = x)); [tauto|]. right. split; [done|].
        intros [?|?]; done.
Qed.

Lemma drop_duplicates_from_NoDup seen items :
  NoDup (drop_duplicates_from seen items).
Proof.
  revert seen. induction items as [|x items IH]; intros seen; simpl.
  - constructor.
  - case_bool_decide; [apply IH|]. constructor; [|apply IH].
    rewrite drop_duplicates_from_elem, elem_of_cons. tauto.
Qed.

(** In a list without duplicates, [enumerate] pairs every item with its
    position, so the number of a rendered line is the place of the item
    in the list that was enumerated. *)
Lemma numbered_lines_from (k : nat) (items : list pyval) :
  NoDup items ->
  map (fun it => render_item (fst it) (snd it))
      (List.filter
         (fun it => negb (too_many_duplicates (snd it) default_threshold))
         (imap (fun i x => (k + i, x)%nat) items)) =
  map (fun t => render_item (k + index_of t items) t)
      (List.filter (fun t => negb (too_many_duplicates t default_threshold))
                   items).
Proof.
  revert k. induction items as [|x items IH]; intros k Hnd; [done|].
  apply NoDup_cons in Hnd as [Hx Hnd].
  cbn [imap List.filter compose fst snd].
  assert (imap ((fun i y => (k + i, y)%nat) ∘ S) items =
          imap (fun i y => (S k + i, y)%nat) items) as ->.
  { apply imap_ext. intros i y _. simpl. f_equal. lia. }
  assert (map (fun t => render_item (k + index_of t (x :: items)) t)
              (List.filter
                 (fun t => negb (too_many_duplicates t default_threshold)) items)
          = map (fun t => render_item (S k + index_of t items) t)
              (List.filter
                 (fun t => negb (too_many_duplicates t default_threshold)) items))
    as Htail.
  { apply map_ext_in. intros t [Ht _]%filter_In. simpl.
    rewrite bool_decide_false.
    - f_equal. lia.
    - intros ->. by apply Hx, list_elem_of_In. }
  destruct (negb (too_many_duplicates x default_threshold)); cbn [map fst snd].
  - rewrite IH, Htail by done. f_equal. simpl.
    by rewrite bool_decide_true.
  - by rewrite IH, Htail.
Qed.

Lemma filter_all {A} (p : A -> bool) (l : list A) :
  (forall x, x ∈ l -> p x = true) -> List.filter p l = l.
Proof.
  induction l as [|x l IH]; intros H; simpl; [done|].
  rewrite (H x) by left. f_equal. apply IH. intros y Hy. apply H. by right.
Qed.

Lemma map_imap {A B C} (g : B -> C) (f : nat -> A -> B) (l : list A) :
  map g (imap f l) = imap (fun n x => g (f n x)) l.
Proof.
  revert f. induction l as [|x l IH]; intros f; simpl; [done|].
  f_equal. apply IH.
Qed.

(** C7, as the code has it.  The digest before truncation is built from
    the first occurrences of the text values, in first-seen order; the
    items that the Duplicate Filter flags are dropped; every surviving
    item is rendered on a line of its own with the 1-based position that
    it has among the first occurrences, before the filter.  The numbers
    are 1..k when the filter flags no item of the cluster. *)
Theorem cluster_text_spec (items : list pyval) :
  let unique := drop_duplicates items in
  unique = first_occurrences items
  /\ NoDup unique
  /\ (forall t, t ∈ unique <-> t ∈ items)
  /\ cluster_text items =
     join [nl]
       (map (fun t => str_of_nat (index_of t unique + 1) ++ u ". " ++ py_str t)
            (List.filter
               (fun t => negb (too_many_duplicates t default_threshold))
               unique))
  /\ ((forall t, t ∈ items -> too_many_duplicates t default_threshold = false) ->
      cluster_text items = digest_spec items).
Proof.
  cbn zeta.
  assert (forall t, t ∈ drop_duplicates items <-> t ∈ items) as Helem.
  { intros t. unfold drop_duplicates. rewrite drop_duplicates_from_elem.
    split; [tauto|]. intros ?. split; [done | by intros ?%elem_of_nil]. }
  split; [apply drop_duplicates_first_occurrences|].
  split; [apply drop_duplicates_from_NoDup|].
  split; [done|]. split.
  - unfold cluster_text, numbered_lines, enumerate. f_equal.
    by rewrite (numbered_lines_from 0) by apply drop_duplicates_from_NoDup.
  - intros Hok. unfold cluster_text, digest_spec, numbered_lines, enumerate.
    rewrite <- drop_duplicates_first_occurrences. f_equal.
    rewrite !filter_all.
    + by rewrite map_imap.
    + intros t Ht%Helem. by rewrite Hok.
    + intros [i t] (j & y & [= -> ->] & Hy)%elem_of_lookup_imap. simpl.
      rewrite Hok; [done|]. apply Helem, list_elem_of_lookup. eauto.
Qed.

(** C7, as the claim states it, fails: an item that the Duplicate Filter
    drops still takes its number, so the survivors are not numbered
    1..k. *)
Lemma cluster_text_numbers_not_consecutive :
  let items := [PyStr (u "x x x x x x x x x x x y"); PyStr (u "d e")] in
  cluster_text items = u "2. d e"
  /\ digest_spec items = u "1. d e"
  /\ cluster_text items <> digest_spec items.
Proof. vm_compute. split; [done|]. split; [done|]. discriminate. Qed.

(** The digest of the first scenario, through C7. *)
Lemma cluster_text_spec_witness :
  cluster_text [PyStr (u "a b c"); PyStr (u "a b c"); PyStr (u "d e")]
  = u "1. a b c" ++ [nl] ++ u "2. d e".
Proof.
  destruct (cluster_text_spec
              [PyStr (u "a b c"); PyStr (u "a b c"); PyStr (u "d e")])
    as (_ & _ & _ & _ & H).
  rewrite H; [vm_compute; reflexivity|].
  intros t Ht.
  repeat (apply elem_of_cons in Ht as [->|Ht]; [vm_compute; reflexivity|]).
  exfalso. exact (proj1 (elem_of_nil _) Ht).
Defined.

Section ExtractorFacts.

Context {T : Type}.
Variable encode : str -> list T.
Variable decode : list T -> str.

Lemma slice_to_nonneg {A} (l : list A) (n : Z) :
  0 <= n -> slice_to l n = take (Z.to_nat n) l.
Proof. intros Hn. unfold slice_to. by rewrite (proj2 (Z.leb_le 0 n)). Qed.

Lemma truncate_nonneg (budget : Z) (text : str) :
  0 <= budget ->
  truncate encode budget text = take (Z.to_nat budget) (encode text).
Proof.
  intros Hb. unfold truncate. destruct (Z.ltb_spec budget (Z.of_nat (length (encode text)))).
  - by apply slice_to_nonneg.
  - rewrite take_ge; [done | lia].
Qed.

Lemma make_extracts_Forall2 (df : list pyval) (budget : Z) (rows : list row)
  (xs : list str) :
  make_extracts encode decode df budget rows = Val xs ->
  Forall2 (fun r x => extract_row encode decode df budget r = Val x) rows xs.
Proof.
  revert xs. induction rows as [|r rows IH]; intros xs; simpl.
  - intros [= <-]. constructor.
  - destruct (extract_row encode decode df budget r) as [x| |] eqn:Hx; [|done..].
    destruct (make_extracts encode decode df budget rows) as [xs'| |]; [|done..].
    intros [= <-]. constructor; [done | by apply IH].
Qed.

End ExtractorFacts.

(** C6, as the claim states it, fails in two ways.  When the system
    prompt leaves no room: with a model of 569 tokens the budget is -2;
    the slice then drops the last two tokens of the encoded text, and the
    digest has six tokens, more than the budget.  And under a budget that
    is not negative, when the cut falls inside a character: with the
    byte-level model of 575 tokens the budget is 4; the text of the
    cluster has five tokens, the four that are kept end with the first
    byte of a letter, the digest has U+FFFD in its place, and the digest
    has six tokens. *)
Lemma digest_over_budget_counterexample :
  (let budget := max_tokens_of char_encode 569 [] in
   let tokens := truncate char_encode budget (cluster_text [PyStr (u "a b c")]) in
   let digest := char_decode tokens in
   budget = -2
   /\ digest = u "1. a b"
   /\ ~ (Z.of_nat (length tokens) <= budget)
   /\ ~ (Z.of_nat (length (char_encode digest)) <= budget))
  /\ (let budget := max_tokens_of utf8_encode 575 [] in
      let text := cluster_text [PyStr [233%N]] in
      let tokens := truncate utf8_encode budget text in
      let digest := utf8_decode tokens in
      budget = 4
      /\ utf8_decode (utf8_encode text) = text
      /\ length (utf8_encode text) = 5%nat
      /\ tokens = [49; 46; 32; 195]%N
      /\ digest = u "1. " ++ [65533%N]
      /\ length (utf8_encode digest) = 6%nat
      /\ ~ (Z.of_nat (length (utf8_encode digest)) <= budget)).
Proof.
  split.
  - vm_compute. split; [reflexivity|]. split; [reflexivity|].
    split; intros H; by apply H.
  - vm_compute. repeat (split; [reflexivity|]). intros H. by apply H.
Qed.

(** ** The Labeling Engine *)

Section EngineFacts.

Context {T M : Type}.
Variable encode : str -> list T.
Variable decode : list T -> str.
Variable model_max_tokens : Z.
Variable chat : M -> list message -> chat_result * M.

Implicit Types (w : world M) (loc : locals) (t : list row).

(** *** One iteration *)

(** The three ways in which the [try] statement ends. *)
Lemma label_cluster_eq lid sys i x loc w :
  label_cluster chat lid sys i [x] loc w =
  let messages := [sys; user_message x] in
  let failure m' e :=
    (Exit 1,
     World (input w) (cluster_dir w) m'
           (trace w ++ [ESleep; EChat i messages; EWrite x;
                        EWrite (u "ERROR: " ++ str_of_exn e);
                        EWrite (u "exiting")])) in
  match chat (model_state w) messages with
  | (ChatReturn (PyStr raw), m') =>
      let clusters' := set_entry (clusters loc) i (clean raw) (PyStr raw) in
      (Val (Locals clusters' (labels loc ++ [PyStr raw])
                   (clean_labels loc ++ [clean raw])),
       World (input w)
             (<[lid ++ u ".parquet" := Parquet clusters']> (cluster_dir w)) m'
             (trace w ++ [ESleep; EChat i messages;
                          EWrite (u "cluster " ++ str_of_nat i ++ u " label: "
                                  ++ clean raw);
                          EToParquet (lid ++ u ".parquet") clusters']))
  | (ChatReturn PyNone, m') => failure m' AttributeError
  | (ChatRaise msg, m') => failure m' (ChatError msg)
  end.
Proof.
  cbv [label_cluster try_except bind sleep emit write batch_item ret
       call_chat clean_value raise exit to_parquet
       input cluster_dir model_state trace].
  destruct w as [inp dir m tr]. 
  destruct (chat m [sys; user_message x]) as [[[|raw]|msg] m'];
    cbv beta iota zeta; rewrite <- ?app_assoc; reflexivity.
Qed.

Lemma iteration_eq lid sys ur i x loc w :
  iteration chat lid sys ur i [x] loc w =
  match ur with
  | None => (Raise TypeError, w)
  | Some k =>
      if (0 <? k)%nat then
        match clusters loc !! i with
        | None => (Raise (KeyError i), w)
        | Some r =>
            if labeled r then
              (Val loc,
               World (input w) (cluster_dir w) (model_state w)
                     (trace w ++ [EWrite (u "skipping " ++ str_of_nat i
                                          ++ u " already labeled "
                                          ++ py_str (label r));
                                  ESleep]))
            else label_cluster chat lid sys i [x] loc w
        end
      else label_cluster chat lid sys i [x] loc w
  end.
Proof.
  unfold iteration, py_gt, row_at. destruct ur as [k|]; [|done].
  unfold bind at 1. unfold ret at 1.
  destruct (0 <? k)%nat; [|done].
  destruct (clusters loc !! i) as [r|]; [|done].
  unfold bind at 1. unfold ret at 1.
  destruct (labeled r); [|done].
  destruct w as [inp dir m tr].
  cbv [bind write sleep emit ret input cluster_dir model_state trace].
  by rewrite <- app_assoc.
Qed.

Lemma set_entry_insert t i raw r0 :
  t !! i = Some r0 ->
  set_entry t i (clean raw) (PyStr raw) = <[i := entry_of r0 raw]> t.
Proof.
  intros Hr0. unfold set_entry, entry_of. rewrite list_insert_alter.
  apply list_alter_ext; [|done]. intros r Hr. congruence.
Qed.

(** The outcome of an iteration over a row of the table, by cases: the
    row is skipped, or it is labeled and the table written, or the call
    or the cleaning raises and the run exits with code 1. *)
Lemma iteration_cases lid sys k i x loc w r0 :
  clusters loc !! i = Some r0 ->
  let messages := [sys; user_message x] in
  (skipped (Some k) r0 = true
   /\ exists s,
       iteration chat lid sys (Some k) i [x] loc w =
       (Val loc, World (input w) (cluster_dir w) (model_state w)
                       (trace w ++ [EWrite s; ESleep])))
  \/ (skipped (Some k) r0 = false
      /\ exists raw m' s,
          chat (model_state w) messages = (ChatReturn (PyStr raw), m')
          /\ let clusters' := <[i := entry_of r0 raw]> (clusters loc) in
             iteration chat lid sys (Some k) i [x] loc w =
             (Val (Locals clusters' (labels loc ++ [PyStr raw])
                          (clean_labels loc ++ [clean raw])),
              World (input w)
                    (<[lid ++ u ".parquet" := Parquet clusters']> (cluster_dir w))
                    m'
                    (trace w ++ [ESleep; EChat i messages; EWrite s;
                                 EToParquet (lid ++ u ".parquet") clusters'])))
  \/ (skipped (Some k) r0 = false
      /\ exists res m' s,
          chat (model_state w) messages = (res, m')
          /\ (res = ChatReturn PyNone \/ exists msg, res = ChatRaise msg)
          /\ iteration chat lid sys (Some k) i [x] loc w =
             (Exit 1,
              World (input w) (cluster_dir w) m'
                    (trace w ++ [ESleep; EChat i messages; EWrite x; EWrite s;
                                 EWrite (u "exiting")]))).
Proof.
  intros Hr0 messages. rewrite iteration_eq, Hr0. unfold skipped.
  destruct (0 <? k)%nat eqn:Hk, (labeled r0) eqn:Hl; cbn [andb];
    try (left; split; [done|]; eexists; reflexivity);
    right; rewrite label_cluster_eq; cbv zeta; subst messages;
    destruct (chat (model_state w) [sys; user_message x])
      as [[[|raw]|msg] m'] eqn:Hchat.
  all: try (right; split; [done|]; do 3 eexists;
            split; [reflexivity|]; split; [|reflexivity]; eauto).
  all: left; split; [done|]; exists raw, m'; eexists; split; [done|];
    cbn zeta; by rewrite (set_entry_insert _ _ _ r0).
Qed.

(** *** The loop *)

Lemma chunks_one {A} (l : list A) (fuel : nat) :
  (length l <= fuel)%nat -> chunks fuel 1 l = map (fun x => [x]) l.
Proof.
  revert fuel. induction l as [|x l IH]; intros fuel Hf.
  - by destruct fuel.
  - destruct fuel as [|fuel]; simpl in Hf; [lia|].
    simpl. rewrite drop_0. f_equal. apply IH. lia.
Qed.

(** With [batch_size = 1] every batch holds one extract. *)
Lemma chunked_iterable_one {A} (l : list A) :
  chunked_iterable l batch_size = map (fun x => [x]) l.
Proof. by apply chunks_one. Qed.

Lemma for_each_app body i bs1 bs2 loc w :
  for_each (M:=M) body i (bs1 ++ bs2) loc w =
  bind (for_each body i bs1 loc) (for_each body (i + length bs1) bs2) w.
Proof.
  revert i loc w. induction bs1 as [|b bs1 IH]; intros i loc w; simpl.
  - unfold bind, ret. by rewrite Nat.add_0_r.
  - replace (i + S (length bs1))%nat with (S i + length bs1)%nat by lia.
    unfold bind. destruct (body i b loc w) as [[loc'| |] w1]; [|done..].
    by rewrite IH.
Qed.

(** The loop over the extracts is the loop over the first [n] of them,
    followed by the iterations from [n] on. *)
Lemma labeling_loop_take lid sys ur xs n loc w :
  (n <= length xs)%nat ->
  labeling_loop chat lid sys ur xs loc w =
  bind (labeling_loop chat lid sys ur (take n xs) loc)
       (for_each (iteration chat lid sys ur) n
                 (map (fun x => [x]) (drop n xs))) w.
Proof.
  intros Hn. unfold labeling_loop. rewrite !chunked_iterable_one.
  rewrite <- (take_drop n xs) at 1. rewrite map_app, for_each_app.
  rewrite length_map, length_take. simpl.
  by replace (n `min` length xs)%nat with n by lia.
Qed.

Lemma labeling_loop_snoc lid sys ur xs x loc w :
  labeling_loop chat lid sys ur (xs ++ [x]) loc w =
  bind (labeling_loop chat lid sys ur xs loc)
       (iteration chat lid sys ur (length xs) [x]) w.
Proof.
  rewrite (labeling_loop_take _ _ _ _ (length xs)) by (rewrite length_app; lia).
  rewrite take_app_length, drop_app_length. unfold bind. simpl.
  destruct (labeling_loop chat lid sys ur xs loc w) as [[loc'| |] w1]; [|done..].
  unfold bind, ret. by destruct (iteration chat lid sys ur (length xs) [x] loc' w1) as [[| |] ?].
Qed.

(** The loop ends normally, or some iteration ends it after the
    iterations before were all normal. *)
Lemma labeling_loop_cases lid sys ur xs loc0 w0 r w' :
  labeling_loop chat lid sys ur xs loc0 w0 = (r, w') ->
  (exists loc, r = Val loc)
  \/ (exists n x loc w,
        xs !! n = Some x
        /\ labeling_loop chat lid sys ur (take n xs) loc0 w0 = (Val loc, w)
        /\ iteration chat lid sys ur n [x] loc w = (r, w')).
Proof.
  revert r w'. induction xs as [|x xs IH] using rev_ind; intros r w' Hrun.
  - left. injection Hrun as <- _. eauto.
  - rewrite labeling_loop_snoc in Hrun. unfold bind in Hrun.
    destruct (labeling_loop chat lid sys ur xs loc0 w0) as [r1 w1] eqn:Hpre.
    assert (forall n y, xs !! n = Some y ->
                        (xs ++ [x]) !! n = Some y /\ take n (xs ++ [x]) = take n xs)
      as Hlt.
    { intros n y Hy. pose proof (lookup_lt_Some _ _ _ Hy).
      split; [by rewrite lookup_app_l | by rewrite take_app_le by lia]. }
    destruct r1 as [loc1|c|e].
    + destruct r as [loc|c|e]; [left; eauto|..]; right;
        exists (length xs), x, loc1, w1;
        rewrite take_app_length, list_lookup_middle; done.
    + injection Hrun as <- <-. right.
      destruct (IH _ _ eq_refl) as [[loc [=]]|(n & y & loc & w & Hy & Hn & Hit)].
      destruct (Hlt n y Hy) as [H1 H2]. exists n, y, loc, w. by rewrite H1, H2.
    + injection Hrun as <- <-. right.
      destruct (IH _ _ eq_refl) as [[loc [=]]|(n & y & loc & w & Hy & Hn & Hit)].
      destruct (Hlt n y Hy) as [H1 H2]. exists n, y, loc, w. by rewrite H1, H2.
Qed.

(** *** The invariant *)

Lemma new_events_refl w : new_events w w = [].
Proof. unfold new_events. by rewrite drop_all. Qed.

Lemma new_events_app w0 w inp dir m evs :
  trace w = trace w0 ++ new_events w0 w ->
  new_events w0 (World inp dir m (trace w ++ evs)) = new_events w0 w ++ evs.
Proof.
  intros Htr. unfold new_events at 1. simpl. rewrite Htr at 1.
  by rewrite <- app_assoc, drop_app_length.
Qed.

Lemma sent_S ur t i :
  sent ur t (S i) =
  sent ur t i ++ match t !! i with
                 | Some r => if skipped ur r then [] else [i]
                 | None => []
                 end.
Proof.
  unfold sent. rewrite seq_S, List.filter_app. simpl.
  destruct (t !! i) as [r|]; [|done]. by destruct (skipped ur r).
Qed.

Lemma calls_app evs1 evs2 : calls (evs1 ++ evs2) = calls evs1 ++ calls evs2.
Proof. apply omap_app. Qed.

Lemma persists_app evs1 evs2 :
  persists (evs1 ++ evs2) = persists evs1 ++ persists evs2.
Proof. apply omap_app. Qed.

Lemma loop_inv_init lid sys ur xs t0 w0 ls cs :
  loop_inv chat lid sys ur xs t0 w0 0 (Locals t0 ls cs) w0.
Proof.
  split; rewrite ?new_events_refl; try done.
  - by rewrite app_nil_r.
  - intros j r0 Hj. lia.
Qed.

(** An iteration that ends normally takes the invariant from [i] to
    [S i]. *)
Lemma loop_inv_step lid sys ur xs t0 w0 i x loc w loc' w' :
  length t0 = length xs ->
  xs !! i = Some x ->
  loop_inv chat lid sys ur xs t0 w0 i loc w ->
  iteration chat lid sys ur i [x] loc w = (Val loc', w') ->
  loop_inv chat lid sys ur xs t0 w0 (S i) loc' w'.
Proof.
  intros Hlen Hx [Htr Hin Hlen' Hcalls Hper Hrest Hdone Hfiles Hfresh] Hit.
  destruct (lookup_lt_is_Some_2 t0 i) as [r0 Hr0];
    [rewrite Hlen; by eapply lookup_lt_Some|].
  assert (clusters loc !! i = Some r0) as Hr by (by rewrite Hrest).
  destruct ur as [k|]; [|by rewrite iteration_eq in Hit].
  destruct (iteration_cases lid sys k i x loc w r0 Hr)
    as [[Hsk [s Heq]] | [[Hsk (raw & m' & s & Hchat & Heq)]
                        | [Hsk (res & m' & s & _ & _ & Heq)]]];
    rewrite Heq in Hit; [| |done]; injection Hit as <- <-.
  - (* the row is skipped *)
    pose proof (new_events_app w0 w (input w) (cluster_dir w) (model_state w)
                  [EWrite s; ESleep] Htr) as Hne.
    split; rewrite ?Hne, ?calls_app, ?persists_app, ?sent_S, ?Hr0, ?Hsk;
      simpl; rewrite ?app_nil_r; try done.
    + by rewrite Htr at 1; rewrite <- app_assoc.
    + intros j Hj. apply Hrest. lia.
    + intros j rj Hj Hrj. destruct (decide (j = i)) as [->|Hne'].
      * replace rj with r0 by congruence. simpl in Hsk. by rewrite Hsk.
      * apply Hdone; [lia | done].
  - (* the row is labeled *)
    cbn zeta in Heq |- *.
    set (t' := <[i := entry_of r0 raw]> (clusters loc)).
    pose proof (new_events_app w0 w (input w)
                  (<[lid ++ u ".parquet" := Parquet t']> (cluster_dir w)) m'
                  [ESleep; EChat i [sys; user_message x]; EWrite s;
                   EToParquet (lid ++ u ".parquet") t'] Htr) as Hne.
    split; rewrite ?Hne, ?calls_app, ?persists_app, ?sent_S, ?Hr0, ?Hsk;
      simpl; try done.
    + by rewrite Htr at 1; rewrite <- app_assoc.
    + unfold t'. by rewrite length_insert.
    + by rewrite Hcalls.
    + rewrite !length_app, Hper. done.
    + intros j Hj. unfold t'. rewrite list_lookup_insert_ne by lia.
      apply Hrest. lia.
    + intros j rj Hj Hrj. destruct (decide (j = i)) as [->|Hne'].
      * replace rj with r0 by congruence. simpl in Hsk. rewrite Hsk.
        exists raw, x, (model_state w), m'. split; [|done].
        unfold t'. apply list_lookup_insert_eq. by eapply lookup_lt_Some.
      * unfold t'. rewrite list_lookup_insert_ne by done.
        apply Hdone; [lia | done].
    + rewrite Hfiles.
      destruct (calls (new_events w0 w) ++ [i]) eqn:E;
        [by apply app_eq_nil in E as [_ ?]|].
      destruct (calls (new_events w0 w)); [done|].
      by rewrite insert_insert_eq.
    + by intros [_ ?]%app_eq_nil.
Qed.

(** The invariant holds after any number of normal iterations. *)
Lemma loop_inv_prefix lid sys ur xs t0 w0 ls cs n loc w :
  length t0 = length xs ->
  (n <= length xs)%nat ->
  labeling_loop chat lid sys ur (take n xs) (Locals t0 ls cs) w0 = (Val loc, w) ->
  loop_inv chat lid sys ur xs t0 w0 n loc w.
Proof.
  intros Hlen. revert loc w. induction n as [|n IH]; intros loc w Hn Hrun.
  - injection Hrun as <- <-. apply loop_inv_init.
  - destruct (lookup_lt_is_Some_2 xs n) as [x Hx]; [lia|].
    rewrite (take_S_r _ _ _ Hx), labeling_loop_snoc in Hrun.
    unfold bind in Hrun.
    destruct (labeling_loop chat lid sys ur (take n xs) (Locals t0 ls cs) w0)
      as [[loc1| |] w1] eqn:Hpre; [|done..].
    rewrite length_take_le in Hrun by lia.
    eapply loop_inv_step; [done | done | | done].
    apply IH; [lia | done].
Qed.

(** The whole loop under a first unlabeled row [k]: it ends normally
    with the invariant at the last index, or it exits with code 1 at the
    first row, not skipped, for which the call or the cleaning raises. *)
Lemma labeling_loop_outcome lid sys k xs t0 ls cs w0 r w :
  length t0 = length xs ->
  labeling_loop chat lid sys (Some k) xs (Locals t0 ls cs) w0 = (r, w) ->
  (exists loc,
      r = Val loc /\ loop_inv chat lid sys (Some k) xs t0 w0 (length xs) loc w)
  \/ (exists n x r0 loc1 w1 res m' s,
        r = Exit 1
        /\ xs !! n = Some x /\ t0 !! n = Some r0
        /\ skipped (Some k) r0 = false
        /\ labeling_loop chat lid sys (Some k) (take n xs) (Locals t0 ls cs) w0
           = (Val loc1, w1)
        /\ loop_inv chat lid sys (Some k) xs t0 w0 n loc1 w1
        /\ chat (model_state w1) [sys; user_message x] = (res, m')
        /\ (res = ChatReturn PyNone \/ exists msg, res = ChatRaise msg)
        /\ w = World (input w1) (cluster_dir w1) m'
                     (trace w1 ++ [ESleep; EChat n [sys; user_message x];
                                   EWrite x; EWrite s; EWrite (u "exiting")])).
Proof.
  intros Hlen Hrun.
  destruct (labeling_loop_cases _ _ _ _ _ _ _ _ Hrun)
    as [[loc ->]|(n & x & loc1 & w1 & Hx & Hpre & Hit)].
  - left. exists loc. split; [done|].
    apply (loop_inv_prefix lid sys (Some k) xs t0 w0 ls cs); [done|lia|].
    by rewrite take_ge.
  - pose proof (lookup_lt_Some _ _ _ Hx) as Hn.
    pose proof (loop_inv_prefix lid sys (Some k) xs t0 w0 ls cs n loc1 w1
                  Hlen ltac:(lia) Hpre) as Hinv.
    destruct (lookup_lt_is_Some_2 t0 n) as [r0 Hr0]; [lia|].
    assert (clusters loc1 !! n = Some r0) as Hr
        by (by rewrite (inv_rest _ _ _ _ _ _ _ _ _ _ Hinv)).
    destruct (iteration_cases lid sys k n x loc1 w1 r0 Hr)
      as [[Hsk [s Heq]] | [[Hsk (raw & m' & s & Hchat & Heq)]
                          | [Hsk (res & m' & s & Hchat & Hres & Heq)]]];
      rewrite Heq in Hit; injection Hit as <- <-.
    + left. eexists. split; [done|].
      apply (loop_inv_prefix lid sys (Some k) xs t0 w0 ls cs); [done|lia|].
      by rewrite take_ge.
    + left. eexists. split; [done|].
      apply (loop_inv_prefix lid sys (Some k) xs t0 w0 ls cs); [done|lia|].
      by rewrite take_ge.
    + right. exists n, x, r0, loc1, w1, res, m', s. done.
Qed.

(** *** Before and after the loop *)

Lemma make_extracts_length df budget rows xs :
  make_extracts encode decode df budget rows = Val xs ->
  length xs = length rows.
Proof.
  intros H%make_extracts_Forall2. symmetry. by eapply Forall2_length.
Qed.

(** What [prepare] has read and decided when it succeeds.  It calls no
    model and writes no file. *)
Lemma prepare_inv cid ctx rerun w0 s w1 :
  prepare encode decode model_max_tokens cid ctx rerun w0 = (Val s, w1) ->
  exists df td evs,
    input w0 = Some df
    /\ cluster_dir w0 !! (cid ++ u "-labels-default.parquet") = Some (Parquet td)
    /\ w1 = World (input w0) (cluster_dir w0) (model_state w0) (trace w0 ++ evs)
    /\ calls evs = [] /\ persists evs = []
    /\ max_tokens s = max_tokens_of encode model_max_tokens ctx
    /\ make_extracts encode decode df (max_tokens s) (run_table s)
       = Val (extracts s)
    /\ match rerun with
       | PyNone =>
           unlabeled_row s = Some 0%nat
           /\ label_id s = fresh_label_id cid (map fst (map_to_list (cluster_dir w0)))
           /\ run_table s
              = map (fun r => Row (indices r) (label r) (label_raw r) false) td
       | _ =>
           label_id s = py_str rerun
           /\ cluster_dir w0 !! (py_str rerun ++ u ".parquet")
              = Some (Parquet (run_table s))
           /\ unlabeled_row s = first_unlabeled (run_table s)
       end.
Proof.
  unfold prepare, read_input, read_parquet, resolve_run.
  destruct w0 as [inp dir m tr]. unfold bind at 1. cbn [input].
  destruct inp as [df|]; [|done].
  unfold bind at 1. cbn [cluster_dir].
  destruct (dir !! (cid ++ u "-labels-default.parquet")) as [[td|]|] eqn:Hd;
    [|done..].
  intros H. exists df, td.
  destruct rerun as [|rid].
  - cbv [bind listdir ret write emit lift input cluster_dir model_state trace]
      in H.
    destruct (make_extracts _ _ _ _ _) as [xs| |] eqn:Hxs; [|done..].
    injection H as <- <-. eexists. rewrite <- ?app_assoc.
    split; [done|]. split; [done|]. split; [reflexivity|]. done.
  - cbv [bind ret write emit lift read_parquet input cluster_dir model_state
          trace py_str] in H.
    destruct (dir !! (rid ++ u ".parquet")) as [[t|]|] eqn:Hr; [|done..].
    destruct (make_extracts _ _ _ _ _) as [xs| |] eqn:Hxs; [|done..].
    injection H as <- <-. eexists. rewrite <- !app_assoc.
    split; [done|]. split; [done|]. split; [reflexivity|]. done.
Qed.

Lemma finish_eq tc cid mid ctx s loc w :
  finish (M:=M) tc cid mid ctx s loc w =
  (Val tt,
   World (input w)
         (<[label_id s ++ u ".json" :=
              Json (Metadata (label_id s) cid mid tc ctx (system_prompt ctx)
                             (max_tokens s))]> (cluster_dir w))
         (model_state w)
         (trace w ++ [EWrite (u "labels: " ++ str_of_nat (length (labels loc)));
                      EJsonDump (label_id s ++ u ".json")
                        (Metadata (label_id s) cid mid tc ctx (system_prompt ctx)
                                  (max_tokens s));
                      EWrite (u "done with " ++ label_id s)])).
Proof.
  destruct w as [inp dir m tr].
  cbv [finish bind write emit json_dump input cluster_dir model_state trace].
  by rewrite <- !app_assoc.
Qed.

(** [labeler] is [prepare], then the loop, then [finish]; an exit or an
    exception of the loop ends the run. *)
Lemma labeler_eq tc cid mid ctx rerun w0 s w1 :
  prepare encode decode model_max_tokens cid ctx rerun w0 = (Val s, w1) ->
  labeler encode decode model_max_tokens chat tc cid mid ctx rerun w0 =
  match labeling_loop chat (label_id s) (system_prompt ctx) (unlabeled_row s)
                      (extracts s) (Locals (run_table s) [] []) w1 with
  | (Val loc, w) => finish tc cid mid ctx s loc w
  | (Exit c, w) => (Exit c, w)
  | (Raise e, w) => (Raise e, w)
  end.
Proof.
  intros Hp. unfold labeler. unfold bind at 1. rewrite Hp.
  unfold bind at 1.
  by destruct (labeling_loop _ _ _ _ _ _ _) as [[loc|c|e] w].
Qed.

(** *** The token budget *)

(** C6, as the code has it.  The budget of a run is the model's
    [max_tokens] less the token count of the system prompt less 10; it
    is computed once, and the one value serves every cluster.  When the
    budget is not negative, the extract of every cluster is the decoding
    of the first [budget] tokens of its encoded text, a sequence of at
    most [budget] tokens; and the extract itself has at most [budget]
    tokens when encoding what was decoded never gives more tokens than
    were decoded. *)
Theorem extracts_within_budget cid ctx rerun w0 s w1 :
  prepare encode decode model_max_tokens cid ctx rerun w0 = (Val s, w1) ->
  let budget := max_tokens s in
  budget = model_max_tokens
           - Z.of_nat (length (encode (content (system_prompt ctx)))) - 10
  /\ (0 <= budget ->
      exists df,
        input w0 = Some df
        /\ Forall2
             (fun r x =>
                exists items,
                  df_loc df (indices r) = Val items
                  /\ x = decode (take (Z.to_nat budget)
                                      (encode (cluster_text items)))
                  /\ Z.of_nat (length (take (Z.to_nat budget)
                                            (encode (cluster_text items))))
                     <= budget
                  /\ ((forall ts, (length (encode (decode ts)) <= length ts)%nat) ->
                      Z.of_nat (length (encode x)) <= budget))
             (run_table s) (extracts s)).
Proof.
  intros Hp budget.
  destruct (prepare_inv _ _ _ _ _ _ Hp)
    as (df & td & evs0 & Hin & Hd & Hw1 & Hc0 & Hp0 & Hmt & Hxs & _).
  fold budget in Hmt, Hxs. split; [done|]. intros Hb.
  exists df. split; [done|].
  apply make_extracts_Forall2 in Hxs.
  eapply Forall2_impl; [exact Hxs|].
  intros r x. unfold extract_row.
  destruct (df_loc df (indices r)) as [items| |]; [|done..].
  intros [= <-]. exists items. split; [done|].
  rewrite truncate_nonneg by done. split; [done|].
  split; [rewrite length_take; lia|].
  intros Hre.
  specialize (Hre (take (Z.to_nat budget) (encode (cluster_text items)))).
  rewrite length_take in Hre. lia.
Qed.

Lemma new_events_eq w0 w evs :
  trace w = trace w0 ++ evs -> new_events w0 w = evs.
Proof. intros H. unfold new_events. by rewrite H, drop_app_length. Qed.

Lemma sent_all k t :
  sent (Some k) t (length t) =
  if (0 <? k)%nat then unlabeled_indices t else seq 0 (length t).
Proof.
  unfold sent, unlabeled_indices, skipped. destruct (0 <? k)%nat; [done|].
  apply filter_all. intros j Hj%list_elem_of_In%in_seq.
  destruct (lookup_lt_is_Some_2 t j) as [r ->]; [lia | done].
Qed.

Lemma sent_prefix ur t n m :
  (n <= m)%nat -> sent ur t n `prefix_of` sent ur t m.
Proof.
  intros Hnm. unfold sent.
  replace m with (n + (m - n))%nat by lia.
  rewrite seq_app, List.filter_app. by apply prefix_app_r.
Qed.

(** *** Resumed runs *)

(** C1, as the code has it.  A resumed run over a table with an
    unlabeled row goes through the clusters in ascending order of index.
    When the first unlabeled row is above zero, it calls the model for
    the rows whose flag is not set and for no other row; when the first
    unlabeled row is row zero, the flags are not looked at and the model
    is called for every row.  The run calls exactly these rows if it
    ends normally and an initial part of them if it exits; it ends
    normally if the model always answers with a string. *)
Theorem resumed_run_calls tc cid mid ctx rid t k w0 s w1 r w :
  prepare encode decode model_max_tokens cid ctx (PyStr rid) w0 = (Val s, w1) ->
  cluster_dir w0 !! (rid ++ u ".parquet") = Some (Parquet t) ->
  first_unlabeled t = Some k ->
  labeler encode decode model_max_tokens chat tc cid mid ctx (PyStr rid) w0
  = (r, w) ->
  let expected :=
    if (0 <? k)%nat then unlabeled_indices t else seq 0 (length t) in
  calls (new_events w0 w) `prefix_of` expected
  /\ (r = Val tt -> calls (new_events w0 w) = expected)
  /\ (r = Val tt \/ r = Exit 1)
  /\ ((forall m msgs, exists raw m', chat m msgs = (ChatReturn (PyStr raw), m'))
      -> r = Val tt).
Proof.
  intros Hp Ht Hk Hrun expected.
  destruct (prepare_inv _ _ _ _ _ _ Hp)
    as (df & td & evs0 & Hin & Hd & Hw1 & Hc0 & Hp0 & Hmt & Hxs & Hlid & Hfile & Hur).
  cbn [py_str] in Hfile. rewrite Ht in Hfile. injection Hfile as Hrt.
  rewrite <- Hrt, Hk in Hur.
  pose proof (make_extracts_length _ _ _ _ Hxs) as Hlen. rewrite <- Hrt in Hlen.
  rewrite (labeler_eq _ _ _ _ _ _ _ _ Hp), Hur, <- Hrt in Hrun.
  destruct (labeling_loop _ _ _ _ _ _ _) as [rl wl] eqn:Hloop.
  assert (trace w1 = trace w0 ++ evs0) as Htr1 by (by rewrite Hw1).
  destruct (labeling_loop_outcome _ _ _ _ _ _ _ _ _ _ (eq_sym Hlen) Hloop)
    as [(loc & -> & Hinv)
       |(n & x & r0 & loc1 & wn & res & m' & str & -> & Hx & Hr0 & Hsk & Hpre
         & Hinv & Hchat & Hres & ->)].
  - rewrite finish_eq in Hrun. injection Hrun as Hr Hw. subst r.
    assert (calls (new_events w0 w) = expected) as ->.
    { rewrite <- Hw. erewrite new_events_eq.
      2:{ cbn [trace]. rewrite (inv_trace _ _ _ _ _ _ _ _ _ _ Hinv), Htr1.
          rewrite <- !app_assoc. reflexivity. }
      rewrite !calls_app, Hc0, (inv_calls _ _ _ _ _ _ _ _ _ _ Hinv).
      cbn [calls omap app]. rewrite app_nil_r, Hlen. apply sent_all. }
    split; [done|]. split; [done|]. split; [by left|]. done.
  - injection Hrun as Hr Hw. subst r.
    assert (calls (new_events w0 w) = sent (Some k) t (S n)) as ->.
    { rewrite <- Hw. erewrite new_events_eq.
      2:{ cbn [trace]. rewrite (inv_trace _ _ _ _ _ _ _ _ _ _ Hinv), Htr1.
          rewrite <- !app_assoc. reflexivity. }
      rewrite !calls_app, Hc0, (inv_calls _ _ _ _ _ _ _ _ _ _ Hinv).
      cbn [calls omap app]. by rewrite sent_S, Hr0, Hsk. }
    pose proof (lookup_lt_Some _ _ _ Hr0) as Hn.
    split; [|split; [done|split; [by right|]]].
    + unfold expected. rewrite <- sent_all. apply sent_prefix. lia.
    + intros Hgood.
      destruct (Hgood (model_state wn) [system_prompt ctx; user_message x])
        as (raw & m'' & Hgood').
      rewrite Hgood' in Hchat. by destruct Hres as [->|[msg ->]].
Qed.

Lemma first_unlabeled_None t :
  first_unlabeled t = None <-> forall r, r ∈ t -> labeled r = true.
Proof.
  unfold first_unlabeled. rewrite fmap_None, list_find_None, Forall_forall.
  split; intros H r Hr; specialize (H r Hr); by destruct (labeled r).
Qed.

(** With no first unlabeled row the comparison that opens the loop body
    raises at the first cluster. *)
Lemma labeling_loop_none lid sys x xs loc w :
  labeling_loop chat lid sys None (x :: xs) loc w = (Raise TypeError, w).
Proof.
  unfold labeling_loop. rewrite chunked_iterable_one. simpl.
  unfold bind. by rewrite iteration_eq.
Qed.

(** C2 on the code.  A rerun over a table that has rows, all of them
    labeled, calls no model and changes no file, but it does not end
    normally: the first unlabeled row is [None], and its comparison with
    zero raises [TypeError] outside the [try] statement. *)
Theorem rerun_all_labeled_raises tc cid mid ctx rid t w0 s w1 :
  prepare encode decode model_max_tokens cid ctx (PyStr rid) w0 = (Val s, w1) ->
  cluster_dir w0 !! (rid ++ u ".parquet") = Some (Parquet t) ->
  (forall r, r ∈ t -> labeled r = true) ->
  t <> [] ->
  labeler encode decode model_max_tokens chat tc cid mid ctx (PyStr rid) w0
  = (Raise TypeError, w1)
  /\ calls (new_events w0 w1) = []
  /\ cluster_dir w1 = cluster_dir w0.
Proof.
  intros Hp Ht Hall Hne.
  destruct (prepare_inv _ _ _ _ _ _ Hp)
    as (df & td & evs0 & Hin & Hd & Hw1 & Hc0 & Hp0 & Hmt & Hxs & Hlid & Hfile & Hur).
  cbn [py_str] in Hfile. rewrite Ht in Hfile. injection Hfile as Hrt.
  rewrite <- Hrt in Hur. rewrite (proj2 (first_unlabeled_None t) Hall) in Hur.
  pose proof (make_extracts_length _ _ _ _ Hxs) as Hlen. rewrite <- Hrt in Hlen.
  rewrite (labeler_eq _ _ _ _ _ _ _ _ Hp), Hur.
  destruct (extracts s) as [|x xs]; [by destruct t|].
  rewrite labeling_loop_none. split; [done|].
  rewrite Hw1. split; [|done].
  by erewrite new_events_eq by reflexivity.
Qed.

(** *** Checkpoints *)

Lemma elem_of_sent ur t n j :
  j ∈ sent ur t n <->
  (j < n)%nat /\ exists r0, t !! j = Some r0 /\ skipped ur r0 = false.
Proof.
  unfold sent. rewrite list_elem_of_In, filter_In, in_seq. split.
  - intros [Hj Hs]. split; [lia|].
    destruct (t !! j) as [r0|]; [|done]. exists r0. split; [done|].
    by destruct (skipped ur r0).
  - intros [Hj (r0 & -> & ->)]. split; [lia | done].
Qed.

(** C3.  Take any number [n] of iterations of the loop that ended
    normally: the loop over the first [n] extracts, which is how the loop
    over all of them begins ([labeling_loop_take]).  The clusters labeled
    so far are the rows below [n] that were not skipped.  The model was
    called for each of them, in order, and for no other row, and one
    table was written for each: no write is put off.  For each of them
    the file of the run holds the table of the loop as it is now, in
    which the row has its flag set and holds an answer and the cleaned
    answer.  Every row below [n] has its flag set in that table.  If
    iteration [n - 1] was not a skip, writing the table as it is now was
    the last thing done before iteration [n] starts. *)
Theorem checkpoint_after_each_cluster lid sys ur xs t0 ls cs w0 n loc w :
  length t0 = length xs ->
  (n <= length xs)%nat ->
  labeling_loop chat lid sys ur (take n xs) (Locals t0 ls cs) w0 = (Val loc, w) ->
  let labeled_now := sent ur t0 n in
  calls (new_events w0 w) = labeled_now
  /\ length (persists (new_events w0 w)) = length labeled_now
  /\ (forall j r0,
        (j < n)%nat -> t0 !! j = Some r0 -> skipped ur r0 = false ->
        j ∈ calls (new_events w0 w)
        /\ cluster_dir w !! (lid ++ u ".parquet") = Some (Parquet (clusters loc))
        /\ exists raw,
            clusters loc !! j
            = Some (Row (indices r0) (PyStr (clean raw)) (PyStr raw) true))
  /\ (forall j r, (j < n)%nat -> clusters loc !! j = Some r -> labeled r = true)
  /\ (forall n' r0,
        n = S n' -> t0 !! n' = Some r0 -> skipped ur r0 = false ->
        last (trace w) = Some (EToParquet (lid ++ u ".parquet") (clusters loc))
        /\ last (persists (new_events w0 w)) = Some (clusters loc)).
Proof.
  intros Hlen Hn Hrun labeled_now.
  pose proof (loop_inv_prefix _ _ _ _ _ _ _ _ _ _ _ Hlen Hn Hrun) as Hinv.
  destruct Hinv as [Htr Hin Hlen' Hcalls Hper Hrest Hdone Hfiles Hfresh].
  split; [done|]. split; [by rewrite Hper, Hcalls|]. split; [|split].
  - intros j r0 Hj Hr0 Hsk.
    assert (j ∈ calls (new_events w0 w)) as Hjc.
    { rewrite Hcalls. apply elem_of_sent. split; [done|]. by exists r0. }
    split; [done|]. split.
    + rewrite Hfiles. destruct (calls (new_events w0 w));
        [by apply elem_of_nil in Hjc | apply lookup_insert_eq].
    + specialize (Hdone j r0 Hj Hr0). rewrite Hsk in Hdone.
      destruct Hdone as (raw & _ & _ & _ & Hrow & _). by exists raw.
  - intros j r Hj Hr.
    destruct (lookup_lt_is_Some_2 t0 j) as [r0 Hr0]; [lia|].
    specialize (Hdone j r0 Hj Hr0).
    destruct (skipped ur r0) eqn:Hsk.
    + replace r with r0 by congruence.
      destruct ur as [k|]; [|done]. simpl in Hsk.
      by apply andb_true_iff in Hsk as [_ ?].
    + destruct Hdone as (raw & _ & _ & _ & Hrow & _).
      rewrite Hrow in Hr. by injection Hr as <-.
  - intros n' r0 -> Hr0 Hsk.
    destruct (lookup_lt_is_Some_2 xs n') as [x Hx]; [lia|].
    rewrite (take_S_r _ _ _ Hx), labeling_loop_snoc in Hrun.
    unfold bind in Hrun.
    destruct (labeling_loop chat lid sys ur (take n' xs) (Locals t0 ls cs) w0)
      as [[loc1| |] w1] eqn:Hpre; [|done..].
    rewrite length_take_le in Hrun by lia.
    assert (n' <= length xs)%nat as Hn1 by lia.
    pose proof (loop_inv_prefix _ _ _ _ _ _ _ _ _ _ _ Hlen Hn1 Hpre) as Hinv1.
    assert (clusters loc1 !! n' = Some r0) as Hr1
        by (by rewrite (inv_rest _ _ _ _ _ _ _ _ _ _ Hinv1)).
    destruct ur as [k|]; [|by rewrite iteration_eq in Hrun].
    destruct (iteration_cases lid sys k n' x loc1 w1 r0 Hr1)
      as [[Hsk' _] | [[_ (raw & m' & s & Hchat & Heq)]
                     | [_ (res & m' & s & _ & _ & Heq)]]];
      [congruence | | by rewrite Heq in Hrun].
    rewrite Heq in Hrun. injection Hrun as <- <-. cbn [trace clusters].
    split.
    + by rewrite last_app.
    + erewrite new_events_eq.
      2:{ cbn [trace]. rewrite (inv_trace _ _ _ _ _ _ _ _ _ _ Hinv1).
          rewrite <- app_assoc. reflexivity. }
      rewrite persists_app, last_app. done.
Qed.

(** *** Failures *)

(** C4.  Let the first [n] iterations of a run end normally, and let the
    call of the model for cluster [n], or the cleaning of its answer,
    raise.  Then the run exits with code 1.  After the call that failed
    no model is called and no table is written, so the call is not tried
    again and the files are those of the moment before iteration [n]:
    the table of the run, if a cluster was labeled, with row [n] as it
    was loaded and every labeled row in place. *)
Theorem failure_exits_without_marking tc cid mid ctx rerun w0 s w1
  k n x r0 loc wn res m' :
  prepare encode decode model_max_tokens cid ctx rerun w0 = (Val s, w1) ->
  unlabeled_row s = Some k ->
  labeling_loop chat (label_id s) (system_prompt ctx) (Some k)
                (take n (extracts s)) (Locals (run_table s) [] []) w1
  = (Val loc, wn) ->
  extracts s !! n = Some x ->
  run_table s !! n = Some r0 ->
  skipped (Some k) r0 = false ->
  chat (model_state wn) [system_prompt ctx; user_message x] = (res, m') ->
  (res = ChatReturn PyNone \/ exists msg, res = ChatRaise msg) ->
  exists w,
    labeler encode decode model_max_tokens chat tc cid mid ctx rerun w0
    = (Exit 1, w)
    /\ cluster_dir w = cluster_dir wn
    /\ calls (new_events wn w) = [n]
    /\ persists (new_events wn w) = []
    /\ clusters loc !! n = Some r0
    /\ (calls (new_events w1 wn) <> [] ->
        cluster_dir w !! (label_id s ++ u ".parquet")
        = Some (Parquet (clusters loc)))
    /\ (calls (new_events w1 wn) = [] -> cluster_dir w = cluster_dir w0)
    /\ (forall j, j ∈ calls (new_events w1 wn) ->
          exists rj raw,
            run_table s !! j = Some rj
            /\ clusters loc !! j
               = Some (Row (indices rj) (PyStr (clean raw)) (PyStr raw) true)).
Proof.
  intros Hp Hur Hpre Hx Hr0 Hsk Hchat Hres.
  destruct (prepare_inv _ _ _ _ _ _ Hp)
    as (df & td & evs0 & Hin & Hd & Hw1 & Hc0 & Hp0 & Hmt & Hxs & _).
  pose proof (make_extracts_length _ _ _ _ Hxs) as Hlen. symmetry in Hlen.
  pose proof (lookup_lt_Some _ _ _ Hx) as Hn.
  assert (n <= length (extracts s))%nat as Hn' by lia.
  pose proof (loop_inv_prefix _ _ _ _ _ _ _ _ _ _ _ Hlen Hn' Hpre) as Hinv.
  assert (clusters loc !! n = Some r0) as Hr
      by (by rewrite (inv_rest _ _ _ _ _ _ _ _ _ _ Hinv)).
  destruct (iteration_cases (label_id s) (system_prompt ctx) k n x loc wn r0 Hr)
    as [[Hsk' _] | [[_ (raw & m'' & str & Hchat' & _)]
                   | [_ (res' & m'' & str & Hchat' & _ & Heq)]]].
  { congruence. }
  { rewrite Hchat' in Hchat. injection Hchat as <- <-.
    by destruct Hres as [?|[msg ?]]. }
  rewrite Hchat' in Hchat. injection Hchat as -> ->.
  eexists. split.
  { rewrite (labeler_eq _ _ _ _ _ _ _ _ Hp), Hur.
    rewrite (labeling_loop_take _ _ _ _ n) by done.
    unfold bind at 1. rewrite Hpre.
    rewrite (drop_S _ _ _ Hx). cbn [map for_each]. unfold bind at 1.
    rewrite Heq. reflexivity. }
  cbn [cluster_dir]. split; [done|].
  erewrite new_events_eq by (cbn [trace]; reflexivity).
  split; [done|]. split; [done|]. split; [done|].
  destruct Hinv as [Htr Hi Hlen' Hcalls Hper Hrest Hdone Hfiles Hfresh].
  split; [|split].
  - intros Hne. rewrite Hfiles.
    destruct (calls (new_events w1 wn)); [done|]. apply lookup_insert_eq.
  - intros He. rewrite Hfiles, He. by rewrite Hw1.
  - intros j Hj. rewrite Hcalls in Hj.
    apply elem_of_sent in Hj as (Hj & rj & Hrj & Hskj).
    specialize (Hdone j rj Hj Hrj). rewrite Hskj in Hdone.
    destruct Hdone as (raw & _ & _ & _ & Hrow & _). by exists rj, raw.
Qed.

(** *** Label entries *)

(** C9, as the code has it.  Take any number [n] of iterations of the
    loop that ended normally.  The entries that the run has marked are
    those of the rows below [n] that were not skipped: the model was
    called for each of them and for no other row, the file of the run
    holds the table with them, and each holds an answer of the model to
    the prompt of its cluster in [label_raw] and the cleaning of that
    answer in [label], with its flag set; every other entry is as it was
    loaded.  No answer is refused for being empty: the two fields are
    both non-empty exactly when the answer has a character that is
    neither whitespace nor a quote, and whatever string the model
    returns for a row that is not skipped, the iteration ends normally
    with that string and its cleaning in the entry, the flag set and the
    table written. *)
Theorem labeled_entry_contents lid sys ur xs t0 ls cs w0 n loc w :
  length t0 = length xs ->
  (n <= length xs)%nat ->
  labeling_loop chat lid sys ur (take n xs) (Locals t0 ls cs) w0 = (Val loc, w) ->
  calls (new_events w0 w) = sent ur t0 n
  /\ (forall j r0,
        t0 !! j = Some r0 ->
        if (j <? n)%nat && negb (skipped ur r0) then
          j ∈ calls (new_events w0 w)
          /\ cluster_dir w !! (lid ++ u ".parquet")
             = Some (Parquet (clusters loc))
          /\ exists r raw x m m',
              clusters loc !! j = Some r
              /\ xs !! j = Some x
              /\ chat m [sys; user_message x] = (ChatReturn (PyStr raw), m')
              /\ labeled r = true
              /\ label_raw r = PyStr raw
              /\ label r = PyStr (clean raw)
              /\ (raw <> [] /\ clean raw <> [] <->
                  exists c, c ∈ raw /\ isspace c = false
                            /\ c <> dquote /\ c <> squote)
        else clusters loc !! j = Some r0)
  /\ (forall k i x loc1 w1 r0 raw m',
        ur = Some k ->
        clusters loc1 !! i = Some r0 ->
        skipped ur r0 = false ->
        chat (model_state w1) [sys; user_message x]
        = (ChatReturn (PyStr raw), m') ->
        exists loc' w',
          iteration chat lid sys ur i [x] loc1 w1 = (Val loc', w')
          /\ clusters loc'
             = <[i := Row (indices r0) (PyStr (clean raw)) (PyStr raw) true]>
                 (clusters loc1)
          /\ cluster_dir w' !! (lid ++ u ".parquet")
             = Some (Parquet (clusters loc'))
          /\ calls (new_events w1 w') = [i]).
Proof.
  intros Hlen Hn Hrun.
  pose proof (loop_inv_prefix _ _ _ _ _ _ _ _ _ _ _ Hlen Hn Hrun) as Hinv.
  destruct Hinv as [Htr Hin Hlen' Hcalls Hper Hrest Hdone Hfiles Hfresh].
  split; [done|]. split.
  - intros j r0 Hr0.
    destruct (Nat.ltb_spec j n) as [Hj|Hj]; cbn [andb];
      [|by rewrite Hrest].
    specialize (Hdone j r0 Hj Hr0).
    destruct (skipped ur r0) eqn:Hsk; cbn [negb]; [done|].
    assert (j ∈ calls (new_events w0 w)) as Hjc.
    { rewrite Hcalls. apply elem_of_sent. split; [done|]. by exists r0. }
    split; [done|]. split.
    { rewrite Hfiles. destruct (calls (new_events w0 w));
        [by apply elem_of_nil in Hjc | apply lookup_insert_eq]. }
    destruct Hdone as (raw & x & m & m' & Hrow & Hx & Hchat).
    exists (entry_of r0 raw), raw, x, m, m'.
    repeat (split; [done|]).
    rewrite <- clean_nonempty_iff. split; [by intros [_ ?]|].
    intros Hc. split; [|done]. intros ->. by apply Hc.
  - intros k i x loc1 w1 r0 raw m' -> Hr0 Hsk Hchat.
    destruct (iteration_cases lid sys k i x loc1 w1 r0 Hr0)
      as [[Hsk' _] | [[_ (raw' & m'' & s & Hchat' & Heq)]
                     | [_ (res & m'' & s & Hchat' & Hres & _)]]].
    + congruence.
    + rewrite Hchat in Hchat'. injection Hchat' as <- <-.
      cbn zeta in Heq. eexists _, _. split; [exact Heq|].
      cbn [clusters cluster_dir]. split; [done|].
      split; [apply lookup_insert_eq|].
      erewrite new_events_eq by (cbn [trace]; reflexivity). done.
    + rewrite Hchat in Hchat'. injection Hchat' as <- <-.
      by destruct Hres as [?|[msg ?]].
Qed.

(** *** The default of [rerun] *)

(** C10.  A call of [labeler] that leaves [rerun] out runs with the empty
    string, which is not [None]: the run identifier is the empty string
    and the table is read from the file [.parquet], without which the
    call raises.  The listing of the directory and the next sequential
    identifier are used for [None] and for no other value; [main] passes
    [None] when the option is absent. *)
Theorem default_rerun_takes_rerun_branch tc cid mid ctx dflt w :
  labeler_call encode decode model_max_tokens chat
               (Some tc) (Some cid) (Some mid) (Some ctx) None w
  = labeler encode decode model_max_tokens chat tc cid mid ctx (PyStr []) w
  /\ (forall rid,
        resolve_run (M:=M) cid (PyStr rid) dflt w
        = match cluster_dir w !! (rid ++ u ".parquet") with
          | Some (Parquet t) =>
              (Val (first_unlabeled t, rid, t),
               World (input w) (cluster_dir w) (model_state w)
                     (trace w ++ [EWrite (u "First unlabeled row: "
                                          ++ match first_unlabeled t with
                                             | Some k => str_of_nat k
                                             | None => u "None"
                                             end)]))
          | _ => (Raise (FileNotFoundError (rid ++ u ".parquet")), w)
          end)
  /\ resolve_run (M:=M) cid PyNone dflt w
     = (Val (Some 0%nat,
             fresh_label_id cid (map fst (map_to_list (cluster_dir w))),
             dflt), w)
  /\ main encode decode model_max_tokens chat tc cid mid ctx None w
     = labeler encode decode model_max_tokens chat tc cid mid ctx PyNone w
  /\ (forall df td,
        input w = Some df ->
        cluster_dir w !! (cid ++ u "-labels-default.parquet") = Some (Parquet td) ->
        cluster_dir w !! u ".parquet" = None ->
        labeler_call encode decode model_max_tokens chat
                     (Some tc) (Some cid) (Some mid) (Some ctx) None w
        = (Raise (FileNotFoundError (u ".parquet")), w)).
Proof.
  assert (forall rid,
        resolve_run (M:=M) cid (PyStr rid) dflt w
        = match cluster_dir w !! (rid ++ u ".parquet") with
          | Some (Parquet t) =>
              (Val (first_unlabeled t, rid, t),
               World (input w) (cluster_dir w) (model_state w)
                     (trace w ++ [EWrite (u "First unlabeled row: "
                                          ++ match first_unlabeled t with
                                             | Some k => str_of_nat k
                                             | None => u "None"
                                             end)]))
          | _ => (Raise (FileNotFoundError (rid ++ u ".parquet")), w)
          end) as Hrerun.
  { intros rid. unfold resolve_run, read_parquet. cbn [py_str]. unfold bind at 1.
    by destruct (cluster_dir w !! (rid ++ u ".parquet")) as [[t|]|]. }
  split; [done|]. split; [done|]. split; [by destruct w|]. split; [done|].
  intros df td Hin Hd Hnone. destruct w as [inp dir m tr].
  cbn [input cluster_dir] in Hin, Hd, Hnone. subst inp.
  cbv [labeler_call labeler prepare read_input read_parquet bind resolve_run
       default from_option id py_str input cluster_dir].
  rewrite Hd. cbn [app]. by rewrite Hnone.
Qed.

End EngineFacts.

(** ** Runs of the example model *)

(** With a model of 574 tokens the budget is three tokens, and the
    digest of the cluster is cut to its first three tokens; it has three
    tokens, since the model has one token per code point. *)
Lemma extracts_within_budget_witness :
  let w0 := toy_world [toy_row [0; 1; 2]%nat false] [] in
  let p := prepare char_encode char_decode 574 (M:=list chat_result)
                   (u "cluster-001") [] PyNone w0 in
  exists s, fst p = Val s /\ max_tokens s = 3 /\ extracts s = [u "1. "]
            /\ Forall (fun x => Z.of_nat (length (char_encode x)) <= max_tokens s)
                      (extracts s).
Proof.
  intros w0 p.
  pose (s := match fst p with Val s => s | _ => Setup None [] [] [] 0 end).
  assert (prepare char_encode char_decode 574 (u "cluster-001") [] PyNone w0
          = (fst p, snd p)) as Hp by apply surjective_pairing.
  assert (fst p = Val s) as Hs by (vm_compute; reflexivity).
  rewrite Hs in Hp.
  destruct (extracts_within_budget char_encode char_decode 574
              (u "cluster-001") [] PyNone w0 s (snd p) Hp) as [Hb Hx].
  exists s. split; [exact Hs|]. split; [rewrite Hb; vm_compute; reflexivity|].
  destruct Hx as (df & Hdf & Hall); [rewrite Hb; vm_compute; discriminate|].
  assert (run_table s = [toy_row [0; 1; 2]%nat false]) as Ht
      by (vm_compute; reflexivity).
  rewrite Ht in Hall.
  apply Forall2_cons_inv_l in Hall
    as (x & xs & (items & Hit & Hx & _ & Hre) & Hnil & ->).
  apply Forall2_nil_inv_l in Hnil as ->.
  change (Some toy_df = Some df) in Hdf. injection Hdf as <-.
  vm_compute in Hit. injection Hit as <-.
  split; [rewrite Hx, Hb; vm_compute; reflexivity|].
  constructor; [|constructor]. apply Hre. intros ts. reflexivity.
Defined.

(** C1, as the claim states it, fails: with row 0 unlabeled the first
    unlabeled row is 0, the flags are not looked at, and the model is
    called again for row 1, whose flag is set. *)
Lemma resumed_run_relabels_labeled_row :
  let t := [toy_row [0; 1; 2]%nat false; toy_row [3; 4]%nat true] in
  let w0 := toy_world t [ChatReturn (PyStr (u "Letters")); ChatReturn (PyStr (u "Zed"))] in
  let rw := toy_labeler 1000 (u "text") (u "cluster-001") (u "m") []
                        (PyStr (u "run")) w0 in
  fst rw = Val tt
  /\ first_unlabeled t = Some 0%nat
  /\ unlabeled_indices t = [0%nat]
  /\ calls (new_events w0 (snd rw)) = [0%nat; 1%nat]
  /\ calls (new_events w0 (snd rw)) <> unlabeled_indices t.
Proof. vm_compute. repeat split; discriminate. Qed.

(** A resumed run over a table whose row 0 is labeled and whose row 1
    is not: the model is called for row 1 only. *)
Lemma resumed_run_calls_witness :
  let t := [toy_row [3; 4]%nat true; toy_row [0; 1; 2]%nat false] in
  let w0 := toy_world t [ChatReturn (PyStr (u "Letters"))] in
  let rw := toy_labeler 1000 (u "text") (u "cluster-001") (u "m") []
                        (PyStr (u "run")) w0 in
  calls (new_events w0 (snd rw)) = [1%nat] /\ fst rw = Val tt.
Proof.
  intros t w0 rw.
  pose (p := prepare char_encode char_decode 1000 (M:=list chat_result)
                     (u "cluster-001") [] (PyStr (u "run")) w0).
  assert (prepare char_encode char_decode 1000 (u "cluster-001") []
                  (PyStr (u "run")) w0 = (fst p, snd p)) as Hp
      by apply surjective_pairing.
  assert (fst p = Val (match fst p with Val s => s | _ => Setup None [] [] [] 0 end))
    as Hs by (vm_compute; reflexivity).
  rewrite Hs in Hp.
  destruct (resumed_run_calls char_encode char_decode 1000 scripted
              (u "text") (u "cluster-001") (u "m") [] (u "run") t 1 w0 _ _
              (fst rw) (snd rw) Hp)
    as (_ & Hcalls & _ & Hgood).
  - (vm_compute; reflexivity).
  - (vm_compute; reflexivity).
  - apply surjective_pairing.
  - split; [|(vm_compute; reflexivity)]. rewrite Hcalls; (vm_compute; reflexivity).
Defined.

(** A rerun over a table of one labeled row. *)
Lemma rerun_all_labeled_raises_witness :
  let t := [toy_row [0; 1; 2]%nat true] in
  let w0 := toy_world t [ChatReturn (PyStr (u "Letters"))] in
  let rw := toy_labeler 1000 (u "text") (u "cluster-001") (u "m") []
                        (PyStr (u "run")) w0 in
  fst rw = Raise TypeError
  /\ calls (new_events w0 (snd rw)) = []
  /\ cluster_dir (snd rw) = cluster_dir w0.
Proof.
  intros t w0 rw.
  pose (p := prepare char_encode char_decode 1000 (M:=list chat_result)
                     (u "cluster-001") [] (PyStr (u "run")) w0).
  assert (prepare char_encode char_decode 1000 (u "cluster-001") []
                  (PyStr (u "run")) w0 = (fst p, snd p)) as Hp
      by apply surjective_pairing.
  assert (fst p = Val (match fst p with Val s => s | _ => Setup None [] [] [] 0 end))
    as Hs by (vm_compute; reflexivity).
  rewrite Hs in Hp.
  destruct (rerun_all_labeled_raises char_encode char_decode 1000 scripted
              (u "text") (u "cluster-001") (u "m") [] (u "run") t w0 _ _ Hp)
    as (Hrun & Hcalls & Hdir).
  - (vm_compute; reflexivity).
  - intros r Hr. apply list_elem_of_singleton in Hr. by subst r.
  - done.
  - unfold rw, toy_labeler. rewrite Hrun. cbn [fst snd].
    split; [reflexivity|]. split; assumption.
Defined.

(** Two clusters labeled: the last thing done is the writing of the
    table with both entries. *)
Lemma checkpoint_after_each_cluster_witness :
  let t0 := [toy_row [0]%nat false; toy_row [4]%nat false] in
  let xs := [u "1. a b c"; u "1. z"] in
  let w0 := toy_world t0 [ChatReturn (PyStr (u "Letters")); ChatReturn (PyStr (u "Zed"))] in
  let p := labeling_loop scripted (u "run") (system_prompt []) (Some 0%nat)
                         (take 2 xs) (Locals t0 [] []) w0 in
  last (trace (snd p))
  = Some (EToParquet (u "run.parquet")
            [Row [0%nat] (PyStr (u "Letters")) (PyStr (u "Letters")) true;
             Row [4%nat] (PyStr (u "Zed")) (PyStr (u "Zed")) true])
  /\ length (persists (new_events w0 (snd p))) = 2%nat.
Proof.
  intros t0 xs w0 p.
  assert (labeling_loop scripted (u "run") (system_prompt []) (Some 0%nat)
                        (take 2 xs) (Locals t0 [] []) w0
          = (fst p, snd p)) as Hp by apply surjective_pairing.
  assert (fst p = Val (match fst p with Val l => l | _ => Locals [] [] [] end))
    as Hl by (vm_compute; reflexivity).
  rewrite Hl in Hp. clear Hl.
  destruct (checkpoint_after_each_cluster scripted (u "run") (system_prompt [])
              (Some 0%nat) xs t0 [] [] w0 2 _ _ eq_refl (le_n 2) Hp)
    as (_ & Hper & _ & _ & Hlast).
  destruct (Hlast 1%nat (toy_row [4]%nat false) eq_refl eq_refl eq_refl)
    as [Hl _].
  split; [rewrite Hl; (vm_compute; reflexivity) | rewrite Hper; (vm_compute; reflexivity)].
Defined.

(** A fresh run whose second call raises: exit code 1, the file of the
    run with row 0 labeled and row 1 as it was. *)
Lemma failure_exits_without_marking_witness :
  let t := [toy_row [0; 1; 2]%nat false; toy_row [3; 4]%nat false] in
  let w0 := toy_world t [ChatReturn (PyStr (u "Letters")); ChatRaise (u "rate limit")] in
  exists w,
    toy_labeler 1000 (u "text") (u "cluster-001") (u "m") [] PyNone w0 = (Exit 1, w)
    /\ cluster_dir w !! u "cluster-001-labels-001.parquet"
       = Some (Parquet [Row [0; 1; 2]%nat (PyStr (u "Letters")) (PyStr (u "Letters")) true;
                        Row [3; 4]%nat PyNone PyNone false]).
Proof.
  intros t w0.
  pose (p := prepare char_encode char_decode 1000 (M:=list chat_result)
                     (u "cluster-001") [] PyNone w0).
  pose (s := match fst p with Val s => s | _ => Setup None [] [] [] 0 end).
  assert (prepare char_encode char_decode 1000 (u "cluster-001") [] PyNone w0
          = (fst p, snd p)) as Hp by apply surjective_pairing.
  assert (fst p = Val s) as Hs by (vm_compute; reflexivity).
  rewrite Hs in Hp. clear Hs.
  pose (q := labeling_loop scripted (label_id s) (system_prompt []) (Some 0%nat)
                           (take 1 (extracts s)) (Locals (run_table s) [] [])
                           (snd p)).
  pose (loc := match fst q with Val l => l | _ => Locals [] [] [] end).
  assert (labeling_loop scripted (label_id s) (system_prompt []) (Some 0%nat)
                        (take 1 (extracts s)) (Locals (run_table s) [] [])
                        (snd p) = (fst q, snd q)) as Hq
      by apply surjective_pairing.
  assert (fst q = Val loc) as Hl by (vm_compute; reflexivity).
  rewrite Hl in Hq. clear Hl.
  destruct (failure_exits_without_marking char_encode char_decode 1000 scripted
              (u "text") (u "cluster-001") (u "m") [] PyNone w0 s (snd p)
              0 1 (u "2. z")
              (toy_row [3; 4]%nat false) loc (snd q)
              (ChatRaise (u "rate limit")) [] Hp)
    as (w & Hrun & Hdir & _ & _ & _ & Hfile & _).
  - (vm_compute; reflexivity).
  - exact Hq.
  - (vm_compute; reflexivity).
  - (vm_compute; reflexivity).
  - (vm_compute; reflexivity).
  - (vm_compute; reflexivity).
  - right. by eexists.
  - exists w. split; [exact Hrun|].
    replace (u "cluster-001-labels-001.parquet")
      with (label_id s ++ u ".parquet") by (vm_compute; reflexivity).
    rewrite Hfile; [vm_compute; reflexivity | vm_compute; discriminate].
Defined.

(** C9, as the claim states it, fails: the run accepts an empty answer
    and marks the entry labeled with an empty label and an empty raw
    label. *)
Lemma empty_answer_is_marked_labeled :
  let t := [toy_row [0; 1; 2]%nat false] in
  let w0 := toy_world t [ChatReturn (PyStr [])] in
  let rw := toy_labeler 1000 (u "text") (u "cluster-001") (u "m") [] PyNone w0 in
  fst rw = Val tt
  /\ cluster_dir (snd rw) !! u "cluster-001-labels-001.parquet"
     = Some (Parquet [Row [0; 1; 2]%nat (PyStr []) (PyStr []) true]).
Proof. vm_compute. split; reflexivity. Qed.

(** The entry of cluster 0 after two clusters were labeled, and an
    empty answer for a cluster that is not skipped. *)
Lemma labeled_entry_contents_witness :
  let t0 := [toy_row [0]%nat false; toy_row [4]%nat false] in
  let xs := [u "1. a b c"; u "1. z"] in
  let w0 := toy_world t0 [ChatReturn (PyStr (u "Letters")); ChatReturn (PyStr (u "Zed"))] in
  let p := labeling_loop scripted (u "run") (system_prompt []) (Some 0%nat)
                         (take 2 xs) (Locals t0 [] []) w0 in
  (exists r raw,
      cluster_dir (snd p) !! (u "run" ++ u ".parquet")
      = Some (Parquet [r; Row [4%nat] (PyStr (u "Zed")) (PyStr (u "Zed")) true])
      /\ labeled r = true /\ label_raw r = PyStr raw /\ label r = PyStr (clean raw))
  /\ (exists loc' w',
        iteration scripted (u "run") (system_prompt []) (Some 0%nat) 0
                  [u "1. a b c"] (Locals t0 [] []) (toy_world t0 [ChatReturn (PyStr [])])
        = (Val loc', w')
        /\ clusters loc' = [Row [0%nat] (PyStr []) (PyStr []) true;
                            toy_row [4]%nat false]).
Proof.
  intros t0 xs w0 p.
  assert (labeling_loop scripted (u "run") (system_prompt []) (Some 0%nat)
                        (take 2 xs) (Locals t0 [] []) w0
          = (fst p, snd p)) as Hp by apply surjective_pairing.
  assert (fst p = Val (match fst p with Val l => l | _ => Locals [] [] [] end))
    as Hl by (vm_compute; reflexivity).
  rewrite Hl in Hp. clear Hl.
  destruct (labeled_entry_contents scripted (u "run") (system_prompt [])
              (Some 0%nat) xs t0 [] [] w0 2 _ _ eq_refl (le_n 2) Hp)
    as (_ & Hentries & Hany).
  split.
  - destruct (Hentries 0%nat (toy_row [0]%nat false) eq_refl)
      as (_ & Hfile & r & raw & x & m & m' & Hr & _ & _ & Hlab & Hraw & Hcl & _).
    exists r, raw.
    split; [|split; [exact Hlab | split; [exact Hraw | exact Hcl]]].
    rewrite Hfile. do 2 f_equal.
    revert Hr. vm_compute. by intros [= ->].
  - destruct (Hany 0%nat 0%nat (u "1. a b c") (Locals t0 [] [])
                (toy_world t0 [ChatReturn (PyStr [])]) (toy_row [0]%nat false)
                [] [] eq_refl eq_refl eq_refl eq_refl)
      as (loc' & w' & Hit & Hcl & _).
    exists loc', w'. split; [exact Hit|]. rewrite Hcl. vm_compute. reflexivity.
Defined.

(** Without a file [.parquet], a call that leaves [rerun] out raises. *)
Lemma default_rerun_takes_rerun_branch_witness :
  let w0 := toy_world [toy_row [0]%nat false] [] in
  labeler_call char_encode char_decode 1000 scripted
               (Some (u "text")) (Some (u "cluster-001")) (Some (u "m")) (Some [])
               None w0
  = (Raise (FileNotFoundError (u ".parquet")), w0).
Proof.
  intros w0.
  destruct (default_rerun_takes_rerun_branch char_encode char_decode 1000 scripted
              (u "text") (u "cluster-001") (u "m") [] [] w0)
    as (_ & _ & _ & _ & H).
  apply (H toy_df [toy_row [0]%nat false]); (vm_compute; reflexivity).
Defined.

(* ================================================================== *)
(** * Further properties of the labeling script *)
(* ================================================================== *)

(** ** Chunks *)

Lemma chunks_lookup {A} (fuel size : nat) (l : list A) (i : nat) :
  (0 < size)%nat -> (length l <= fuel)%nat ->
  chunks fuel size l !! i =
  if decide (i * size < length l)%nat
  then Some (take size (drop (i * size) l)) else None.
Proof.
  intros Hs. revert l i. induction fuel as [|fuel IH]; intros l i Hf.
  - destruct l; [|simpl in Hf; lia]. cbn [chunks]. rewrite lookup_nil.
    case_decide as H; [cbn [length] in H; lia | done].
  - destruct l as [|x l].
    { cbn [chunks]. rewrite lookup_nil.
      case_decide as H; [cbn [length] in H; lia | done]. }
    cbn [chunks]. destruct i as [|i].
    + cbn [lookup list_lookup]. rewrite Nat.mul_0_l, drop_0.
      case_decide as H; [done | cbn [length] in H; lia].
    + change ((?a :: ?b) !! S i) with (b !! i).
      assert (length (drop size (x :: l)) <= fuel)%nat as Hd
          by (rewrite length_drop; cbn [length] in *; lia).
      rewrite (IH _ _ Hd), length_drop, drop_drop.
      replace (size + i * size)%nat with (S i * size)%nat by lia.
      repeat case_decide; try done; lia.
Qed.

Lemma chunks_concat {A} (fuel size : nat) (l : list A) :
  (0 < size)%nat -> (length l <= fuel)%nat ->
  concat (chunks fuel size l) = l.
Proof.
  intros Hs. revert l. induction fuel as [|fuel IH]; intros l Hf.
  - by destruct l; [|simpl in Hf; lia].
  - destruct l as [|x l]; [done|]. cbn [chunks concat].
    rewrite IH by (rewrite length_drop; simpl in *; lia).
    apply take_drop.
Qed.

(** X1.  For a positive [size], [chunked_iterable] yields the slices
    [iterable[i:i+size]] for [i] = 0, [size], 2 [size], ... below the
    length: there are as many chunks as the length divided by [size],
    rounded up, and chunk number [j] is the slice that starts at
    [j * size]. *)
Theorem chunked_iterable_slices {A} (iterable : list A) (size : nat) :
  (0 < size)%nat ->
  length (chunked_iterable iterable size)
  = ((length iterable + size - 1) / size)%nat
  /\ (forall j, (j * size < length iterable)%nat ->
        chunked_iterable iterable size !! j
        = Some (take size (drop (j * size) iterable)))
  /\ (forall j, (length iterable <= j * size)%nat ->
        chunked_iterable iterable size !! j = None).
Proof.
  intros Hs. unfold chunked_iterable.
  assert (forall j, chunks (length iterable) size iterable !! j =
                    if decide (j * size < length iterable)%nat
                    then Some (take size (drop (j * size) iterable)) else None)
    as Hlook by (intros j; by apply chunks_lookup).
  split; [|split].
  - set (L := chunks (length iterable) size iterable) in *.
    set (n := length iterable) in *.
    assert (n <= length L * size)%nat as Hup.
    { pose proof (Hlook (length L)) as H. rewrite lookup_ge_None_2 in H by lia.
      case_decide; [done | lia]. }
    assert (length L = 0 \/ (length L - 1) * size < n)%nat as Hlow.
    { destruct (length L) as [|k] eqn:E; [by left | right].
      pose proof (Hlook k) as H.
      destruct (lookup_lt_is_Some_2 L k) as [c Hc]; [lia|].
      rewrite Hc in H. case_decide; [|done].
      by replace (S k - 1)%nat with k by lia. }
    apply (Nat.div_unique _ _ _ (n + size - 1 - length L * size)%nat); nia.
  - intros j Hj. rewrite Hlook. by case_decide.
  - intros j Hj. rewrite Hlook. case_decide; [lia | done].
Qed.

(** X2.  For a positive [size], the chunks of [chunked_iterable] put end
    to end give the iterable back; no chunk is empty and none is longer
    than [size]. *)
Theorem chunked_iterable_concat {A} (iterable : list A) (size : nat) :
  (0 < size)%nat ->
  concat (chunked_iterable iterable size) = iterable
  /\ Forall (fun chunk => (0 < length chunk <= size)%nat)
            (chunked_iterable iterable size).
Proof.
  intros Hs. unfold chunked_iterable. split; [by apply chunks_concat|].
  apply Forall_lookup. intros j c Hc.
  rewrite chunks_lookup in Hc by done. case_decide; [|done].
  injection Hc as <-. rewrite length_take, length_drop. lia.
Qed.

Lemma chunked_iterable_slices_witness :
  chunked_iterable [1; 2; 3; 4; 5] 2 !! 2%nat = Some [5].
Proof.
  destruct (chunked_iterable_slices [1; 2; 3; 4; 5] 2 ltac:(lia)) as (_ & H & _).
  rewrite H; [reflexivity | simpl; lia].
Defined.

Lemma chunked_iterable_concat_witness :
  concat (chunked_iterable [1; 2; 3; 4; 5] 2) = [1; 2; 3; 4; 5].
Proof. apply (chunked_iterable_concat [1; 2; 3; 4; 5] 2). lia. Defined.
(** ** The run identifier *)

Lemma decimal_value_ascii c :
  (48 <= c <= 57)%N -> decimal_value c = Some (Z.of_N c - 48).
Proof.
  intros [H1 H2]. unfold decimal_value, decimal_zeros. cbn [List.find].
  destruct (N.leb_spec 48 c) as [_|?]; [|lia].
  destruct (N.ltb_spec c (48 + 10)) as [_|?]; [|lia].
  cbn [andb fmap option_fmap option_map]. f_equal. lia.
Qed.

Lemma decimal_value_range c v : decimal_value c = Some v -> 0 <= v <= 9.
Proof.
  unfold decimal_value.
  destruct (List.find _ decimal_zeros) as [zero|] eqn:E; [|done].
  apply find_some in E as [_ [H1 H2]%andb_true_iff].
  apply N.leb_le in H1. apply N.ltb_lt in H2. intros [= <-]. lia.
Qed.

Lemma isdecimal_ascii c : (48 <= c <= 57)%N -> isdecimal c = true.
Proof. intros H. unfold isdecimal. by rewrite decimal_value_ascii. Qed.

Lemma int_of_digits_snoc ds d :
  int_of_digits (ds ++ [d])
  = 10 * int_of_digits ds + default 0 (decimal_value d).
Proof. unfold int_of_digits. by rewrite foldl_app. Qed.

Lemma N_of_ascii_pretty_N_char d :
  (d < 10)%N -> N_of_ascii (pretty_N_char d) = (48 + d)%N.
Proof.
  intros Hd.
  assert (d = 0 \/ d = 1 \/ d = 2 \/ d = 3 \/ d = 4 \/ d = 5 \/ d = 6
          \/ d = 7 \/ d = 8 \/ d = 9)%N as H by lia.
  repeat (destruct H as [->|H]; [reflexivity|]). by subst.
Qed.

(** The digits that [pretty] puts in front of [s] are decimal digits and
    read back as the number. *)
Lemma pretty_N_go_digits (x : N) (s : string) :
  exists ds,
    u (pretty_N_go x s) = ds ++ u s
    /\ Forall (fun c => isdecimal c = true) ds
    /\ int_of_digits ds = Z.of_N x
    /\ ((0 < x)%N -> ds <> []).
Proof.
  revert s. induction (N.lt_wf_0 x) as [x _ IH]. intros s.
  destruct (decide (x = 0%N)) as [->|Hx].
  - exists []. rewrite pretty_N_go_0. repeat split; [constructor | intros; lia].
  - rewrite pretty_N_go_step by lia.
    destruct (IH (x `div` 10)%N ltac:(apply N.div_lt; lia)
                (String (pretty_N_char (x `mod` 10)) s))
      as (ds & Hds & Hdig & Hint & _).
    pose proof (N.mod_lt x 10 ltac:(lia)) as Hmod.
    exists (ds ++ [(48 + x `mod` 10)%N]). split; [|split; [|split]].
    + rewrite Hds. unfold u at 1. cbn [list_ascii_of_string map].
      rewrite N_of_ascii_pretty_N_char by done. by rewrite <- app_assoc.
    + apply Forall_app. split; [done|]. constructor; [|constructor].
      apply isdecimal_ascii. clear -Hmod.
      generalize dependent (x `mod` 10)%N. intros d Hd. lia.
    + rewrite int_of_digits_snoc, Hint.
      pose proof (N.div_mod x 10 ltac:(lia)) as Hdiv.
      rewrite decimal_value_ascii; [simpl; lia|]. clear -Hmod.
      generalize dependent (x `mod` 10)%N. intros d Hd. lia.
    + intros _. by destruct ds.
Qed.

Lemma str_of_Z_digits (n : Z) :
  0 <= n ->
  Forall (fun c => isdecimal c = true) (str_of_Z n)
  /\ int_of_digits (str_of_Z n) = n
  /\ str_of_Z n <> [].
Proof.
  intros Hn. unfold str_of_Z. destruct n as [|p|p]; [| |lia].
  - repeat split; [by repeat constructor | discriminate].
  - change (pretty (Z.pos p)) with (pretty_N_go (N.pos p) "").
    destruct (pretty_N_go_digits (N.pos p) "") as (ds & -> & Hdig & Hint & Hne).
    change (u "") with (@nil N). rewrite app_nil_r.
    repeat split; [done | by rewrite Hint | apply Hne; lia].
Qed.

Lemma int_of_digits_zeros k ds :
  int_of_digits (replicate k 48%N ++ ds) = int_of_digits ds.
Proof.
  unfold int_of_digits. rewrite foldl_app. f_equal.
  induction k as [|k IH]; [done|]. by rewrite replicate_S_end, foldl_app, IH.
Qed.

(** The three-digit format is made of digits and reads back as the
    number. *)
Lemma format_03d_digits (n : Z) :
  0 <= n ->
  Forall (fun c => isdecimal c = true) (format_03d n)
  /\ int_of_digits (format_03d n) = n
  /\ format_03d n <> [].
Proof.
  intros Hn. destruct (str_of_Z_digits n Hn) as (Hdig & Hint & Hne).
  unfold format_03d. cbn zeta. split; [|split].
  - apply Forall_app. split; [|done]. by apply Forall_replicate.
  - by rewrite int_of_digits_zeros.
  - intros [_ ?]%app_eq_nil. done.
Qed.

Lemma strip_prefix_app p s : strip_prefix p (p ++ s) = Some s.
Proof.
  induction p as [|a p IH]; [by destruct s|]. simpl. by rewrite N.eqb_refl.
Qed.

Lemma strip_prefix_Some p s rest :
  strip_prefix p s = Some rest -> s = p ++ rest.
Proof.
  revert s. induction p as [|a p IH]; intros s; simpl.
  - by intros [= ->].
  - destruct s as [|b s]; [done|]. destruct (N.eqb a b) eqn:E; [|done].
    apply N.eqb_eq in E as ->. intros H. by rewrite (IH _ H).
Qed.

Lemma take_while_app {A} (p : A -> bool) ds x rest :
  Forall (fun c => p c = true) ds -> p x = false ->
  take_while p (ds ++ x :: rest) = ds.
Proof.
  intros Hds Hx. induction Hds as [|d ds Hd _ IH]; simpl.
  - by rewrite Hx.
  - by rewrite Hd, IH.
Qed.

Lemma take_while_Forall {A} (p : A -> bool) l :
  Forall (fun c => p c = true) (take_while p l).
Proof.
  induction l as [|x l IH]; simpl; [constructor|].
  destruct (p x) eqn:E; [by constructor | constructor].
Qed.

Lemma int_of_digits_nonneg ds :
  Forall (fun c => isdecimal c = true) ds -> 0 <= int_of_digits ds.
Proof.
  induction ds as [|d ds IH] using rev_ind; [done|].
  intros [Hds _]%Forall_app. rewrite int_of_digits_snoc.
  specialize (IH Hds).
  destruct (decimal_value d) as [v|] eqn:E; simpl; [|lia].
  apply decimal_value_range in E. lia.
Qed.

Lemma take_while_drop {A} (p : A -> bool) l :
  take_while p l ++ drop (length (take_while p l)) l = l.
Proof.
  induction l as [|x l IH]; simpl; [done|].
  destruct (p x); simpl; [by rewrite IH | done].
Qed.

(** The digits that the pattern captures are digits, at least one, and
    the name is the prefix, the digits, the extension and a rest. *)
Lemma label_file_number_Some cid f ds :
  label_file_number cid f = Some ds ->
  Forall (fun c => isdecimal c = true) ds /\ ds <> []
  /\ exists tail, f = cid ++ u "-labels-" ++ ds ++ u ".parquet" ++ tail.
Proof.
  unfold label_file_number.
  destruct (strip_prefix (cid ++ u "-labels-") f) as [rest|] eqn:Hp; [|done].
  cbn zeta.
  destruct (strip_prefix (u ".parquet") _) as [tail|] eqn:Hs; [|done].
  destruct (nonempty (take_while isdecimal rest)) eqn:Hne; [|done].
  intros [= <-]. split; [apply take_while_Forall|].
  split; [by destruct (take_while isdecimal rest)|].
  exists tail. apply strip_prefix_Some in Hp, Hs.
  rewrite Hp, <- app_assoc. do 2 f_equal.
  rewrite <- Hs. symmetry. apply take_while_drop.
Qed.

(** A name that starts with the name of a run table is taken
    for that run, whatever follows the extension. *)
Lemma label_file_number_format cid n tail :
  0 <= n ->
  label_file_number cid (cid ++ u "-labels-" ++ format_03d n ++ u ".parquet" ++ tail)
  = Some (format_03d n).
Proof.
  intros Hn. destruct (format_03d_digits n Hn) as (Hdig & _ & Hne).
  unfold label_file_number.
  rewrite (app_assoc cid), strip_prefix_app. cbn zeta.
  change (u ".parquet" ++ tail) with (46%N :: (u "parquet" ++ tail)).
  rewrite take_while_app; [|done|vm_compute; reflexivity].
  rewrite drop_app_length.
  change (46%N :: (u "parquet" ++ tail)) with (u ".parquet" ++ tail).
  rewrite strip_prefix_app. by destruct (format_03d n).
Qed.
Lemma max_number_ge numbers x : x ∈ numbers -> x <= max_number numbers.
Proof.
  unfold max_number. induction numbers as [|y l IH]; [by intros ?%elem_of_nil|].
  intros [->|H]%elem_of_cons; simpl; [lia|]. specialize (IH H). lia.
Qed.

Lemma max_number_nonneg numbers : 0 <= max_number numbers.
Proof. unfold max_number. induction numbers; simpl; lia. Qed.

Lemma max_number_elem numbers :
  max_number numbers = 0 \/ max_number numbers ∈ numbers.
Proof.
  unfold max_number. induction numbers as [|y l IH]; [by left|]. simpl.
  destruct (Z.max_spec y (foldr Z.max 0 l)) as [[_ ->]|[_ ->]].
  - destruct IH as [?|?]; [by left | right; by right].
  - right. by left.
Qed.

Lemma elem_of_label_numbers cid listing n :
  n ∈ label_numbers cid listing <->
  exists f ds, f ∈ listing /\ label_file_number cid f = Some ds
               /\ n = int_of_digits ds.
Proof.
  unfold label_numbers. rewrite list_elem_of_omap. split.
  - intros (f & Hf & Hn). destruct (label_file_number cid f) as [ds|] eqn:E; [|done].
    injection Hn as <-. by exists f, ds.
  - intros (f & ds & Hf & Hds & ->). exists f. by rewrite Hds.
Qed.

(** The identifier of a fresh run has the number after the greatest
    number among the files that match, or 1. *)
Lemma fresh_label_id_eq cid listing :
  fresh_label_id cid listing
  = cid ++ u "-labels-" ++ format_03d (max_number (label_numbers cid listing) + 1).
Proof.
  unfold fresh_label_id. cbn zeta. do 3 f_equal.
  assert (map (fun f => int_of_digits (default [] (label_file_number cid f)))
              (List.filter
                 (fun f => bool_decide (is_Some (label_file_number cid f)))
                 listing)
          = label_numbers cid listing) as <-.
  { unfold label_numbers. induction listing as [|f l IH]; [done|].
    cbn [List.filter omap list_omap].
    destruct (label_file_number cid f) as [ds|] eqn:E.
    - rewrite bool_decide_true by eauto. cbn [map fmap option_fmap option_map].
      rewrite E. f_equal. apply IH.
    - rewrite bool_decide_false by (by intros [? ?]). apply IH. }
  by destruct (List.filter _ listing).
Qed.

Lemma max_number_label_numbers_lt cid listing f ds :
  f ∈ listing -> label_file_number cid f = Some ds ->
  int_of_digits ds < max_number (label_numbers cid listing) + 1.
Proof.
  intros Hf Hds.
  assert (int_of_digits ds ∈ label_numbers cid listing) as H
      by (apply elem_of_label_numbers; by exists f, ds).
  apply max_number_ge in H. lia.
Qed.

(** The table of a fresh run is not among the files listed. *)
Lemma fresh_label_id_not_listed cid listing tail :
  fresh_label_id cid listing ++ u ".parquet" ++ tail ∉ listing.
Proof.
  intros Hin. rewrite fresh_label_id_eq in Hin.
  set (n := max_number (label_numbers cid listing) + 1) in *.
  assert (0 <= n) as Hn by (pose proof (max_number_nonneg (label_numbers cid listing)); lia).
  rewrite <- !app_assoc in Hin.
  pose proof (max_number_label_numbers_lt cid listing _ _ Hin
                (label_file_number_format cid n tail Hn)) as Hlt.
  destruct (format_03d_digits n Hn) as (_ & Hint & _). fold n in Hlt. lia.
Qed.

(** X3.  The identifier of a fresh run is the cluster set, [-labels-]
    and a number in three digits at least.  The number is at least 1 and
    greater than the number of every file of the listing that matches,
    in whatever script the digits of that file are written; it is 1 or
    the successor of the number of such a file. *)
Theorem fresh_label_id_next (cluster_id : str) (listing : list str) :
  exists n,
    fresh_label_id cluster_id listing
    = cluster_id ++ u "-labels-" ++ format_03d n
    /\ 1 <= n
    /\ (forall f ds, f ∈ listing -> label_file_number cluster_id f = Some ds ->
                     int_of_digits ds < n)
    /\ (n = 1 \/ exists f ds, f ∈ listing
                              /\ label_file_number cluster_id f = Some ds
                              /\ n = int_of_digits ds + 1).
Proof.
  exists (max_number (label_numbers cluster_id listing) + 1).
  split; [apply fresh_label_id_eq|].
  pose proof (max_number_nonneg (label_numbers cluster_id listing)) as H0.
  split; [lia|]. split; [apply max_number_label_numbers_lt|].
  destruct (max_number_elem (label_numbers cluster_id listing)) as [->|Hm];
    [by left | right].
  apply elem_of_label_numbers in Hm as (f & ds & Hf & Hds & Hm).
  exists f, ds. by rewrite Hm.
Qed.

(** X4.  The name that a run writes its table under is read back: for a
    number that is not negative, the name made of the cluster set, the
    three-digit format of the number and the extension matches the
    pattern, also with more characters after the extension, and the
    digits captured give the number. *)
Theorem run_table_name_round_trip (cluster_id : str) (n : Z) (tail : str) :
  0 <= n ->
  exists ds,
    label_file_number cluster_id
      ((cluster_id ++ u "-labels-" ++ format_03d n) ++ u ".parquet" ++ tail)
    = Some ds
    /\ int_of_digits ds = n.
Proof.
  intros Hn. exists (format_03d n). rewrite <- !app_assoc.
  split; [by apply label_file_number_format|].
  by destruct (format_03d_digits n Hn) as (_ & ? & _).
Qed.

Lemma run_table_name_round_trip_witness :
  exists ds,
    label_file_number (u "cluster-001") (u "cluster-001-labels-012.parquet.bak")
    = Some ds
    /\ int_of_digits ds = 12.
Proof. apply (run_table_name_round_trip (u "cluster-001") 12 (u ".bak")). lia. Defined.

(** The cluster directory has no file under the name of the table of
    the next fresh run. *)
Lemma fresh_table_missing {M} cid (w : world M) :
  cluster_dir w
    !! (fresh_label_id cid (map fst (map_to_list (cluster_dir w))) ++ u ".parquet")
  = None.
Proof.
  apply eq_None_not_Some. intros [x Hx].
  apply (fresh_label_id_not_listed cid (map fst (map_to_list (cluster_dir w))) []).
  rewrite app_nil_r. apply list_elem_of_In, in_map_iff.
  eexists (_, x). split; [reflexivity|].
  by apply list_elem_of_In, elem_of_map_to_list.
Qed.

(** X5.  A fresh run does not take the name of a table that exists: no
    file of the listing has the name of its table, nor a name that
    starts with it; in a world, the cluster directory has no file under
    the name of the table of the next fresh run. *)
Theorem fresh_label_id_is_new {M} (cluster_id : str) :
  (forall (listing : list str) (tail : str),
      fresh_label_id cluster_id listing ++ u ".parquet" ++ tail ∉ listing)
  /\ (forall w : world M,
        cluster_dir w
          !! (fresh_label_id cluster_id (map fst (map_to_list (cluster_dir w)))
              ++ u ".parquet")
        = None).
Proof.
  split; [intros; apply fresh_label_id_not_listed|].
  intros w. apply fresh_table_missing.
Qed.

(** X6.  Fresh runs are numbered one after the other: once the table of
    a fresh run is in the directory, the next fresh run gets the
    following number. *)
Theorem fresh_label_id_sequential (cluster_id : str) (listing listing' : list str) :
  (forall f, f ∈ listing' <->
             f = fresh_label_id cluster_id listing ++ u ".parquet" \/ f ∈ listing) ->
  exists n,
    1 <= n
    /\ fresh_label_id cluster_id listing
       = cluster_id ++ u "-labels-" ++ format_03d n
    /\ fresh_label_id cluster_id listing'
       = cluster_id ++ u "-labels-" ++ format_03d (n + 1).
Proof.
  intros Hl. rewrite !fresh_label_id_eq in *.
  set (n := max_number (label_numbers cluster_id listing) + 1) in *.
  assert (1 <= n) as Hn
      by (pose proof (max_number_nonneg (label_numbers cluster_id listing)); lia).
  exists n. split; [done|]. split; [done|]. do 3 f_equal.
  destruct (format_03d_digits n ltac:(lia)) as (_ & Hint & _).
  assert (n ∈ label_numbers cluster_id listing') as Hin.
  { apply elem_of_label_numbers.
    exists ((cluster_id ++ u "-labels-" ++ format_03d n) ++ u ".parquet"),
           (format_03d n).
    split; [apply Hl; by left|]. split; [|done].
    rewrite <- !app_assoc. rewrite <- (app_nil_r (u ".parquet")).
    apply label_file_number_format. lia. }
  apply max_number_ge in Hin.
  destruct (max_number_elem (label_numbers cluster_id listing')) as [E|Hm]; [lia|].
  apply elem_of_label_numbers in Hm as (f & ds & Hf & Hds & Hm).
  apply Hl in Hf as [->|Hf].
  - rewrite <- !app_assoc, <- (app_nil_r (u ".parquet")) in Hds.
    rewrite label_file_number_format in Hds by lia. injection Hds as <-. lia.
  - pose proof (max_number_label_numbers_lt _ _ _ _ Hf Hds). fold n in H. lia.
Qed.

Lemma fresh_label_id_sequential_witness :
  fresh_label_id (u "cluster-001")
    [u "cluster-001-labels-002.parquet"; u "cluster-001-labels-001.parquet"]
  = u "cluster-001-labels-003".
Proof.
  destruct (fresh_label_id_sequential (u "cluster-001")
              [u "cluster-001-labels-001.parquet"]
              [u "cluster-001-labels-002.parquet"; u "cluster-001-labels-001.parquet"])
    as (n & Hn & H1 & H2).
  - intros f. change (fresh_label_id (u "cluster-001")
                        [u "cluster-001-labels-001.parquet"] ++ u ".parquet")
      with (u "cluster-001-labels-002.parquet").
    rewrite elem_of_cons. reflexivity.
  - rewrite H2. f_equal. f_equal.
    assert (n = 2) as ->; [|reflexivity].
    assert (format_03d n = format_03d 2) as E.
    { apply (app_inv_head (u "cluster-001" ++ u "-labels-")).
      rewrite <- !app_assoc. rewrite <- H1. vm_compute. reflexivity. }
    apply (f_equal int_of_digits) in E.
    destruct (format_03d_digits n ltac:(lia)) as (_ & Hint & _).
    rewrite Hint in E. vm_compute in E. exact E.
Defined.
(** ** Runs of [labeler] *)

Section RunFacts.

Context {T M : Type}.
Variable encode : str -> list T.
Variable decode : list T -> str.
Variable model_max_tokens : Z.

Implicit Types (chat : M -> list message -> chat_result * M).
Implicit Types (w : world M) (loc : locals) (t : list row).

(** *** The extracts *)

Lemma df_loc_cases df idx :
  (exists items, df_loc df idx = Val items /\ length items = length idx
                 /\ forall i, i ∈ idx -> is_Some (df !! i))
  \/ (exists j, df_loc df idx = Raise (KeyError j) /\ j ∈ idx /\ df !! j = None).
Proof.
  induction idx as [|i idx IH]; simpl.
  - left. exists []. repeat split. by intros i ?%elem_of_nil.
  - destruct (df !! i) as [x|] eqn:Hi.
    + destruct IH as [(items & -> & Hlen & Hall)|(j & -> & Hj & Hnone)].
      * left. exists (x :: items). split; [done|]. split; [simpl; by rewrite Hlen|].
        intros k [->|Hk]%elem_of_cons; [by rewrite Hi | by apply Hall].
      * right. exists j. split; [done|]. split; [by right | done].
    + right. exists i. split; [done|]. split; [by left | done].
Qed.

(** The extraction gives one extract for each row, or raises for the
    first member identifier that is not a row of the record table. *)
Lemma make_extracts_cases df budget rows :
  (exists xs, make_extracts encode decode df budget rows = Val xs
              /\ forall r i, r ∈ rows -> i ∈ indices r -> is_Some (df !! i))
  \/ (exists j r, make_extracts encode decode df budget rows = Raise (KeyError j)
                  /\ r ∈ rows /\ j ∈ indices r /\ df !! j = None).
Proof.
  induction rows as [|r rows IH]; simpl.
  - left. exists []. split; [done|]. by intros r i ?%elem_of_nil.
  - unfold extract_row.
    destruct (df_loc_cases df (indices r))
      as [(items & -> & _ & Hall)|(j & -> & Hj & Hnone)].
    + destruct IH as [(xs & -> & Hrows)|(j & r' & -> & Hr' & Hj & Hnone)].
      * left. eexists. split; [done|].
        intros r' i [->|Hr']%elem_of_cons Hi; [by apply Hall | by eapply Hrows].
      * right. exists j, r'. split; [done|]. split; [by right | done].
    + right. exists j, r. split; [done|]. split; [by left | done].
Qed.

(** The extracts depend on the rows through their member identifiers
    only. *)
Lemma make_extracts_indices df budget rows rows' :
  map indices rows = map indices rows' ->
  make_extracts encode decode df budget rows
  = make_extracts encode decode df budget rows'.
Proof.
  revert rows'. induction rows as [|r rows IH]; intros [|r' rows']; try done.
  simpl. intros [= Hr Hrows]. unfold extract_row. rewrite Hr.
  by rewrite (IH _ Hrows).
Qed.

(** *** [prepare] *)

(** [prepare] in full for a fresh run and for a rerun. *)
Lemma prepare_fresh_eq cid ctx w df td :
  input w = Some df ->
  cluster_dir w !! (cid ++ u "-labels-default.parquet") = Some (Parquet td) ->
  let lid := fresh_label_id cid (map fst (map_to_list (cluster_dir w))) in
  let t := map (fun r => Row (indices r) (label r) (label_raw r) false) td in
  let budget := max_tokens_of encode model_max_tokens ctx in
  let w1 := World (input w) (cluster_dir w) (model_state w)
                  (trace w ++ [EWrite (u "RUNNING: " ++ lid)]) in
  prepare encode decode model_max_tokens cid ctx PyNone w =
  match make_extracts encode decode df budget t with
  | Val xs => (Val (Setup (Some 0%nat) lid t xs budget), w1)
  | Exit c => (Exit c, w1)
  | Raise e => (Raise e, w1)
  end.
Proof.
  intros Hin Hd. destruct w as [inp dir m tr]. cbn [input cluster_dir] in *.
  subst inp.
  cbv [prepare read_input read_parquet bind resolve_run listdir ret write emit
       lift input cluster_dir model_state trace].
  rewrite Hd. by destruct (make_extracts _ _ _ _ _).
Qed.

Lemma prepare_rerun_eq cid ctx rid w df td t :
  input w = Some df ->
  cluster_dir w !! (cid ++ u "-labels-default.parquet") = Some (Parquet td) ->
  cluster_dir w !! (rid ++ u ".parquet") = Some (Parquet t) ->
  let budget := max_tokens_of encode model_max_tokens ctx in
  let w1 := World (input w) (cluster_dir w) (model_state w)
                  (trace w ++ [EWrite (u "First unlabeled row: "
                                       ++ match first_unlabeled t with
                                          | Some k => str_of_nat k
                                          | None => u "None"
                                          end);
                               EWrite (u "RUNNING: " ++ rid)]) in
  prepare encode decode model_max_tokens cid ctx (PyStr rid) w =
  match make_extracts encode decode df budget t with
  | Val xs => (Val (Setup (first_unlabeled t) rid t xs budget), w1)
  | Exit c => (Exit c, w1)
  | Raise e => (Raise e, w1)
  end.
Proof.
  intros Hin Hd Hr. destruct w as [inp dir m tr]. cbn [input cluster_dir] in *.
  subst inp.
  cbv [prepare read_input read_parquet bind resolve_run ret write emit
       lift input cluster_dir model_state trace py_str].
  rewrite Hd, Hr. rewrite <- !app_assoc.
  by destruct (make_extracts _ _ _ _ _).
Qed.

(** Whatever its outcome, [prepare] calls no model and writes no file,
    and it does not exit. *)
Lemma prepare_frame cid ctx rerun w r w1 :
  prepare encode decode model_max_tokens cid ctx rerun w = (r, w1) ->
  input w1 = input w /\ cluster_dir w1 = cluster_dir w
  /\ model_state w1 = model_state w
  /\ (exists evs, trace w1 = trace w ++ evs /\ calls evs = [] /\ persists evs = [])
  /\ (forall c, r <> Exit c).
Proof.
  intros Hp.
  assert (forall name : str, (r, w1) = (Raise (FileNotFoundError name), w) ->
            input w1 = input w /\ cluster_dir w1 = cluster_dir w
            /\ model_state w1 = model_state w
            /\ (exists evs, trace w1 = trace w ++ evs /\ calls evs = []
                            /\ persists evs = [])
            /\ (forall c, r <> Exit c)) as Hfail.
  { intros name [= -> ->]. repeat split; [|done]. exists []. by rewrite app_nil_r. }
  destruct (input w) as [df|] eqn:Hin.
  2:{ apply (Hfail (u "input.parquet")). rewrite <- Hp.
      destruct w as [inp dir m tr]. cbn [input] in Hin. subst inp.
      by cbv [prepare read_input bind input]. }
  destruct (cluster_dir w !! (cid ++ u "-labels-default.parquet"))
    as [[td|meta]|] eqn:Hd.
  2,3: apply (Hfail (cid ++ u "-labels-default.parquet")); rewrite <- Hp;
       destruct w as [inp dir m tr]; cbn [input cluster_dir] in *; subst inp;
       cbv [prepare read_input read_parquet bind input cluster_dir];
       by rewrite Hd.
  destruct rerun as [|rid].
  - rewrite (prepare_fresh_eq _ _ _ _ _ Hin Hd) in Hp. cbn zeta in Hp.
    destruct (make_extracts_cases df (max_tokens_of encode model_max_tokens ctx)
                (map (fun r => Row (indices r) (label r) (label_raw r) false) td))
      as [(xs & Hxs & _)|(j & r' & Hxs & _)];
      rewrite Hxs in Hp; injection Hp as <- <-;
      cbn [input cluster_dir model_state trace];
      (split; [done|]); (split; [done|]); (split; [done|]);
      (split; [|done]); eexists; (split; [reflexivity|]); by split.
  - destruct (cluster_dir w !! (rid ++ u ".parquet")) as [[t|meta]|] eqn:Hr.
    2,3: apply (Hfail (rid ++ u ".parquet")); rewrite <- Hp;
         destruct w as [inp dir m tr]; cbn [input cluster_dir] in *; subst inp;
         cbv [prepare read_input read_parquet bind resolve_run py_str input
              cluster_dir];
         by rewrite Hd, Hr.
    rewrite (prepare_rerun_eq _ _ _ _ _ _ _ Hin Hd Hr) in Hp. cbn zeta in Hp.
    destruct (make_extracts_cases df (max_tokens_of encode model_max_tokens ctx) t)
      as [(xs & Hxs & _)|(j & r' & Hxs & _)];
      rewrite Hxs in Hp; injection Hp as <- <-;
      cbn [input cluster_dir model_state trace];
      (split; [done|]); (split; [done|]); (split; [done|]);
      (split; [|done]); eexists; (split; [reflexivity|]); by split.
Qed.

Lemma prepare_missing cid ctx rerun w :
  (input w = None ->
   prepare encode decode model_max_tokens cid ctx rerun w
   = (Raise (FileNotFoundError (u "input.parquet")), w))
  /\ (is_Some (input w) ->
      (forall td, cluster_dir w !! (cid ++ u "-labels-default.parquet")
                  <> Some (Parquet td)) ->
      prepare encode decode model_max_tokens cid ctx rerun w
      = (Raise (FileNotFoundError (cid ++ u "-labels-default.parquet")), w))
  /\ (forall rid td,
        rerun = PyStr rid -> is_Some (input w) ->
        cluster_dir w !! (cid ++ u "-labels-default.parquet") = Some (Parquet td) ->
        (forall t, cluster_dir w !! (rid ++ u ".parquet") <> Some (Parquet t)) ->
        prepare encode decode model_max_tokens cid ctx rerun w
        = (Raise (FileNotFoundError (rid ++ u ".parquet")), w)).
Proof.
  destruct w as [inp dir m tr]. cbn [input cluster_dir].
  split; [|split].
  - intros ->. by cbv [prepare read_input bind input].
  - intros [df ->] Hd.
    cbv [prepare read_input read_parquet bind input cluster_dir].
    destruct (dir !! (cid ++ u "-labels-default.parquet")) as [[td|]|] eqn:E;
      [by destruct (Hd td) | done | done].
  - intros rid td -> [df ->] Hd Hr.
    cbv [prepare read_input read_parquet bind resolve_run py_str input
         cluster_dir].
    rewrite Hd.
    destruct (dir !! (rid ++ u ".parquet")) as [[t|]|] eqn:E;
      [by destruct (Hr t) | done | done].
Qed.

Lemma labeler_prepare_raise chat tc cid mid ctx rerun w e w1 :
  prepare encode decode model_max_tokens cid ctx rerun w = (Raise e, w1) ->
  labeler encode decode model_max_tokens chat tc cid mid ctx rerun w
  = (Raise e, w1).
Proof. intros Hp. unfold labeler. unfold bind at 1. by rewrite Hp. Qed.

(** X7.  A file that is missing ends the run before anything is done:
    without [input.parquet], without the default table of the cluster
    set (also for a rerun, which does not use it), or without the table
    of the run to resume, [labeler] raises [FileNotFoundError] for that
    file and leaves the world as it was: no line written, no model
    called, no file changed. *)
Theorem labeler_missing_file chat tc cid mid ctx rerun w :
  (input w = None ->
   labeler encode decode model_max_tokens chat tc cid mid ctx rerun w
   = (Raise (FileNotFoundError (u "input.parquet")), w))
  /\ (is_Some (input w) ->
      (forall td, cluster_dir w !! (cid ++ u "-labels-default.parquet")
                  <> Some (Parquet td)) ->
      labeler encode decode model_max_tokens chat tc cid mid ctx rerun w
      = (Raise (FileNotFoundError (cid ++ u "-labels-default.parquet")), w))
  /\ (forall rid td,
        rerun = PyStr rid -> is_Some (input w) ->
        cluster_dir w !! (cid ++ u "-labels-default.parquet") = Some (Parquet td) ->
        (forall t, cluster_dir w !! (rid ++ u ".parquet") <> Some (Parquet t)) ->
        labeler encode decode model_max_tokens chat tc cid mid ctx rerun w
        = (Raise (FileNotFoundError (rid ++ u ".parquet")), w)).
Proof.
  destruct (prepare_missing cid ctx rerun w) as (H1 & H2 & H3).
  split; [|split].
  - intros Hin. by apply labeler_prepare_raise, H1.
  - intros Hin Hd. by apply labeler_prepare_raise, H2.
  - intros rid td Hr Hin Hd Hf. by eapply labeler_prepare_raise, H3.
Qed.

(** X8.  A member identifier that is not a row of the record table ends
    the run before the first call of the model: when some cluster of the
    table to label has such a member, [labeler] raises [KeyError] for a
    member of that kind, having called no model and changed no file. *)
Theorem bad_member_raises_before_labeling chat tc cid mid ctx rerun w df td t :
  input w = Some df ->
  cluster_dir w !! (cid ++ u "-labels-default.parquet") = Some (Parquet td) ->
  match rerun with
  | PyNone => t = td
  | PyStr rid => cluster_dir w !! (rid ++ u ".parquet") = Some (Parquet t)
  end ->
  (exists r i, r ∈ t /\ i ∈ indices r /\ df !! i = None) ->
  exists j w',
    labeler encode decode model_max_tokens chat tc cid mid ctx rerun w
    = (Raise (KeyError j), w')
    /\ df !! j = None
    /\ (exists r, r ∈ t /\ j ∈ indices r)
    /\ cluster_dir w' = cluster_dir w
    /\ model_state w' = model_state w
    /\ calls (new_events w w') = []
    /\ persists (new_events w w') = [].
Proof.
  intros Hin Hd Ht (r & i & Hr & Hi & Hnone).
  assert (exists j r', make_extracts encode decode df
                         (max_tokens_of encode model_max_tokens ctx) t
                       = Raise (KeyError j)
                       /\ r' ∈ t /\ j ∈ indices r' /\ df !! j = None)
    as (j & r' & Hxs & Hr' & Hj & Hjn).
  { destruct (make_extracts_cases df (max_tokens_of encode model_max_tokens ctx) t)
      as [(xs & _ & Hall)|H]; [|done].
    destruct (Hall r i Hr Hi) as [? ?]. congruence. }
  assert (exists w', prepare encode decode model_max_tokens cid ctx rerun w
                     = (Raise (KeyError j), w')) as [w' Hp].
  { destruct rerun as [|rid].
    - subst t. rewrite (prepare_fresh_eq _ _ _ _ _ Hin Hd). cbn zeta.
      rewrite (make_extracts_indices _ _ _ td), Hxs; [by eexists|].
      rewrite map_map. done.
    - rewrite (prepare_rerun_eq _ _ _ _ _ _ _ Hin Hd Ht). cbn zeta.
      rewrite Hxs. by eexists. }
  exists j, w'. split; [by apply labeler_prepare_raise|].
  split; [done|]. split; [by exists r'|].
  destruct (prepare_frame _ _ _ _ _ _ Hp)
    as (_ & Hdir & Hm & (evs & Htr & Hc & Hps) & _).
  split; [done|]. split; [done|].
  by rewrite (new_events_eq _ _ _ Htr).
Qed.

(** *** The whole run *)

Lemma labeling_loop_nil chat lid sys ur loc w :
  labeling_loop chat lid sys ur [] loc w = (Val loc, w).
Proof. done. Qed.

(** Whatever its outcome, the loop leaves the input alone and changes no
    file but the table of the run. *)
Lemma labeling_loop_frame chat lid sys ur xs t0 w1 rl wl :
  length t0 = length xs ->
  labeling_loop chat lid sys ur xs (Locals t0 [] []) w1 = (rl, wl) ->
  input wl = input w1
  /\ forall name, name <> lid ++ u ".parquet" ->
                  cluster_dir wl !! name = cluster_dir w1 !! name.
Proof.
  intros Hlen Hloop.
  assert (forall i loc w,
            loop_inv chat lid sys ur xs t0 w1 i loc w ->
            input w = input w1
            /\ forall name, name <> lid ++ u ".parquet" ->
                            cluster_dir w !! name = cluster_dir w1 !! name)
    as Hinv.
  { intros i loc w [_ Hin _ _ _ _ _ Hfiles _]. split; [done|].
    intros name Hne. rewrite Hfiles.
    destruct (calls (new_events w1 w)); [done|].
    by rewrite lookup_insert_ne. }
  destruct ur as [k|].
  - destruct (labeling_loop_outcome _ _ _ _ _ _ _ _ _ _ _ Hlen Hloop)
      as [(loc & -> & Hi)
         |(n & x & r0 & loc1 & wn & res & m' & str & -> & _ & _ & _ & _
           & Hi & _ & _ & ->)].
    + by eapply Hinv.
    + cbn [input cluster_dir]. by eapply Hinv.
  - destruct xs as [|x xs].
    + rewrite labeling_loop_nil in Hloop. by injection Hloop as <- <-.
    + rewrite labeling_loop_none in Hloop. by injection Hloop as <- <-.
Qed.

(** X9.  The files of a run.  Whatever the outcome of [labeler], the
    input is as it was, and every file of the cluster directory other
    than the table and the metadata of the run is as it was: nothing
    else is written and nothing is removed.  The run is the one named by
    [rerun], or the next fresh run. *)
Theorem labeler_touches_only_its_files chat tc cid mid ctx rerun w0 r w :
  labeler encode decode model_max_tokens chat tc cid mid ctx rerun w0 = (r, w) ->
  let lid :=
    match rerun with
    | PyNone => fresh_label_id cid (map fst (map_to_list (cluster_dir w0)))
    | _ => py_str rerun
    end in
  input w = input w0
  /\ forall name,
      name <> lid ++ u ".parquet" -> name <> lid ++ u ".json" ->
      cluster_dir w !! name = cluster_dir w0 !! name.
Proof.
  intros Hrun lid.
  destruct (prepare encode decode model_max_tokens cid ctx rerun w0)
    as [r1 w1] eqn:Hp.
  destruct (prepare_frame _ _ _ _ _ _ Hp) as (Hin1 & Hdir1 & _).
  destruct r1 as [s|c|e].
  - assert (label_id s = lid) as Hlid.
    { destruct (prepare_inv _ _ _ _ _ _ _ _ _ Hp)
        as (df & td & evs0 & _ & _ & _ & _ & _ & _ & _ & Hm).
      unfold lid. destruct rerun; [by destruct Hm as (_ & ? & _)|].
      by destruct Hm as (? & _). }
    assert (length (run_table s) = length (extracts s)) as Hlen.
    { destruct (prepare_inv _ _ _ _ _ _ _ _ _ Hp)
        as (df & td & evs0 & _ & _ & _ & _ & _ & _ & Hxs & _).
      symmetry. by eapply make_extracts_length. }
    rewrite (labeler_eq _ _ _ _ _ _ _ _ _ _ _ _ Hp) in Hrun.
    destruct (labeling_loop _ _ _ _ _ _ _) as [rl wl] eqn:Hloop.
    destruct (labeling_loop_frame _ _ _ _ _ _ _ _ _ Hlen Hloop) as [Hin Hdir].
    rewrite Hlid in Hdir.
    destruct rl as [loc|c|e].
    + rewrite finish_eq in Hrun. injection Hrun as _ <-.
      cbn [input cluster_dir]. split; [congruence|].
      intros name H1 H2. rewrite Hlid, lookup_insert_ne by done.
      rewrite Hdir by done. by rewrite Hdir1.
    + injection Hrun as _ <-. split; [congruence|].
      intros name H1 H2. rewrite Hdir by done. by rewrite Hdir1.
    + injection Hrun as _ <-. split; [congruence|].
      intros name H1 H2. rewrite Hdir by done. by rewrite Hdir1.
  - unfold labeler in Hrun. unfold bind at 1 in Hrun. rewrite Hp in Hrun.
    injection Hrun as _ <-. split; [done|]. intros. by rewrite Hdir1.
  - unfold labeler in Hrun. unfold bind at 1 in Hrun. rewrite Hp in Hrun.
    injection Hrun as _ <-. split; [done|]. intros. by rewrite Hdir1.
Qed.

(** X10.  A table without rows: the run ends normally without a call and
    writes the metadata, and only the metadata; no table of the run is
    written. *)
Theorem empty_table_run chat tc cid mid ctx rerun w0 s w1 :
  prepare encode decode model_max_tokens cid ctx rerun w0 = (Val s, w1) ->
  run_table s = [] ->
  exists w,
    labeler encode decode model_max_tokens chat tc cid mid ctx rerun w0
    = (Val tt, w)
    /\ calls (new_events w0 w) = []
    /\ persists (new_events w0 w) = []
    /\ model_state w = model_state w0
    /\ cluster_dir w
       = <[label_id s ++ u ".json" :=
             Json (Metadata (label_id s) cid mid tc ctx (system_prompt ctx)
                            (max_tokens s))]> (cluster_dir w0).
Proof.
  intros Hp Ht.
  destruct (prepare_inv _ _ _ _ _ _ _ _ _ Hp)
    as (df & td & evs0 & _ & _ & _ & _ & _ & _ & Hxs & _).
  apply make_extracts_length in Hxs. rewrite Ht in Hxs.
  destruct (extracts s) as [|x xs] eqn:Hx; [|done].
  destruct (prepare_frame _ _ _ _ _ _ Hp)
    as (_ & Hdir & Hm & (evs & Htr & Hc & Hps) & _).
  eexists. split.
  { rewrite (labeler_eq _ _ _ _ _ _ _ _ _ _ _ _ Hp), Hx, labeling_loop_nil.
    apply finish_eq. }
  cbn [cluster_dir model_state]. rewrite Hdir, Hm.
  erewrite new_events_eq
    by (cbn [trace]; rewrite Htr, <- app_assoc; reflexivity).
  rewrite calls_app, persists_app, Hc, Hps. done.
Qed.

(** *** Runs that end normally *)

Lemma parquet_ne_json (lid : str) : lid ++ u ".parquet" <> lid ++ u ".json".
Proof. intros H%app_inv_head. by vm_compute in H. Qed.

(** With a model that always answers with a string the loop ends
    normally. *)
Lemma labeling_loop_completes chat lid sys k xs t0 w1 :
  length t0 = length xs ->
  (forall m msgs, exists raw m', chat m msgs = (ChatReturn (PyStr raw), m')) ->
  exists loc w,
    labeling_loop chat lid sys (Some k) xs (Locals t0 [] []) w1 = (Val loc, w)
    /\ loop_inv chat lid sys (Some k) xs t0 w1 (length xs) loc w.
Proof.
  intros Hlen Hgood.
  destruct (labeling_loop chat lid sys (Some k) xs (Locals t0 [] []) w1)
    as [rl wl] eqn:Hloop.
  destruct (labeling_loop_outcome _ _ _ _ _ _ _ _ _ _ _ Hlen Hloop)
    as [(loc & -> & Hi)
       |(n & x & r0 & loc1 & wn & res & m' & str & -> & _ & _ & _ & _
         & _ & Hchat & Hres & _)].
  - by exists loc, wl.
  - destruct (Hgood (model_state wn) [sys; user_message x]) as (raw & m'' & Hg).
    rewrite Hg in Hchat. by destruct Hres as [->|[msg ->]].
Qed.

(** After the last iteration every row has its flag set. *)
Lemma loop_inv_all_labeled chat lid sys k xs t0 w0 loc w :
  loop_inv chat lid sys (Some k) xs t0 w0 (length t0) loc w ->
  forall r, r ∈ clusters loc -> labeled r = true.
Proof.
  intros [_ _ Hlen _ _ _ Hdone _ _] r [j Hj]%list_elem_of_lookup.
  pose proof (lookup_lt_Some _ _ _ Hj) as Hlt. rewrite Hlen in Hlt.
  destruct (lookup_lt_is_Some_2 t0 j Hlt) as [r0 Hr0].
  specialize (Hdone j r0 Hlt Hr0).
  destruct (skipped (Some k) r0) eqn:Hsk.
  - rewrite Hj in Hdone. injection Hdone as ->.
    simpl in Hsk. by apply andb_prop in Hsk as [_ ?].
  - destruct Hdone as (raw & x & m & m' & Hr & _). rewrite Hj in Hr.
    by injection Hr as ->.
Qed.

(** The loop does not change the members of a cluster. *)
Lemma loop_inv_indices chat lid sys ur xs t0 w0 i loc w :
  loop_inv chat lid sys ur xs t0 w0 i loc w ->
  map indices (clusters loc) = map indices t0.
Proof.
  intros [_ _ Hlen _ _ Hrest Hdone _ _]. apply list_eq. intros j.
  rewrite !list_lookup_fmap.
  destruct (decide (i <= j)%nat) as [Hij|Hij]; [by rewrite Hrest|].
  destruct (t0 !! j) as [r0|] eqn:Hr0.
  - specialize (Hdone j r0 ltac:(lia) Hr0).
    destruct (skipped ur r0); [by rewrite Hdone|].
    destruct Hdone as (raw & x & m & m' & -> & _). done.
  - apply lookup_ge_None in Hr0. rewrite <- Hlen in Hr0.
    by apply lookup_ge_None in Hr0 as ->.
Qed.

(** X11.  A run that meets no failure.  When the table has a first
    unlabeled row and the model answers every call with a string,
    [labeler] ends normally.  It has written the metadata of the run.
    The table it ends with has the rows and the members of the table it
    started from and every flag set, so that it has no first unlabeled
    row; when a call was made the file of the run holds that table, and
    when none was made the table is the one the run started from and the
    file of the run is as it was. *)
Theorem run_completes chat tc cid mid ctx rerun w0 s w1 k :
  prepare encode decode model_max_tokens cid ctx rerun w0 = (Val s, w1) ->
  unlabeled_row s = Some k ->
  (forall m msgs, exists raw m', chat m msgs = (ChatReturn (PyStr raw), m')) ->
  exists w t',
    labeler encode decode model_max_tokens chat tc cid mid ctx rerun w0
    = (Val tt, w)
    /\ cluster_dir w !! (label_id s ++ u ".json")
       = Some (Json (Metadata (label_id s) cid mid tc ctx (system_prompt ctx)
                              (max_tokens s)))
    /\ length t' = length (run_table s)
    /\ map indices t' = map indices (run_table s)
    /\ (forall r, r ∈ t' -> labeled r = true)
    /\ first_unlabeled t' = None
    /\ (calls (new_events w0 w) <> [] ->
        cluster_dir w !! (label_id s ++ u ".parquet") = Some (Parquet t'))
    /\ (calls (new_events w0 w) = [] ->
        t' = run_table s
        /\ cluster_dir w !! (label_id s ++ u ".parquet")
           = cluster_dir w0 !! (label_id s ++ u ".parquet")).
Proof.
  intros Hp Hk Hgood.
  destruct (prepare_inv _ _ _ _ _ _ _ _ _ Hp)
    as (df & td & evs0 & _ & _ & _ & _ & _ & _ & Hxs & _).
  pose proof (make_extracts_length _ _ _ _ _ _ Hxs) as Hlen. symmetry in Hlen.
  destruct (prepare_frame _ _ _ _ _ _ Hp)
    as (_ & Hdir1 & _ & (evs & Htr1 & Hc1 & _) & _).
  destruct (labeling_loop_completes chat (label_id s) (system_prompt ctx) k
              (extracts s) (run_table s) w1 Hlen Hgood)
    as (loc & wl & Hloop & Hinv).
  eexists _, (clusters loc). split.
  { rewrite (labeler_eq _ _ _ _ _ _ _ _ _ _ _ _ Hp), Hk, Hloop.
    apply finish_eq. }
  cbn [cluster_dir].
  assert (forall r, r ∈ clusters loc -> labeled r = true) as Hall.
  { eapply loop_inv_all_labeled. rewrite Hlen. exact Hinv. }
  assert (calls (new_events w0
            (World (input wl)
               (<[label_id s ++ u ".json" :=
                    Json (Metadata (label_id s) cid mid tc ctx
                            (system_prompt ctx) (max_tokens s))]>
                  (cluster_dir wl))
               (model_state wl)
               (trace wl ++
                  [EWrite (u "labels: " ++ str_of_nat (length (labels loc)));
                   EJsonDump (label_id s ++ u ".json")
                     (Metadata (label_id s) cid mid tc ctx (system_prompt ctx)
                        (max_tokens s));
                   EWrite (u "done with " ++ label_id s)])))
          = calls (new_events w1 wl)) as ->.
  { erewrite new_events_eq.
    2:{ cbn [trace]. rewrite (inv_trace _ _ _ _ _ _ _ _ _ _ Hinv), Htr1.
        rewrite <- !app_assoc. reflexivity. }
    rewrite !calls_app, Hc1. cbn [calls omap app]. by rewrite app_nil_r. }
  split; [by rewrite lookup_insert_eq|].
  split; [exact (inv_length _ _ _ _ _ _ _ _ _ _ Hinv)|].
  split; [by eapply loop_inv_indices|].
  split; [done|].
  split; [by apply first_unlabeled_None|].
  rewrite lookup_insert_ne by (intros E; by apply (parquet_ne_json (label_id s))).
  rewrite (inv_files _ _ _ _ _ _ _ _ _ _ Hinv), Hdir1.
  split.
  - intros Hne. destruct (calls (new_events w1 wl)); [done|].
    by rewrite lookup_insert_eq.
  - intros He. rewrite He. split; [|done].
    by apply (inv_fresh _ _ _ _ _ _ _ _ _ _ Hinv).
Qed.

(** *** Runs that are interrupted, and their resumption *)

Lemma first_unlabeled_Some t n r :
  t !! n = Some r -> labeled r = false ->
  (forall j r', (j < n)%nat -> t !! j = Some r' -> labeled r' = true) ->
  first_unlabeled t = Some n.
Proof.
  intros Hn Hr Hlt. unfold first_unlabeled.
  assert (list_find (fun r => labeled r = false) t = Some (n, r)) as ->; [|done].
  apply list_find_Some. split; [done|]. split; [done|].
  intros j y Hy Hj. rewrite (Hlt j y Hj Hy). done.
Qed.

(** Under a first unlabeled row zero no row is skipped. *)
Lemma sent_zero t n : (n <= length t)%nat -> sent (Some 0%nat) t n = seq 0 n.
Proof.
  intros Hn. unfold sent. apply filter_all.
  intros j Hj%list_elem_of_In%in_seq.
  destruct (lookup_lt_is_Some_2 t j) as [r ->]; [lia | done].
Qed.

(** The unlabeled rows of a table whose first [n] rows, and no others,
    have their flag set. *)
Lemma unlabeled_indices_from t n :
  (n <= length t)%nat ->
  (forall j r, (j < n)%nat -> t !! j = Some r -> labeled r = true) ->
  (forall j r, (n <= j)%nat -> t !! j = Some r -> labeled r = false) ->
  unlabeled_indices t = seq n (length t - n).
Proof.
  intros Hn Hlt Hge. unfold unlabeled_indices.
  replace (length t) with (n + (length t - n))%nat at 1 by lia.
  rewrite seq_app, List.filter_app. simpl.
  assert (forall (f : nat -> bool) l, (forall j, j ∈ l -> f j = false) ->
            List.filter f l = []) as Hnone.
  { intros f l. induction l as [|a l IH]; intros Hf; [done|]. simpl.
    rewrite (Hf a) by (by left). apply IH. intros j Hj. apply Hf. by right. }
  rewrite Hnone, filter_all; [done| |].
  - intros j Hj%list_elem_of_In%in_seq.
    destruct (lookup_lt_is_Some_2 t j) as [r Hr]; [lia|].
    rewrite Hr, (Hge j r) by (done || lia). done.
  - intros j Hj%list_elem_of_In%in_seq.
    destruct (lookup_lt_is_Some_2 t j) as [r Hr]; [lia|].
    rewrite Hr, (Hlt j r) by (done || lia). done.
Qed.

(** A fresh run that exits: it exits with code 1 at some row [n], after
    it has called the model for the rows 0 to [n] and written a table
    for each row before [n].  The directory is as it was when [n] is
    zero; otherwise the table of the run was added, and its first
    unlabeled row is [n]. *)
Lemma fresh_run_exit chat tc cid mid ctx w0 df td c w :
  input w0 = Some df ->
  cluster_dir w0 !! (cid ++ u "-labels-default.parquet") = Some (Parquet td) ->
  labeler encode decode model_max_tokens chat tc cid mid ctx PyNone w0
  = (Exit c, w) ->
  let lid := fresh_label_id cid (map fst (map_to_list (cluster_dir w0))) in
  let t0 := map (fun r => Row (indices r) (label r) (label_raw r) false) td in
  exists n t1 xs,
    c = 1 /\ (n < length td)%nat
    /\ calls (new_events w0 w) = seq 0 (S n)
    /\ length (persists (new_events w0 w)) = n
    /\ input w = input w0
    /\ cluster_dir w
       = match n with
         | O => cluster_dir w0
         | S _ => <[lid ++ u ".parquet" := Parquet t1]> (cluster_dir w0)
         end
    /\ make_extracts encode decode df
         (max_tokens_of encode model_max_tokens ctx) t0 = Val xs
    /\ length t1 = length td
    /\ map indices t1 = map indices td
    /\ (forall j r, (j < n)%nat -> t1 !! j = Some r -> labeled r = true)
    /\ (forall j, (n <= j)%nat -> t1 !! j = t0 !! j).
Proof.
  intros Hin Hd Hrun lid t0.
  pose proof (prepare_fresh_eq cid ctx w0 df td Hin Hd) as Hp. cbn zeta in Hp.
  fold lid t0 in Hp.
  destruct (make_extracts_cases df (max_tokens_of encode model_max_tokens ctx) t0)
    as [(xs & Hxs & _)|(j & r' & Hxs & _)]; rewrite Hxs in Hp.
  2:{ unfold labeler in Hrun. unfold bind at 1 in Hrun. by rewrite Hp in Hrun. }
  pose proof (make_extracts_length _ _ _ _ _ _ Hxs) as Hlen. symmetry in Hlen.
  assert (length t0 = length td) as Hlt0 by (unfold t0; by rewrite length_map).
  rewrite (labeler_eq _ _ _ _ _ _ _ _ _ _ _ _ Hp) in Hrun.
  cbn [label_id unlabeled_row extracts run_table] in Hrun.
  destruct (labeling_loop chat lid (system_prompt ctx) (Some 0%nat) xs
              (Locals t0 [] []) _) as [rl wl] eqn:Hloop.
  destruct (labeling_loop_outcome _ _ _ _ _ _ _ _ _ _ _ Hlen Hloop)
    as [(loc & -> & Hi)
       |(n & x & r0 & loc1 & wn & res & m' & str & -> & Hx & Hr0 & _ & _
         & Hinv & _ & _ & ->)].
  { by rewrite finish_eq in Hrun. }
  injection Hrun as <- <-.
  pose proof (lookup_lt_Some _ _ _ Hr0) as Hn.
  destruct Hinv as [Htr Hinp Hlen1 Hcalls Hper Hrest Hdone Hfiles Hfresh].
  cbn [trace input cluster_dir] in *.
  assert (calls (new_events (World (input w0) (cluster_dir w0) (model_state w0)
                               (trace w0 ++ [EWrite (u "RUNNING: " ++ lid)])) wn)
          = seq 0 n) as Hcn.
  { rewrite Hcalls. apply sent_zero. lia. }
  rewrite Hcn in Hper, Hfiles. rewrite length_seq in Hper.
  exists n, (clusters loc1), xs.
  split; [done|]. split; [lia|].
  erewrite new_events_eq.
  2:{ cbn [trace]. rewrite Htr. rewrite <- !app_assoc. reflexivity. }
  rewrite !calls_app, !persists_app, Hcn.
  split. { cbn [calls omap app]. by rewrite seq_S. }
  split. { cbn [persists omap app]. rewrite !length_app, Hper. simpl. lia. }
  split; [done|].
  split. { rewrite Hfiles. by destruct n. }
  split; [done|]. split; [lia|].
  split.
  { trans (map indices t0).
    - apply list_eq. intros j. rewrite !list_lookup_fmap.
      destruct (decide (n <= j)%nat) as [Hij|Hij]; [by rewrite Hrest|].
      destruct (t0 !! j) as [rj|] eqn:Hrj.
      + specialize (Hdone j rj ltac:(lia) Hrj). simpl in Hdone.
        destruct Hdone as (raw & y & m & m'' & -> & _). done.
      + apply lookup_ge_None in Hrj. rewrite <- Hlen1 in Hrj.
        by apply lookup_ge_None in Hrj as ->.
    - unfold t0. rewrite map_map. done. }
  split; [|done].
  intros j r Hj Hr.
  destruct (lookup_lt_is_Some_2 t0 j) as [rj Hrj]; [lia|].
  specialize (Hdone j rj Hj Hrj). simpl in Hdone.
  destruct Hdone as (raw & y & m & m'' & Hr' & _).
  rewrite Hr in Hr'. by injection Hr' as ->.
Qed.

(** X12.  What a fresh run leaves behind when it exits.  It exits with
    code 1 at some row [n] of the table.  It has called the model for
    the rows 0 to [n] in order, and written a table for each row before
    [n].  When [n] is zero the directory is as it was.  Otherwise the
    directory has gained the table of the run, and nothing else; that
    table has the clusters of the default table with their members, the
    rows before [n] have their flag set, and the first unlabeled row is
    [n]. *)
Theorem interrupted_fresh_run chat tc cid mid ctx w0 df td c w :
  input w0 = Some df ->
  cluster_dir w0 !! (cid ++ u "-labels-default.parquet") = Some (Parquet td) ->
  labeler encode decode model_max_tokens chat tc cid mid ctx PyNone w0
  = (Exit c, w) ->
  let lid := fresh_label_id cid (map fst (map_to_list (cluster_dir w0))) in
  exists n,
    c = 1 /\ (n < length td)%nat
    /\ calls (new_events w0 w) = seq 0 (S n)
    /\ length (persists (new_events w0 w)) = n
    /\ input w = input w0
    /\ match n with
       | O => cluster_dir w = cluster_dir w0
       | S _ =>
           exists t1,
             cluster_dir w = <[lid ++ u ".parquet" := Parquet t1]> (cluster_dir w0)
             /\ map indices t1 = map indices td
             /\ (forall j r, (j < n)%nat -> t1 !! j = Some r -> labeled r = true)
             /\ first_unlabeled t1 = Some n
       end.
Proof.
  intros Hin Hd Hrun lid.
  destruct (fresh_run_exit _ _ _ _ _ _ _ _ _ _ Hin Hd Hrun)
    as (n & t1 & xs & Hc & Hn & Hcalls & Hper & Hinp & Hdir & _ & Hlen & Hidx
        & Hlt & Hge).
  exists n. split; [done|]. split; [done|]. split; [done|]. split; [done|].
  split; [done|]. destruct n as [|n]; [done|].
  exists t1. split; [done|]. split; [done|]. split; [done|].
  destruct (lookup_lt_is_Some_2 td (S n) Hn) as [r Hr].
  eapply first_unlabeled_Some; [| |exact Hlt].
  - rewrite Hge by done. rewrite list_lookup_fmap, Hr. reflexivity.
  - done.
Qed.

(** X13.  Resuming an interrupted run.  Let a fresh run exit after it
    has labeled a cluster at least, and let the run be resumed under its
    identifier in the world it left, with a model that answers every
    call with a string.  The resumed run ends normally; it calls the
    model for the row at which the first run exited and for the rows
    after it, in order, and for no row before; and the table of the run
    then has every flag set and the members of the default table. *)
Theorem resume_after_exit chat chat' tc cid mid ctx w0 df td c w :
  input w0 = Some df ->
  cluster_dir w0 !! (cid ++ u "-labels-default.parquet") = Some (Parquet td) ->
  labeler encode decode model_max_tokens chat tc cid mid ctx PyNone w0
  = (Exit c, w) ->
  persists (new_events w0 w) <> [] ->
  (forall m msgs, exists raw m', chat' m msgs = (ChatReturn (PyStr raw), m')) ->
  let lid := fresh_label_id cid (map fst (map_to_list (cluster_dir w0))) in
  exists n w' t',
    calls (new_events w0 w) = seq 0 (S n)
    /\ labeler encode decode model_max_tokens chat' tc cid mid ctx (PyStr lid) w
       = (Val tt, w')
    /\ calls (new_events w w') = seq n (length td - n)
    /\ cluster_dir w' !! (lid ++ u ".parquet") = Some (Parquet t')
    /\ map indices t' = map indices td
    /\ (forall r, r ∈ t' -> labeled r = true).
Proof.
  intros Hin Hd Hrun Hper Hgood lid.
  destruct (fresh_run_exit _ _ _ _ _ _ _ _ _ _ Hin Hd Hrun)
    as (n & t1 & xs & Hc & Hn & Hcalls & Hpn & Hinp & Hdir & Hxs & Hlen & Hidx
        & Hlt & Hge).
  fold lid in Hdir.
  destruct n as [|n]; [by destruct (persists (new_events w0 w))|].
  set (t0 := map (fun r => Row (indices r) (label r) (label_raw r) false) td) in *.
  (* the world that the first run left *)
  assert (input w = Some df) as Hin' by congruence.
  assert (cluster_dir w !! (lid ++ u ".parquet") = Some (Parquet t1)) as Hrt.
  { by rewrite Hdir, lookup_insert_eq. }
  assert (cluster_dir w !! (cid ++ u "-labels-default.parquet")
          = Some (Parquet td)) as Hd'.
  { rewrite Hdir, lookup_insert_ne; [done|].
    intros E. pose proof (fresh_table_missing cid w0) as Hm. fold lid in Hm.
    rewrite E in Hm. congruence. }
  (* the table it left *)
  assert (first_unlabeled t1 = Some (S n)) as Hfu.
  { destruct (lookup_lt_is_Some_2 td (S n) Hn) as [r Hr].
    eapply first_unlabeled_Some; [| |exact Hlt].
    - rewrite Hge by done. unfold t0. rewrite list_lookup_fmap, Hr. reflexivity.
    - done. }
  assert (unlabeled_indices t1 = seq (S n) (length td - S n)) as Hui.
  { rewrite <- Hlen. apply unlabeled_indices_from; [lia|done|].
    intros j r Hj Hr. rewrite Hge in Hr by done. unfold t0 in Hr.
    rewrite list_lookup_fmap in Hr.
    destruct (td !! j); [|done]. by injection Hr as <-. }
  assert (make_extracts encode decode df
            (max_tokens_of encode model_max_tokens ctx) t1 = Val xs) as Hxs1.
  { rewrite <- Hxs. apply make_extracts_indices. unfold t0.
    rewrite Hidx, map_map. done. }
  (* the resumed run *)
  pose proof (prepare_rerun_eq cid ctx lid w df td t1 Hin' Hd' Hrt) as Hp.
  cbn zeta in Hp. rewrite Hxs1, Hfu in Hp.
  pose proof (make_extracts_length _ _ _ _ _ _ Hxs1) as Hlx. symmetry in Hlx.
  match type of Hp with _ = (_, ?x) => set (w1 := x) in * end.
  destruct (labeling_loop_completes chat' lid (system_prompt ctx) (S n)
              xs t1 w1 Hlx Hgood) as (loc & wl & Hloop & Hinv).
  exists (S n). eexists _, (clusters loc).
  split; [done|]. split.
  { rewrite (labeler_eq _ _ _ _ _ _ _ _ _ _ _ _ Hp).
    cbn [label_id unlabeled_row extracts run_table]. rewrite Hloop.
    apply finish_eq. }
  cbn [label_id max_tokens cluster_dir].
  assert (calls (new_events w1 wl) = seq (S n) (length td - S n)) as Hcl.
  { rewrite (inv_calls _ _ _ _ _ _ _ _ _ _ Hinv), <- Hlx, sent_all. done. }
  pose proof (inv_trace _ _ _ _ _ _ _ _ _ _ Hinv) as Htr.
  pose proof (inv_files _ _ _ _ _ _ _ _ _ _ Hinv) as Hfiles.
  set (evs := new_events w1 wl) in *. clearbody evs.
  split.
  { erewrite new_events_eq.
    2:{ cbn [trace]. rewrite Htr. unfold w1. cbn [trace].
        rewrite <- !app_assoc. reflexivity. }
    rewrite !calls_app, Hcl. cbn [calls omap app]. by rewrite app_nil_r. }
  split.
  { rewrite lookup_insert_ne by (intros E; by apply (parquet_ne_json lid)).
    rewrite Hfiles, Hcl.
    destruct (seq (S n) (length td - S n)) eqn:E.
    - apply (f_equal length) in E. rewrite length_seq in E. simpl in E. lia.
    - by rewrite lookup_insert_eq. }
  split.
  { rewrite <- Hidx. by eapply loop_inv_indices. }
  eapply loop_inv_all_labeled. rewrite Hlx. exact Hinv.
Qed.

(** X14.  A fresh run that exits at its first cluster can not be
    resumed: it has written no table, the directory is as it was, and a
    rerun under its identifier raises [FileNotFoundError] for the table
    of the run; the next fresh run takes the same identifier. *)
Theorem first_cluster_failure_leaves_no_run chat chat' tc cid mid ctx w0 df td c w :
  input w0 = Some df ->
  cluster_dir w0 !! (cid ++ u "-labels-default.parquet") = Some (Parquet td) ->
  labeler encode decode model_max_tokens chat tc cid mid ctx PyNone w0
  = (Exit c, w) ->
  persists (new_events w0 w) = [] ->
  let lid := fresh_label_id cid (map fst (map_to_list (cluster_dir w0))) in
  calls (new_events w0 w) = [0%nat]
  /\ cluster_dir w = cluster_dir w0
  /\ labeler encode decode model_max_tokens chat' tc cid mid ctx (PyStr lid) w
     = (Raise (FileNotFoundError (lid ++ u ".parquet")), w)
  /\ fresh_label_id cid (map fst (map_to_list (cluster_dir w))) = lid.
Proof.
  intros Hin Hd Hrun Hper lid.
  destruct (fresh_run_exit _ _ _ _ _ _ _ _ _ _ Hin Hd Hrun)
    as (n & t1 & xs & Hc & Hn & Hcalls & Hpn & Hinp & Hdir & _).
  rewrite Hper in Hpn. simpl in Hpn. subst n.
  split; [done|]. split; [done|]. split; [|by rewrite Hdir].
  apply labeler_prepare_raise.
  destruct (prepare_missing cid ctx (PyStr lid) w) as (_ & _ & H3).
  apply (H3 lid td); [done|by rewrite Hinp, Hin|by rewrite Hdir|].
  intros t. rewrite Hdir. unfold lid. by rewrite fresh_table_missing.
Qed.

(** *** The report at the end of a run *)

(** The lists [labels] and [clean_labels] gain one element with each
    call that returns a string. *)
Lemma loop_labels_prefix chat lid sys k xs t0 w0 n loc w :
  length t0 = length xs ->
  (n <= length xs)%nat ->
  labeling_loop chat lid sys (Some k) (take n xs) (Locals t0 [] []) w0
  = (Val loc, w) ->
  length (labels loc) = length (calls (new_events w0 w))
  /\ length (clean_labels loc) = length (labels loc).
Proof.
  intros Hlen. revert loc w. induction n as [|n IH]; intros loc w Hn Hrun.
  - injection Hrun as <- <-. by rewrite new_events_refl.
  - destruct (lookup_lt_is_Some_2 xs n) as [x Hx]; [lia|].
    rewrite (take_S_r _ _ _ Hx), labeling_loop_snoc in Hrun.
    unfold bind in Hrun.
    destruct (labeling_loop chat lid sys (Some k) (take n xs) (Locals t0 [] []) w0)
      as [[loc1| |] w1] eqn:Hpre; [|done..].
    rewrite length_take_le in Hrun by lia.
    destruct (IH loc1 w1 ltac:(lia) eq_refl) as [IH1 IH2].
    pose proof (loop_inv_prefix chat lid sys (Some k) xs t0 w0 [] [] n loc1 w1
                  Hlen ltac:(lia) Hpre) as Hinv.
    pose proof (inv_trace _ _ _ _ _ _ _ _ _ _ Hinv) as Htr.
    destruct (lookup_lt_is_Some_2 t0 n) as [r0 Hr0]; [lia|].
    assert (clusters loc1 !! n = Some r0) as Hr
        by (by rewrite (inv_rest _ _ _ _ _ _ _ _ _ _ Hinv)).
    destruct (iteration_cases chat lid sys k n x loc1 w1 r0 Hr)
      as [[_ [s Heq]] | [[_ (raw & m' & s & _ & Heq)]
                        | [_ (res & m' & s & _ & _ & Heq)]]];
      rewrite Heq in Hrun; [| |done]; injection Hrun as <- <-.
    + rewrite (new_events_app w0 w1 _ _ _ _ Htr), calls_app.
      cbn [calls omap]. by rewrite app_nil_r.
    + cbn [labels clean_labels].
      rewrite (new_events_app w0 w1 _ _ _ _ Htr), calls_app.
      cbn [calls omap]. rewrite !length_app. simpl. lia.
Qed.

(** X15.  The report of a run that ends normally.  The last things such
    a run does are to write the line [labels:] with a count, to dump the
    metadata, and to write the line [done with] and the run identifier.
    The count is the number of calls of the model in this run: the
    clusters that a resumed run skipped are not counted. *)
Theorem final_report_counts_calls chat tc cid mid ctx rerun w0 s w1 w :
  prepare encode decode model_max_tokens cid ctx rerun w0 = (Val s, w1) ->
  labeler encode decode model_max_tokens chat tc cid mid ctx rerun w0
  = (Val tt, w) ->
  exists evs,
    new_events w0 w
    = evs ++ [EWrite (u "labels: "
                      ++ str_of_nat (length (calls (new_events w0 w))));
              EJsonDump (label_id s ++ u ".json")
                (Metadata (label_id s) cid mid tc ctx (system_prompt ctx)
                          (max_tokens s));
              EWrite (u "done with " ++ label_id s)]
    /\ calls evs = calls (new_events w0 w).
Proof.
  intros Hp Hrun.
  destruct (prepare_inv _ _ _ _ _ _ _ _ _ Hp)
    as (df & td & evs0 & _ & _ & _ & _ & _ & _ & Hxs & _).
  pose proof (make_extracts_length _ _ _ _ _ _ Hxs) as Hlen. symmetry in Hlen.
  destruct (prepare_frame _ _ _ _ _ _ Hp)
    as (_ & _ & _ & (evs1 & Htr1 & Hc1 & _) & _).
  rewrite (labeler_eq _ _ _ _ _ _ _ _ _ _ _ _ Hp) in Hrun.
  destruct (labeling_loop _ _ _ _ _ _ _) as [[loc|c|e] wl] eqn:Hloop; [|done..].
  rewrite finish_eq in Hrun. injection Hrun as <-.
  assert (trace wl = trace w1 ++ new_events w1 wl
          /\ length (labels loc) = length (calls (new_events w1 wl)))
    as [Htr Hlab].
  { destruct (unlabeled_row s) as [k|].
    - split.
      + destruct (labeling_loop_outcome _ _ _ _ _ _ _ _ _ _ _ Hlen Hloop)
          as [(loc' & _ & Hinv)|(? & ? & ? & ? & ? & ? & ? & ? & [=] & _)].
        exact (inv_trace _ _ _ _ _ _ _ _ _ _ Hinv).
      + eapply (loop_labels_prefix chat (label_id s) (system_prompt ctx) k
                  (extracts s) (run_table s) w1 (length (extracts s)));
          [done | lia | by rewrite take_ge].
    - destruct (extracts s) as [|x xs].
      + rewrite labeling_loop_nil in Hloop. injection Hloop as <- <-.
        rewrite new_events_refl, app_nil_r. done.
      + by rewrite labeling_loop_none in Hloop. }
  set (evs := new_events w1 wl) in *. clearbody evs.
  erewrite new_events_eq.
  2:{ cbn [trace]. rewrite Htr, Htr1, <- !app_assoc. reflexivity. }
  exists (evs1 ++ evs). rewrite !calls_app, Hc1. cbn [calls omap app].
  rewrite app_nil_r, Hlab, <- !app_assoc. done.
Qed.

End RunFacts.

(** ** More on the pure functions *)

(** *** The Duplicate Filter *)

Lemma too_many_duplicates_iff (s : str) (threshold : Z) :
  too_many_duplicates (PyStr s) threshold = true <->
  exists w : str, w ∈ split_ws s
                  /\ threshold < Z.of_nat (occurrences w (split_ws s)).
Proof.
  unfold too_many_duplicates.
  destruct s as [|c s]; simpl truthy; cbn [negb].
  - split; [done|]. intros (w & Hw & _). by apply elem_of_nil in Hw.
  - cbn [py_str]. rewrite existsb_exists. split.
    + intros ([w n] & Hin & Hlt). simpl in Hlt.
      apply list_elem_of_In, elem_of_map_to_list in Hin.
      rewrite count_words_lookup in Hin.
      case_decide; [done|]. injection Hin as <-.
      exists w. split; [apply occurrences_pos; lia | lia].
    + intros (w & Hw & Hlt).
      exists (w, Z.of_nat (occurrences w (split_ws (c :: s)))). split.
      * apply list_elem_of_In, elem_of_map_to_list.
        rewrite count_words_lookup. apply occurrences_pos in Hw.
        case_decide; [lia | done].
      * simpl. lia.
Qed.

Lemma occurrences_le_length w l : (occurrences w l <= length l)%nat.
Proof.
  induction l as [|x l IH]; [done|]. rewrite occurrences_cons. simpl.
  case_bool_decide; lia.
Qed.

(** X16.  The Duplicate Filter and its threshold.  An item that is
    flagged under a threshold is flagged under every lower one.  An item
    with no more words than the threshold is not flagged.  Under a
    threshold below 1 every item with a word is flagged. *)
Theorem too_many_duplicates_threshold (line : pyval) (s : str)
    (threshold threshold' : Z) :
  (threshold <= threshold' ->
   too_many_duplicates line threshold' = true ->
   too_many_duplicates line threshold = true)
  /\ (Z.of_nat (length (split_ws s)) <= threshold ->
      too_many_duplicates (PyStr s) threshold = false)
  /\ (threshold < 1 -> split_ws s <> [] ->
      too_many_duplicates (PyStr s) threshold = true).
Proof.
  split; [|split].
  - intros Hle. destruct line as [|s']; [done|].
    rewrite !too_many_duplicates_iff. intros (w & Hw & Hlt).
    exists w. split; [done | lia].
  - intros Hlen. apply not_true_is_false.
    intros (w & Hw & Hlt)%too_many_duplicates_iff.
    pose proof (occurrences_le_length w (split_ws s)). lia.
  - intros Hlt Hne. apply too_many_duplicates_iff.
    destruct (split_ws s) as [|w ws] eqn:E; [done|].
    exists w. split; [by left|].
    assert (0 < occurrences w (w :: ws))%nat
      by (apply occurrences_pos; by left).
    lia.
Qed.

(** *** The cleaning transform *)

Lemma newlines_to_spaces_id s : nl ∉ s -> newlines_to_spaces s = s.
Proof.
  unfold newlines_to_spaces. induction s as [|c s IH]; intros Hs; [done|].
  simpl. rewrite IH by (intros ?; apply Hs; by right).
  destruct (N.eqb c nl) eqn:E; [|done].
  apply N.eqb_eq in E. subst c. destruct Hs. by left.
Qed.

Lemma strip_quotes_id s : dquote ∉ s -> squote ∉ s -> strip_quotes s = s.
Proof.
  unfold strip_quotes. induction s as [|c s IH]; intros Hd Hs; [done|].
  simpl.
  destruct (N.eqb c dquote) eqn:E1;
    [apply N.eqb_eq in E1; subst c; destruct Hd; by left|].
  destruct (N.eqb c squote) eqn:E2;
    [apply N.eqb_eq in E2; subst c; destruct Hs; by left|].
  simpl. rewrite IH; [done| |]; intros ?; [apply Hd | apply Hs]; by right.
Qed.

(** X17.  A clean label is its own cleaning; it is the words of itself
    joined by single spaces, so it neither starts nor ends with a space
    and has no two spaces in a row. *)
Theorem clean_idempotent (raw : str) :
  clean (clean raw) = clean raw
  /\ join [sp] (split_ws (clean raw)) = clean raw.
Proof.
  assert (join [sp] (split_ws (clean raw)) = clean raw) as Hjoin.
  { rewrite clean_first_words, split_ws_first_words. done. }
  split; [|done].
  rewrite (clean_first_words (clean raw)).
  rewrite newlines_to_spaces_id, strip_quotes_id.
  - unfold first_words. rewrite clean_first_words at 1.
    rewrite split_ws_first_words, take_take, Nat.min_id.
    by rewrite clean_first_words.
  - rewrite clean_first_words.
    intros [H|[_ H]]%elem_of_first_words; [done|].
    by apply elem_of_strip_quotes in H as (_ & ? & _).
  - rewrite clean_first_words.
    intros [H|[_ H]]%elem_of_first_words; [done|].
    by apply elem_of_strip_quotes in H as (_ & _ & ?).
  - rewrite clean_first_words.
    intros [H|[H _]]%elem_of_first_words; done.
Qed.

(** *** The digest, item by item *)

Lemma drop_duplicates_from_snoc seen items t :
  drop_duplicates_from seen (items ++ [t]) =
  drop_duplicates_from seen items
  ++ (if bool_decide (t ∈ seen \/ t ∈ items) then [] else [t]).
Proof.
  revert seen. induction items as [|x items IH]; intros seen; simpl.
  - case_bool_decide as H1; case_bool_decide as H2; try done.
    + destruct H2. by left.
    + destruct H2 as [?|?%elem_of_nil]; done.
  - case_bool_decide as Hx.
    + rewrite IH. f_equal.
      case_bool_decide as H1; case_bool_decide as H2; try done.
      * destruct H2. destruct H1; [by left | by right; right].
      * destruct H1. destruct H2 as [?|[->|?]%elem_of_cons]; auto.
    + simpl. rewrite IH. do 2 f_equal.
      case_bool_decide as H1; case_bool_decide as H2; try done.
      * destruct H2. destruct H1 as [[->|?]%elem_of_cons|?];
          [right; by left | by left | right; by right].
      * destruct H1. destruct H2 as [?|[->|?]%elem_of_cons];
          [left; by right | left; by left | by right].
Qed.

Lemma enumerate_snoc {A} (l : list A) (x : A) :
  enumerate (l ++ [x]) = enumerate l ++ [(length l, x)].
Proof.
  unfold enumerate. rewrite imap_app. simpl. by rewrite Nat.add_0_r.
Qed.

Lemma numbered_lines_snoc items t :
  numbered_lines (items ++ [t]) =
  numbered_lines items
  ++ (if too_many_duplicates t default_threshold then []
      else [render_item (length items) t]).
Proof.
  unfold numbered_lines. rewrite enumerate_snoc, List.filter_app, map_app.
  f_equal. simpl. by destruct (too_many_duplicates t default_threshold).
Qed.

(** X18.  The digest, one item more.  An item that occurred before in
    the cluster, or that the Duplicate Filter flags, leaves the lines of
    the digest as they are.  Any other item adds one line at the end;
    its number is one more than the count of the distinct items before
    it, flagged ones included. *)
Theorem cluster_text_snoc (items : list pyval) (t : pyval) :
  let unique := drop_duplicates items in
  cluster_text (items ++ [t]) =
  if bool_decide (t ∈ items) then cluster_text items
  else if too_many_duplicates t default_threshold then cluster_text items
  else join [nl] (numbered_lines unique
                  ++ [str_of_nat (length unique + 1) ++ u ". " ++ py_str t]).
Proof.
  intros unique. unfold cluster_text, drop_duplicates.
  rewrite drop_duplicates_from_snoc.
  case_bool_decide as H1; case_bool_decide as H2.
  - by rewrite app_nil_r.
  - destruct H2. by destruct H1 as [?%elem_of_nil|?].
  - destruct H1. by right.
  - rewrite numbered_lines_snoc.
    destruct (too_many_duplicates t default_threshold); [by rewrite app_nil_r|].
    done.
Qed.

(** *** The cut to the budget *)

(** X19.  The cut of the encoded text, for every budget.  What is kept
    is an initial part of the encoded text: all of it when it fits the
    budget; the first [budget] tokens when it does not and the budget is
    not negative; and under a negative budget the text less its last
    [-budget] tokens, nothing when it has no more than that. *)
Theorem truncate_prefix_length {T} (encode : str -> list T) (budget : Z)
    (text : str) :
  let n := Z.of_nat (length (encode text)) in
  truncate encode budget text `prefix_of` encode text
  /\ Z.of_nat (length (truncate encode budget text))
     = if n <=? budget then n
       else if 0 <=? budget then budget
       else Z.max 0 (n + budget).
Proof.
  intros n. unfold truncate, slice_to. fold n.
  destruct (Z.ltb_spec budget n) as [Hlt|Hge].
  - rewrite (proj2 (Z.leb_gt n budget)) by lia.
    destruct (Z.leb_spec 0 budget) as [Hb|Hb].
    + split; [apply prefix_take|]. rewrite length_take. lia.
    + split; [apply prefix_take|]. rewrite length_take. lia.
  - rewrite (proj2 (Z.leb_le n budget)) by lia. done.
Qed.

(** ** The properties above on runs of the example model *)

(** No input; an input without the default table; a rerun of a run that
    has no table. *)
Lemma labeler_missing_file_witness :
  toy_labeler 1000 (u "text") (u "cluster-001") (u "m") [] PyNone empty_world
  = (Raise (FileNotFoundError (u "input.parquet")), empty_world)
  /\ (let w := World (Some toy_df) ∅ ([] : list chat_result) [] in
      toy_labeler 1000 (u "text") (u "cluster-001") (u "m") [] PyNone w
      = (Raise (FileNotFoundError (u "cluster-001-labels-default.parquet")), w))
  /\ (let w := toy_world [toy_row [0]%nat false] [] in
      toy_labeler 1000 (u "text") (u "cluster-001") (u "m") []
                  (PyStr (u "cluster-001-labels-007")) w
      = (Raise (FileNotFoundError (u "cluster-001-labels-007.parquet")), w)).
Proof.
  split; [|split].
  - apply (proj1 (labeler_missing_file char_encode char_decode 1000 scripted
                    (u "text") (u "cluster-001") (u "m") [] PyNone empty_world)).
    reflexivity.
  - intros w.
    apply (proj1 (proj2 (labeler_missing_file char_encode char_decode 1000
                           scripted (u "text") (u "cluster-001") (u "m") []
                           PyNone w))).
    + by eexists.
    + intros td. vm_compute. discriminate.
  - intros w.
    apply (proj2 (proj2 (labeler_missing_file char_encode char_decode 1000
                           scripted (u "text") (u "cluster-001") (u "m") []
                           (PyStr (u "cluster-001-labels-007")) w))
             (u "cluster-001-labels-007") [toy_row [0]%nat false]).
    + reflexivity.
    + by eexists.
    + vm_compute. reflexivity.
    + intros t. vm_compute. discriminate.
Defined.

(** A cluster with the member 7 over a table of five records. *)
Lemma bad_member_raises_before_labeling_witness :
  let t := [toy_row [0; 1]%nat false; toy_row [2; 7]%nat false] in
  let w := toy_world t [ChatReturn (PyStr (u "Letters"))] in
  exists j w',
    toy_labeler 1000 (u "text") (u "cluster-001") (u "m") [] PyNone w
    = (Raise (KeyError j), w')
    /\ toy_df !! j = None
    /\ (exists r, r ∈ t /\ j ∈ indices r)
    /\ cluster_dir w' = cluster_dir w
    /\ model_state w' = model_state w
    /\ calls (new_events w w') = []
    /\ persists (new_events w w') = [].
Proof.
  intros t w.
  apply (bad_member_raises_before_labeling char_encode char_decode 1000 scripted
           (u "text") (u "cluster-001") (u "m") [] PyNone w toy_df t t).
  - reflexivity.
  - vm_compute. reflexivity.
  - reflexivity.
  - exists (toy_row [2; 7]%nat false), 7%nat.
    split; [right; by left|]. split; [right; by left|]. reflexivity.
Defined.

(** A fresh run in a directory that holds the table of an older run. *)
Lemma labeler_touches_only_its_files_witness :
  let t := [toy_row [0; 1; 2]%nat false; toy_row [3; 4]%nat false] in
  let w0 := toy_world t [ChatReturn (PyStr (u "Letters")); ChatRaise (u "rate limit")] in
  let rw := toy_labeler 1000 (u "text") (u "cluster-001") (u "m") [] PyNone w0 in
  input (snd rw) = input w0
  /\ cluster_dir (snd rw) !! u "run.parquet" = Some (Parquet t).
Proof.
  intros t w0 rw.
  destruct (labeler_touches_only_its_files char_encode char_decode 1000 scripted
              (u "text") (u "cluster-001") (u "m") [] PyNone w0 (fst rw) (snd rw))
    as [Hin Hdir].
  - apply surjective_pairing.
  - split; [exact Hin|]. rewrite Hdir.
    + vm_compute. reflexivity.
    + vm_compute. discriminate.
    + vm_compute. discriminate.
Defined.

(** A default table without rows. *)
Lemma empty_table_run_witness :
  let w0 := toy_world [] [] in
  exists w,
    toy_labeler 1000 (u "text") (u "cluster-001") (u "m") [] PyNone w0 = (Val tt, w)
    /\ calls (new_events w0 w) = []
    /\ persists (new_events w0 w) = []
    /\ cluster_dir w !! u "cluster-001-labels-001.parquet" = None
    /\ is_Some (cluster_dir w !! u "cluster-001-labels-001.json").
Proof.
  intros w0.
  pose (p := prepare char_encode char_decode 1000 (M:=list chat_result)
                     (u "cluster-001") [] PyNone w0).
  pose (s := match fst p with Val s => s | _ => Setup None [] [] [] 0 end).
  assert (prepare char_encode char_decode 1000 (u "cluster-001") [] PyNone w0
          = (fst p, snd p)) as Hp by apply surjective_pairing.
  assert (fst p = Val s) as Hs by (vm_compute; reflexivity).
  rewrite Hs in Hp. clear Hs.
  destruct (empty_table_run char_encode char_decode 1000 scripted
              (u "text") (u "cluster-001") (u "m") [] PyNone w0 s (snd p) Hp)
    as (w & Hrun & Hc & Hps & _ & Hdir).
  - vm_compute. reflexivity.
  - exists w. split; [exact Hrun|]. split; [exact Hc|]. split; [exact Hps|].
    rewrite Hdir. split; [vm_compute; reflexivity|].
    eexists. vm_compute. reflexivity.
Defined.

(** A fresh run over two clusters with a model that always answers. *)
Lemma run_completes_witness :
  let t := [toy_row [0; 1; 2]%nat false; toy_row [3; 4]%nat false] in
  let w0 := toy_world t [] in
  exists w t',
    labeler char_encode char_decode 1000 (steady (u "Letters"))
            (u "text") (u "cluster-001") (u "m") [] PyNone w0 = (Val tt, w)
    /\ (forall r, r ∈ t' -> labeled r = true)
    /\ first_unlabeled t' = None
    /\ (calls (new_events w0 w) <> [] ->
        cluster_dir w !! u "cluster-001-labels-001.parquet" = Some (Parquet t')).
Proof.
  intros t w0.
  pose (p := prepare char_encode char_decode 1000 (M:=list chat_result)
                     (u "cluster-001") [] PyNone w0).
  pose (s := match fst p with Val s => s | _ => Setup None [] [] [] 0 end).
  assert (prepare char_encode char_decode 1000 (u "cluster-001") [] PyNone w0
          = (fst p, snd p)) as Hp by apply surjective_pairing.
  assert (fst p = Val s) as Hs by (vm_compute; reflexivity).
  rewrite Hs in Hp. clear Hs.
  destruct (run_completes char_encode char_decode 1000 (steady (u "Letters"))
              (u "text") (u "cluster-001") (u "m") [] PyNone w0 s (snd p) 0 Hp)
    as (w & t' & Hrun & _ & _ & _ & Hall & Hnone & Hfile & _).
  - vm_compute. reflexivity.
  - intros m msgs. eexists _, _. reflexivity.
  - exists w, t'. split; [exact Hrun|]. split; [exact Hall|].
    split; [exact Hnone|]. intros Hne.
    assert (label_id s ++ u ".parquet" = u "cluster-001-labels-001.parquet") as <-
        by (vm_compute; reflexivity).
    by apply Hfile.
Defined.

(** A fresh run whose second call raises. *)
Lemma interrupted_fresh_run_witness :
  let t := [toy_row [0; 1; 2]%nat false; toy_row [3; 4]%nat false] in
  let w0 := toy_world t [ChatReturn (PyStr (u "Letters")); ChatRaise (u "rate limit")] in
  let rw := toy_labeler 1000 (u "text") (u "cluster-001") (u "m") [] PyNone w0 in
  exists n,
    (n < 2)%nat
    /\ calls (new_events w0 (snd rw)) = seq 0 (S n)
    /\ length (persists (new_events w0 (snd rw))) = n
    /\ input (snd rw) = input w0.
Proof.
  intros t w0 rw.
  assert (toy_labeler 1000 (u "text") (u "cluster-001") (u "m") [] PyNone w0
          = (fst rw, snd rw)) as Hrun by apply surjective_pairing.
  assert (fst rw = Exit 1) as Hr by (vm_compute; reflexivity).
  rewrite Hr in Hrun. clear Hr.
  destruct (interrupted_fresh_run char_encode char_decode 1000 scripted
              (u "text") (u "cluster-001") (u "m") [] w0 toy_df t 1 (snd rw))
    as (n & _ & Hn & Hc & Hps & Hin & _).
  - reflexivity.
  - vm_compute. reflexivity.
  - exact Hrun.
  - exists n. split; [exact Hn|]. split; [exact Hc|]. split; [exact Hps|].
    exact Hin.
Defined.

(** The run above, resumed with a model that always answers. *)
Lemma resume_after_exit_witness :
  let t := [toy_row [0; 1; 2]%nat false; toy_row [3; 4]%nat false] in
  let w0 := toy_world t [ChatReturn (PyStr (u "Letters")); ChatRaise (u "rate limit")] in
  let w := snd (toy_labeler 1000 (u "text") (u "cluster-001") (u "m") [] PyNone w0) in
  let lid := fresh_label_id (u "cluster-001") (map fst (map_to_list (cluster_dir w0))) in
  exists n w' t',
    calls (new_events w0 w) = seq 0 (S n)
    /\ labeler char_encode char_decode 1000 (steady (u "Words"))
               (u "text") (u "cluster-001") (u "m") [] (PyStr lid) w
       = (Val tt, w')
    /\ calls (new_events w w') = seq n (2 - n)
    /\ cluster_dir w' !! (lid ++ u ".parquet") = Some (Parquet t')
    /\ map indices t' = map indices t
    /\ (forall r, r ∈ t' -> labeled r = true).
Proof.
  intros t w0 w lid.
  pose (rw := toy_labeler 1000 (u "text") (u "cluster-001") (u "m") [] PyNone w0).
  assert (toy_labeler 1000 (u "text") (u "cluster-001") (u "m") [] PyNone w0
          = (fst rw, snd rw)) as Hrun by apply surjective_pairing.
  assert (fst rw = Exit 1) as Hr by (vm_compute; reflexivity).
  rewrite Hr in Hrun. clear Hr.
  apply (resume_after_exit char_encode char_decode 1000 scripted
           (steady (u "Words")) (u "text") (u "cluster-001") (u "m") []
           w0 toy_df t 1 w).
  - reflexivity.
  - vm_compute. reflexivity.
  - exact Hrun.
  - vm_compute. discriminate.
  - intros m msgs. eexists _, _. reflexivity.
Defined.

(** A fresh run whose first call raises. *)
Lemma first_cluster_failure_leaves_no_run_witness :
  let t := [toy_row [0; 1; 2]%nat false; toy_row [3; 4]%nat false] in
  let w0 := toy_world t [ChatRaise (u "rate limit")] in
  let w := snd (toy_labeler 1000 (u "text") (u "cluster-001") (u "m") [] PyNone w0) in
  let lid := fresh_label_id (u "cluster-001") (map fst (map_to_list (cluster_dir w0))) in
  calls (new_events w0 w) = [0%nat]
  /\ cluster_dir w = cluster_dir w0
  /\ labeler char_encode char_decode 1000 (steady (u "Words"))
             (u "text") (u "cluster-001") (u "m") [] (PyStr lid) w
     = (Raise (FileNotFoundError (lid ++ u ".parquet")), w)
  /\ fresh_label_id (u "cluster-001") (map fst (map_to_list (cluster_dir w))) = lid.
Proof.
  intros t w0 w lid.
  pose (rw := toy_labeler 1000 (u "text") (u "cluster-001") (u "m") [] PyNone w0).
  assert (toy_labeler 1000 (u "text") (u "cluster-001") (u "m") [] PyNone w0
          = (fst rw, snd rw)) as Hrun by apply surjective_pairing.
  assert (fst rw = Exit 1) as Hr by (vm_compute; reflexivity).
  rewrite Hr in Hrun. clear Hr.
  apply (first_cluster_failure_leaves_no_run char_encode char_decode 1000 scripted
           (steady (u "Words")) (u "text") (u "cluster-001") (u "m") []
           w0 toy_df t 1 w).
  - reflexivity.
  - vm_compute. reflexivity.
  - exact Hrun.
  - vm_compute. reflexivity.
Defined.

(** The default threshold and two items. *)
Lemma too_many_duplicates_threshold_witness :
  too_many_duplicates (PyStr (u "x x x x x x x x x x x y")) 3 = true
  /\ too_many_duplicates (PyStr (u "a a a a a a a a a a")) default_threshold = false
  /\ too_many_duplicates (PyStr (u "a b")) 0 = true.
Proof.
  destruct (too_many_duplicates_threshold (PyStr (u "x x x x x x x x x x x y"))
              (u "a a a a a a a a a a") 3 10) as (H1 & _ & _).
  destruct (too_many_duplicates_threshold PyNone (u "a a a a a a a a a a")
              default_threshold 10) as (_ & H2 & _).
  destruct (too_many_duplicates_threshold PyNone (u "a b") 0 0) as (_ & _ & H3).
  split; [|split].
  - apply H1; [lia | vm_compute; reflexivity].
  - apply H2. vm_compute. discriminate.
  - apply H3; [lia | vm_compute; discriminate].
Defined.

(** A resumed run over two clusters, the first one labeled: one call,
    and a report of one label. *)
Lemma final_report_counts_calls_witness :
  let t := [toy_row [3; 4]%nat true; toy_row [0; 1; 2]%nat false] in
  let w0 := toy_world t [ChatReturn (PyStr (u "Letters"))] in
  let w := snd (toy_labeler 1000 (u "text") (u "cluster-001") (u "m") []
                            (PyStr (u "run")) w0) in
  exists evs meta,
    new_events w0 w
    = evs ++ [EWrite (u "labels: 1"); EJsonDump (u "run.json") meta;
              EWrite (u "done with run")].
Proof.
  intros t w0 w.
  pose (p := prepare char_encode char_decode 1000 (M:=list chat_result)
                     (u "cluster-001") [] (PyStr (u "run")) w0).
  pose (s := match fst p with Val s => s | _ => Setup None [] [] [] 0 end).
  assert (prepare char_encode char_decode 1000 (u "cluster-001") []
                  (PyStr (u "run")) w0 = (fst p, snd p)) as Hp
      by apply surjective_pairing.
  assert (fst p = Val s) as Hs by (vm_compute; reflexivity).
  rewrite Hs in Hp. clear Hs.
  pose (rw := toy_labeler 1000 (u "text") (u "cluster-001") (u "m") []
                          (PyStr (u "run")) w0).
  assert (toy_labeler 1000 (u "text") (u "cluster-001") (u "m") []
                      (PyStr (u "run")) w0 = (fst rw, snd rw)) as Hrun
      by apply surjective_pairing.
  assert (fst rw = Val tt) as Hr by (vm_compute; reflexivity).
  rewrite Hr in Hrun. clear Hr.
  destruct (final_report_counts_calls char_encode char_decode 1000 scripted
              (u "text") (u "cluster-001") (u "m") [] (PyStr (u "run")) w0
              s (snd p) w Hp Hrun) as (evs & Hev & _).
  exists evs. eexists. rewrite Hev. f_equal; vm_compute; reflexivity.
Defined.
